(** * The WinRM connection plugin: negotiation, shell session, chunked transfer

    A shallow embedding of [lib/ansible/plugins/connections/winrm.py]
    (class [Connection]) and the properties of its transport negotiator,
    its shell session and its two chunked file transfers.

    The plugin is Python 2 code ([xrange], [except E as exc] leaving [exc]
    bound after the handler, byte strings).  Strings are [string] (bytes),
    Python integers are [Z], Python floats are IEEE binary64 ([PrimFloat]).
    The remote end (pywinrm's [Protocol]) is an oracle that answers every
    request from the history of requests made so far; every request the
    plugin makes is appended to that history. *)

From Stdlib Require Import ZArith List String Ascii Bool Lia.
From Stdlib Require Import Floats DecimalString.
Import ListNotations.

#[local] Set Warnings "-inexact-float,-abstract-large-number".
#[local] Open Scope list_scope.
#[local] Open Scope string_scope.
#[local] Open Scope Z_scope.

(* ===================================================================== *)
(** * Python built-ins the plugin relies on *)
(* ===================================================================== *)

Module Py.

(** The double quote, for script text. *)
Definition dq : string := String (ascii_of_nat 34) EmptyString.
(** The line feed. *)
Definition nl : string := String (ascii_of_nat 10) EmptyString.

(** [len(s)]. *)
Definition len (s : string) : Z := Z.of_nat (String.length s).

(** [string.whitespace] of the "C" locale: space, \t, \n, \v, \f, \r. *)
Definition is_space (c : ascii) : bool :=
  let n := nat_of_ascii c in
  (Nat.eqb n 32 || (Nat.leb 9 n && Nat.leb n 13))%bool.

(** [\d] on byte strings: 0..9. *)
Definition is_digit (c : ascii) : bool :=
  let n := nat_of_ascii c in (Nat.leb 48 n && Nat.leb n 57)%bool.

(** [c.lower()] on one byte: only A..Z change. *)
Definition lower_ascii (c : ascii) : ascii :=
  let n := nat_of_ascii c in
  if (Nat.leb 65 n && Nat.leb n 90)%bool then ascii_of_nat (n + 32) else c.

(** [s.lower()]. *)
Fixpoint lower (s : string) : string :=
  match s with
  | EmptyString => EmptyString
  | String c s' => String (lower_ascii c) (lower s')
  end.

(** [s.startswith(prefix)]. *)
Fixpoint startswith (s prefix : string) : bool :=
  match prefix, s with
  | EmptyString, _ => true
  | String _ _, EmptyString => false
  | String a p', String b s' => (Ascii.eqb a b && startswith s' p')%bool
  end.

(** [s[::-1]]. *)
Fixpoint reverse (s : string) : string :=
  match s with
  | EmptyString => EmptyString
  | String c s' => reverse s' ++ String c EmptyString
  end.

(** [s.endswith(suffix)]. *)
Definition endswith (s suffix : string) : bool :=
  startswith (reverse s) (reverse suffix).

(** [s.lstrip()]. *)
Fixpoint lstrip (s : string) : string :=
  match s with
  | EmptyString => EmptyString
  | String c s' => if is_space c then lstrip s' else s
  end.

(** [s.rstrip()]. *)
Definition rstrip (s : string) : string := reverse (lstrip (reverse s)).

(** [s.strip()]. *)
Definition strip (s : string) : string := rstrip (lstrip s).

(** [c in s] for a one-byte [c]. *)
Fixpoint contains (c : ascii) (s : string) : bool :=
  match s with
  | EmptyString => false
  | String a s' => (Ascii.eqb a c || contains c s')%bool
  end.

(** [s.split(c, 1)[1]]: the text after the first [c]; [None] stands for
    the IndexError of a string without [c]. *)
Fixpoint split1_tail (c : ascii) (s : string) : option string :=
  match s with
  | EmptyString => None
  | String a s' => if Ascii.eqb a c then Some s' else split1_tail c s'
  end.

(** ['%d' % z]. *)
Definition str_of_int (z : Z) : string := NilZero.string_of_int (Z.to_int z).

(** [s[:n]] and [s[n:]] for [n >= 0]. *)
Fixpoint take (n : nat) (s : string) : string :=
  match n, s with
  | O, _ => EmptyString
  | S _, EmptyString => EmptyString
  | S n', String c s' => String c (take n' s')
  end.

Fixpoint drop (n : nat) (s : string) : string :=
  match n, s with
  | O, _ => s
  | S _, EmptyString => EmptyString
  | S n', String _ s' => drop n' s'
  end.

(** [xrange(start, stop, step)] for a step that is not zero (a zero
    step is a ValueError, raised by the caller of this function). *)
Definition xrange_len (start stop step : Z) : nat :=
  if 0 <? step then Z.to_nat ((stop - start + step - 1) / step)
  else Z.to_nat ((start - stop - step - 1) / (- step)).

Definition xrange (start stop step : Z) : list Z :=
  map (fun i => start + Z.of_nat i * step) (seq 0 (xrange_len start stop step)).

(** ** The two regular expressions of the negotiator

    A tiny backtracking matcher, in continuation style: a matcher takes
    the rest of the subject and returns what the whole match yields. *)

(** A literal, byte for byte ([ci = false]) or ignoring ASCII case
    ([re.I], [ci = true]). *)
Fixpoint re_lit {A} (ci : bool) (lit : string) (k : string -> option A)
         (s : string) : option A :=
  match lit with
  | EmptyString => k s
  | String a lit' =>
      match s with
      | EmptyString => None
      | String b s' =>
          if (if ci then Ascii.eqb (lower_ascii a) (lower_ascii b)
              else Ascii.eqb a b)
          then re_lit ci lit' k s' else None
      end
  end.

(** [\s+?]: one whitespace byte, then as few more as the rest of the
    pattern needs. *)
Fixpoint re_spaces_lazy {A} (k : string -> option A) (s : string) : option A :=
  match s with
  | EmptyString => None
  | String c s' =>
      if is_space c then
        match k s' with
        | Some r => Some r
        | None => re_spaces_lazy k s'
        end
      else None
  end.

(** [(\d{3})]: three digits, captured. *)
Definition re_three_digits (s : string) : option string :=
  match s with
  | String a (String b (String c _)) =>
      if (is_digit a && is_digit b && is_digit c)%bool
      then Some (String a (String b (String c EmptyString))) else None
  | _ => None
  end.

(** [re.search]: the match at the leftmost position that has one. *)
Fixpoint re_search {A} (m : string -> option A) (s : string) : option A :=
  match m s with
  | Some r => Some r
  | None =>
      match s with
      | EmptyString => None
      | String _ s' => re_search m s'
      end
  end.

(** [int(s)] for a string of decimal digits. *)
Definition int_of_digits (s : string) : Z :=
  (fix go (acc : Z) (s : string) : Z :=
     match s with
     | EmptyString => acc
     | String c s' => go (10 * acc + (Z.of_nat (nat_of_ascii c) - 48)) s'
     end) 0 s.

(** [re.search(r'Operation\s+?timed\s+?out', s, re.I)] as a truth value. *)
Definition search_timed_out (s : string) : bool :=
  match re_search
          (re_lit true "Operation"
             (re_spaces_lazy
                (re_lit true "timed"
                   (re_spaces_lazy
                      (re_lit true "out" (fun _ => Some tt)))))) s with
  | Some _ => true
  | None => false
  end.

(** [m = re.search(r'Code\s+?(\d{3})', s)] followed by
    [int(m.groups()[0])]; [None] when there is no match. *)
Definition search_code (s : string) : option Z :=
  option_map int_of_digits
    (re_search (re_lit false "Code" (re_spaces_lazy re_three_digits)) s).

(** ** Floats: [int / float], [float / float] and [int(float)] *)

(** The conversion of a Python integer to a float (round to nearest
    even). *)
Definition float_of_int (z : Z) : float :=
  SF2Prim (binary_normalize prec emax z 0 false).

(** [int(f)]: truncation toward zero; [None] stands for the error
    raised on an infinity or a NaN. *)
Definition int_of_float (f : float) : option Z :=
  match Prim2SF f with
  | S754_zero _ => Some 0
  | S754_finite s m e =>
      let mag := if 0 <=? e then Z.shiftl (Zpos m) e
                 else Z.shiftr (Zpos m) (- e) in
      Some (if s then - mag else mag)
  | S754_infinity _ | S754_nan => None
  end.

(** [' ' * n]. *)
Fixpoint spaces (n : nat) : string :=
  match n with
  | O => EmptyString
  | S n' => String " " (spaces n')
  end.

(** [f.read(n)] on what is left of a file: the bytes read, and what is
    left afterwards.  A negative [n] reads everything. *)
Definition file_read (n : Z) (left : string) : string :=
  if n <? 0 then left else take (Z.to_nat n) left.

Definition file_rest (n : Z) (left : string) : string :=
  if n <? 0 then EmptyString else drop (Z.to_nat n) left.

(** [s.replace(a, b)] for one-byte [a] and [b]. *)
Fixpoint replace_char (a b : ascii) (s : string) : string :=
  match s with
  | EmptyString => EmptyString
  | String c s' =>
      String (if Ascii.eqb c a then b else c) (replace_char a b s')
  end.

(** [s.lstrip('/')]. *)
Fixpoint lstrip_slash (s : string) : string :=
  match s with
  | EmptyString => EmptyString
  | String c s' => if Ascii.eqb c "/" then lstrip_slash s' else s
  end.

(** What is left of [s] from its first ['/'] on (empty without one). *)
Fixpoint from_slash (s : string) : string :=
  match s with
  | EmptyString => EmptyString
  | String c s' => if Ascii.eqb c "/" then s else from_slash s'
  end.

(** [os.path.dirname(p)] of [posixpath]: everything up to the last
    ['/'], without trailing slashes unless it is made of slashes only. *)
Definition dirname (p : string) : string :=
  let head_rev := from_slash (reverse p) in
  match lstrip_slash head_rev with
  | EmptyString => reverse head_rev
  | stripped => reverse stripped
  end.

End Py.

(* ===================================================================== *)
(** * Data model *)
(* ===================================================================== *)

(** The authentication mechanisms and URL schemes of the attempt table. *)
Inductive Transport := kerberos | plaintext.
Inductive Scheme := http | https.

Definition Transport_eqb (a b : Transport) : bool :=
  match a, b with
  | kerberos, kerberos | plaintext, plaintext => true
  | _, _ => false
  end.

Definition scheme_str (s : Scheme) : string :=
  match s with http => "http" | https => "https" end.

(** [self._connection_info]: the target and the credential.  [port] may
    be unset ([None]). *)
Record ConnectionInfo := {
  remote_addr : string;
  port : option Z;
  remote_user : string;
  conn_password : string
}.

(** pywinrm's [Protocol(endpoint, transport=, username=, password=,
    realm=)]: the connection handle. *)
Record Protocol := {
  endpoint : string;
  transport : Transport;
  username : string;
  password : string;
  realm : option string
}.

(** pywinrm's [Response]: what one command execution yields. *)
Record Response := {
  std_out : string;
  std_err : string;
  status_code : Z
}.

(** Every call the plugin makes on a [Protocol].  Shell ids are passed as
    the session holds them ([None] or a string). *)
Inductive Request :=
| send_message (p : Protocol) (message : string)
| open_shell (p : Protocol)
| run_command (p : Protocol) (shell : option string) (command : string)
              (args : list string)
| get_command_output (p : Protocol) (shell : option string)
                     (command_id : string)
| cleanup_command (p : Protocol) (shell : option string) (command_id : string)
| close_shell (p : Protocol) (shell : option string).

(** The exceptions that travel through the plugin.  All of them are
    subclasses of [Exception]. *)
Inductive exn :=
| WinRMTransportError (msg : string)
| AnsibleError (msg : string)
| AnsibleFileNotFound (msg : string)
| IOError (msg : string)
| ValueError (msg : string)
| OverflowError
| AttributeError
| IndexError
| TypeError
| OtherError (msg : string).

Inductive result (A : Type) :=
| Ok (a : A)
| Raise (e : exn).
Arguments Ok {A} a.
Arguments Raise {A} e.

(** The remote end.  Each answer may depend on everything requested
    before (the history, oldest first). *)
Record Remote := {
  on_send_message : list Request -> Protocol -> string -> result unit;
  on_open_shell : list Request -> Protocol -> result string;
  on_run_command : list Request -> Protocol -> option string -> string ->
                   list string -> result string;
  on_get_command_output : list Request -> Protocol -> option string ->
                          string -> result (string * string * Z);
  on_cleanup_command : list Request -> Protocol -> option string -> string ->
                       result unit;
  on_close_shell : list Request -> Protocol -> option string -> result unit
}.

(** The PowerShell shell plugin ([self._shell]), of which the connection
    uses three operations. *)
Record ShellPlugin := {
  _escape : string -> string;
  (** [_encode_script(script)] *)
  _encode_script : string -> string;
  (** [_encode_script(script, as_list=True)] *)
  _encode_script_as_list : string -> list string
}.

(** The [base64] module.  Decoding fails (TypeError) on malformed text. *)
Record Base64 := {
  b64encode : string -> string;
  b64decode : string -> option string
}.

(** The local file system, as far as the transfers look at it. *)
Inductive Node :=
| File (content : string)
| Dir.

Definition Disk := string -> option Node.

Definition disk_set (d : Disk) (path : string) (n : Node) : Disk :=
  fun q => if String.eqb q path then Some n else d q.

(** [self]: the two lazily created handles of the session. *)
Record Connection := {
  protocol : option Protocol;
  shell_id : option string
}.

(** The state a call runs in: the session object, the history of
    requests sent to the remote end, and the local disk. *)
Record World := {
  self : Connection;
  wire : list Request;
  disk : Disk
}.

Definition set_protocol (p : option Protocol) (w : World) : World :=
  {| self := {| protocol := p; shell_id := shell_id (self w) |};
     wire := wire w; disk := disk w |}.

Definition set_shell_id (s : option string) (w : World) : World :=
  {| self := {| protocol := protocol (self w); shell_id := s |};
     wire := wire w; disk := disk w |}.

Definition set_disk (d : Disk) (w : World) : World :=
  {| self := self w; wire := wire w; disk := d |}.

Definition sent (r : Request) (w : World) : World :=
  {| self := self w; wire := (wire w ++ [r])%list; disk := disk w |}.

(** Python truth values of the two handles. *)
Definition truthy_str (s : option string) : bool :=
  match s with
  | Some s => negb (String.eqb s "")
  | None => false
  end.

Definition truthy_obj {A} (o : option A) : bool :=
  match o with Some _ => true | None => false end.

(* ===================================================================== *)
(** * Effects: state and exceptions *)
(* ===================================================================== *)

(** A computation runs in a world and ends in a value or a raised
    exception; the world it leaves is kept in both cases. *)
Definition M (A : Type) : Type := World -> result A * World.

Definition ret {A} (a : A) : M A := fun w => (Ok a, w).

Definition raise {A} (e : exn) : M A := fun w => (Raise e, w).

Definition bind {A B} (m : M A) (f : A -> M B) : M B :=
  fun w =>
    match m w with
    | (Ok a, w') => f a w'
    | (Raise e, w') => (Raise e, w')
    end.

Declare Scope py_scope.
Delimit Scope py_scope with py.
Notation "x <- m ;; k" := (bind m (fun x => k))
  (at level 61, m at next level, right associativity) : py_scope.
Notation "m ;;; k" := (bind m (fun _ => k))
  (at level 61, right associativity) : py_scope.
#[local] Open Scope py_scope.

Definition get_self : M Connection := fun w => (Ok (self w), w).
Definition get_disk : M Disk := fun w => (Ok (disk w), w).
Definition modify (f : World -> World) : M unit := fun w => (Ok tt, f w).

(** [try: body except Exception: handler]. *)
Definition try_except {A} (body : M A) (handler : exn -> M A) : M A :=
  fun w =>
    match body w with
    | (Ok a, w') => (Ok a, w')
    | (Raise e, w') => handler e w'
    end.

(** The [finally:] clause after a body that ended as [r]: the clause
    runs, and its own exception, if any, replaces [r]. *)
Definition finally_ {A} (clause : M unit) (r : result A) : M A :=
  fun w =>
    match clause w with
    | (Ok _, w') => (r, w')
    | (Raise e, w') => (Raise e, w')
    end.

(** One call on the remote end: the answer is taken from the history so
    far, and the request joins the history. *)
Definition call {A} (r : Request) (answer : list Request -> result A) : M A :=
  fun w => (answer (wire w), sent r w).

(** A method call on [self.protocol]; on [None] Python raises
    AttributeError. *)
Definition with_protocol {A} (f : Protocol -> M A) : M A :=
  fun w =>
    match protocol (self w) with
    | Some p => f p w
    | None => (Raise AttributeError, w)
    end.

(* ===================================================================== *)
(** * Local files *)
(* ===================================================================== *)

Module Local.

(** [os.path.isdir(path)] *)
Definition isdir (d : Disk) (path : string) : bool :=
  match d path with
  | Some Dir => true
  | _ => false
  end.

(** Modelled from the spec: [ansible.utils.path.makedirs_safe], which is
    not part of this file; it makes sure that the path exists as a
    directory, and leaves an existing path alone. *)
Definition makedirs_safe (path : string) (w : World) : World :=
  match disk w path with
  | None => set_disk (disk_set (disk w) path Dir) w
  | Some _ => w
  end.

(** Whether [open(path, 'wb')] goes through on the disk [d]: the path
    names a file (it is not empty and does not end with a slash), it is
    not a directory, and its directory part, when it has one, is a
    directory.  Other reasons an open can fail for (permissions, a full
    disk) are not part of the disk model. *)
Definition can_open (d : Disk) (path : string) : bool :=
  (negb (String.eqb path "")
   && negb (Py.endswith path "/")
   && negb (isdir d path)
   && (String.eqb (Py.dirname path) "" || isdir d (Py.dirname path)))%bool.

(** [open(path, 'wb')]: the file is created, or emptied; IOError when
    the path cannot be opened. *)
Definition open_wb (path : string) : M unit :=
  fun w =>
    if can_open (disk w) path
    then (Ok tt, set_disk (disk_set (disk w) path (File "")) w)
    else (Raise (IOError path), w).

(** [out_file.write(data)] on the file opened at [path]. *)
Definition write (path data : string) : M unit :=
  fun w =>
    match disk w path with
    | Some (File old) =>
        (Ok tt, set_disk (disk_set (disk w) path (File (old ++ data))) w)
    | _ => (Raise (IOError path), w)
    end.

End Local.

(* ===================================================================== *)
(** * A small concrete environment

    Stand-ins for the collaborators, used to run the plugin on concrete
    inputs. *)
(* ===================================================================== *)

Module Demo.

Definition info : ConnectionInfo :=
  {| remote_addr := "winhost"; port := Some 5985;
     remote_user := "bob@EXAMPLE.COM"; conn_password := "secret" |}.

(** A shell plugin that leaves paths and scripts as they are, and whose
    one-string command line is [overhead] characters long. *)
Definition shell (overhead : nat) : ShellPlugin :=
  {| _escape := fun path => path;
     _encode_script := fun _ => Py.spaces overhead;
     _encode_script_as_list :=
       fun script => ["PowerShell"; "-EncodedCommand"; script] |}.

(** A codec that leaves the bytes as they are. *)
Definition codec : Base64 :=
  {| b64encode := fun s => s; b64decode := fun s => Some s |}.

(** A remote end that answers every probe with [probe], every request
    for the output of a command with [out], and hands out the ids
    [shell-1] and [cmd-1]. *)
Definition server (probe : result unit) (out : result (string * string * Z))
  : Remote :=
  {| on_send_message := fun _ _ _ => probe;
     on_open_shell := fun _ _ => Ok "shell-1";
     on_run_command := fun _ _ _ _ _ => Ok "cmd-1";
     on_get_command_output := fun _ _ _ _ => out;
     on_cleanup_command := fun _ _ _ _ => Ok tt;
     on_close_shell := fun _ _ _ => Ok tt |}.

(** A session that has not connected yet, on a disk that holds one file. *)
Definition fresh (path content : string) : World :=
  {| self := {| protocol := None; shell_id := None |};
     wire := [];
     disk := disk_set (fun _ => None) path (File content) |}.

(** The connection handle of the plaintext attempt over https. *)
Definition handle : Protocol :=
  {| endpoint := "https://winhost:5986/wsman"; transport := plaintext;
     username := "bob@EXAMPLE.COM"; password := "secret"; realm := None |}.

(** A session that holds a connection and an open shell. *)
Definition busy : World :=
  {| self := {| protocol := Some handle; shell_id := Some "shell-0" |};
     wire := [send_message handle ""; open_shell handle];
     disk := fun _ => None |}.

(** A remote end that lets every probe through and runs every command
    with empty output and status 0. *)
Definition obliging : Remote := server (Ok tt) (Ok ("", "", 0)).

(** A remote end that refuses every probe with the given text. *)
Definition refusing (err_msg : string) : Remote :=
  server (Raise (WinRMTransportError err_msg)) (Ok ("", "", 0)).

(** A remote end on which fetching the output of a command breaks. *)
Definition breaking : Remote :=
  server (Ok tt) (Raise (WinRMTransportError "500 Connection reset by peer")).

(** A remote end whose commands print one base64 line. *)
Definition printing (line : string) : Remote :=
  server (Ok tt) (Ok (line ++ Py.nl, "", 0)).

(** A remote end that refuses every probe with a 500, except the
    plaintext probes of an https endpoint, which it answers with
    [answer]. *)
Definition https_only (answer : result unit) : Remote :=
  {| on_send_message :=
       fun _ p _ =>
         if (Transport_eqb (transport p) plaintext
             && Py.startswith (endpoint p) "https://")%bool
         then answer
         else Raise (WinRMTransportError
                       "Bad HTTP response returned from server. Code 500");
     on_open_shell := fun _ _ => Ok "shell-1";
     on_run_command := fun _ _ _ _ _ => Ok "cmd-1";
     on_get_command_output := fun _ _ _ _ => Ok ("", "", 0);
     on_cleanup_command := fun _ _ _ _ => Ok tt;
     on_close_shell := fun _ _ _ => Ok tt |}.

(** A session that has not connected yet, on a disk that holds one
    directory. *)
Definition local (directory : string) : World :=
  {| self := {| protocol := None; shell_id := None |};
     wire := [];
     disk := disk_set (fun _ => None) directory Dir |}.


End Demo.

(* ===================================================================== *)
(** * The plugin *)
(* ===================================================================== *)

(** [Connection.transport_schemes], the class attribute: the attempt
    table, keyed by the base scheme. *)
Definition Connection_transport_schemes (key : Scheme)
  : list (Transport * Scheme) :=
  match key with
  | http => [(kerberos, http); (plaintext, http); (plaintext, https)]
  | https => [(kerberos, https); (plaintext, https)]
  end.

Section Plugin.

(** The module global set by [import kerberos]. *)
Variable HAVE_KERBEROS : bool.
(** [self.transport_schemes]: looked up through the instance, so a
    subclass may bring its own table; [Connection]'s is
    [Connection_transport_schemes]. *)
Variable transport_schemes : Scheme -> list (Transport * Scheme).
Variable _connection_info : ConnectionInfo.
Variable _shell : ShellPlugin.
Variable base64 : Base64.
Variable remote : Remote.

(** ** Transport negotiation: [_winrm_connect] *)

(** [port = self._connection_info.port or 5986] *)
Definition connect_port : Z :=
  match port _connection_info with
  | Some p => if p =? 0 then 5986 else p
  | None => 5986
  end.

(** [netloc = '%s:%d' % (remote_addr, port)] *)
Definition netloc : string :=
  remote_addr _connection_info ++ ":" ++ Py.str_of_int connect_port.

(** [parse.urlunsplit((scheme, netloc, '/wsman', '', ''))] *)
Definition urlunsplit_wsman (scheme : Scheme) : string :=
  scheme_str scheme ++ "://" ++ netloc ++ "/wsman".

(** The test that makes the loop [continue] before anything is sent. *)
Definition skipped (attempt : Transport * Scheme) : bool :=
  (Transport_eqb (fst attempt) kerberos
   && (negb HAVE_KERBEROS
       || negb (Py.contains "@" (remote_user _connection_info))))%bool.

(** [remote_user.split('@', 1)[1].strip() or None] for kerberos, [None]
    otherwise. *)
Definition attempt_realm (t : Transport) : result (option string) :=
  match t with
  | kerberos =>
      match Py.split1_tail "@" (remote_user _connection_info) with
      | Some tail =>
          let r := Py.strip tail in
          Ok (if String.eqb r "" then None else Some r)
      | None => Raise IndexError
      end
  | plaintext => Ok None
  end.

(** The [Protocol(...)] built for one attempt. *)
Definition attempt_protocol (attempt : Transport * Scheme)
           (realm : option string) : Protocol :=
  {| endpoint := urlunsplit_wsman (snd attempt);
     transport := fst attempt;
     username := remote_user _connection_info;
     password := conn_password _connection_info;
     realm := realm |}.

(** The [for transport, scheme in ...] loop.  [exc] is the variable the
    handler binds: the text of the last transport error, [None] before
    the first one. *)
Fixpoint _winrm_connect_loop (attempts : list (Transport * Scheme))
         (exc : option string) : M (option Protocol) :=
  match attempts with
  | [] =>
      match exc with
      | Some msg => raise (AnsibleError msg)
      | None => ret None
      end
  | attempt :: rest =>
      if skipped attempt then _winrm_connect_loop rest exc
      else
        match attempt_realm (fst attempt) with
        | Raise e => raise e
        | Ok realm =>
            let protocol := attempt_protocol attempt realm in
            fun w =>
              match call (send_message protocol "")
                         (fun h => on_send_message remote h protocol "") w
              with
              | (Ok _, w') => (Ok (Some protocol), w')
              | (Raise (WinRMTransportError err_msg), w') =>
                  if Py.search_timed_out err_msg then
                    (Raise (AnsibleError "the connection attempt timed out"),
                     w')
                  else
                    match Py.search_code err_msg with
                    | Some code =>
                        if code =? 401 then
                          (Raise (AnsibleError
                             "the username/password specified for this server was incorrect"),
                           w')
                        else if code =? 411 then (Ok (Some protocol), w')
                        else _winrm_connect_loop rest (Some err_msg) w'
                    | None => _winrm_connect_loop rest (Some err_msg) w'
                    end
              | (Raise e, w') => (Raise e, w')
              end
        end
  end.

Definition _winrm_connect : M (option Protocol) :=
  _winrm_connect_loop
    (transport_schemes (if connect_port =? 5985 then http else https)) None.

(** ** The shell session: [_winrm_exec], [_connect], [close] *)

(** [if not self.protocol: self.protocol = self._winrm_connect()] *)
Definition ensure_protocol : M unit :=
  s <- get_self ;;
  if truthy_obj (protocol s) then ret tt
  else (p <- _winrm_connect ;; modify (set_protocol p)).

(** [if not self.shell_id: self.shell_id = self.protocol.open_shell()] *)
Definition ensure_shell : M unit :=
  s <- get_self ;;
  if truthy_str (shell_id s) then ret tt
  else
    (sh <- with_protocol
             (fun p => call (open_shell p) (fun h => on_open_shell remote h p)) ;;
     modify (set_shell_id (Some sh))).

(** [self.protocol.run_command(self.shell_id, command, args)] *)
Definition protocol_run_command (command : string) (args : list string)
  : M string :=
  s <- get_self ;;
  with_protocol
    (fun p => call (run_command p (shell_id s) command args)
                   (fun h => on_run_command remote h p (shell_id s) command args)).

(** [Response(self.protocol.get_command_output(self.shell_id, command_id))] *)
Definition protocol_get_command_output (command_id : string) : M Response :=
  s <- get_self ;;
  out <- with_protocol
           (fun p => call (get_command_output p (shell_id s) command_id)
                          (fun h => on_get_command_output remote h p
                                      (shell_id s) command_id)) ;;
  ret {| std_out := fst (fst out); std_err := snd (fst out);
         status_code := snd out |}.

(** The [finally:] clause of [_winrm_exec]:
    [if command_id: self.protocol.cleanup_command(self.shell_id, command_id)] *)
Definition cleanup (command_id : option string) : M unit :=
  match command_id with
  | Some cid =>
      if truthy_str command_id then
        s <- get_self ;;
        with_protocol
          (fun p => call (cleanup_command p (shell_id s) cid)
                         (fun h => on_cleanup_command remote h p (shell_id s) cid))
      else ret tt
  | None => ret tt
  end.

(** [_winrm_exec(command, args)].  ([from_exec] only selects the
    verbosity of the log lines.) *)
Definition _winrm_exec (command : string) (args : list string) : M Response :=
  ensure_protocol ;;;
  ensure_shell ;;;
  (* command_id = None; try: *)
  fun w =>
    match protocol_run_command command args w with
    | (Raise e, w1) => finally_ (cleanup None) (Raise e) w1
    | (Ok command_id, w1) =>
        match protocol_get_command_output command_id w1 with
        | (r, w2) => finally_ (cleanup (Some command_id)) r w2
        end
    end.

Definition _connect : M unit := ensure_protocol.

Definition close : M unit :=
  s <- get_self ;;
  if (truthy_obj (protocol s) && truthy_str (shell_id s))%bool then
    with_protocol
      (fun p => call (close_shell p (shell_id s))
                     (fun h => on_close_shell remote h p (shell_id s))) ;;;
    modify (set_shell_id None)
  else ret tt.


(** ** The chunked uploader: [put_file] *)

(** [script_template % (path, offset, data, size)]: the remote script
    that writes one chunk and sets the final length of the file. *)
Definition script_template (path : string) (offset : Z) (data : string)
           (size : Z) : string :=
  let line (s : string) := Py.nl ++ Py.spaces 16 ++ s in
  line ("$s = [System.IO.File]::OpenWrite(" ++ Py.dq ++ path ++ Py.dq ++ ");")
  ++ line ("[void]$s.Seek(" ++ Py.str_of_int offset
           ++ ", [System.IO.SeekOrigin]::Begin);")
  ++ line ("$b = [System.Convert]::FromBase64String(" ++ Py.dq ++ data
           ++ Py.dq ++ ");")
  ++ line "[void]$s.Write($b, 0, $b.length);"
  ++ line ("[void]$s.SetLength(" ++ Py.str_of_int size ++ ");")
  ++ line "[void]$s.Close();"
  ++ Py.nl ++ Py.spaces 12.

(** [int(((8190 - len(cmd)) / 2.67) / 1.35)], under
    [from __future__ import division]: two float divisions, then a
    truncation. *)
Definition buffer_size (cmd_len : Z) : option Z :=
  Py.int_of_float
    (PrimFloat.div
       (PrimFloat.div (Py.float_of_int (8190 - cmd_len)) 2.67%float)
       1.35%float).

(** The statements of the loop body from [b64_data = ...] on, inside
    their [try ... except Exception]: one chunk is sent to [out_path]. *)
Definition put_chunk (out_path : string) (offset : Z) (out_data : string)
           (in_size : Z) : M unit :=
  try_except
    (let b64_data := b64encode base64 out_data in
     let script := script_template (_escape _shell out_path) offset
                                   b64_data in_size in
     match _encode_script_as_list _shell script with
     | [] => raise IndexError
     | cmd0 :: cmd_rest =>
         result <- _winrm_exec cmd0 cmd_rest ;;
         if negb (status_code result =? 0)
         then raise (IOError (std_err result))
         else ret tt
     end)
    (fun _ => raise (AnsibleError
                       ("failed to transfer file to " ++ out_path))).

(** The [for offset in xrange(...)] loop.  [in_file] is what is left to
    read of the local file, [out_path] the current value of the variable
    of that name, which the first pass may change. *)
Fixpoint put_file_loop (offsets : list Z) (buffer_size in_size : Z)
         (in_file out_path : string) : M unit :=
  match offsets with
  | [] => ret tt
  | offset :: rest =>
      let out_data := Py.file_read buffer_size in_file in
      let in_file := Py.file_rest buffer_size in_file in
      let out_path :=
        if offset =? 0 then
          if (Py.startswith (Py.lower out_data) "#!powershell"
              && negb (Py.endswith (Py.lower out_path) ".ps1"))%bool
          then out_path ++ ".ps1" else out_path
        else out_path in
      put_chunk out_path offset out_data in_size ;;;
      put_file_loop rest buffer_size in_size in_file out_path
  end.

(** [put_file(in_path, out_path)], after the call of the base class
    hook. *)
Definition put_file (in_path out_path : string) : M unit :=
  d <- get_disk ;;
  match d in_path with
  | None =>
      raise (AnsibleFileNotFound
               ("file or module does not exist: " ++ in_path))
  | Some Dir => raise (IOError in_path)
  | Some (File content) =>
      let in_size := Py.len content in
      let script := script_template (_escape _shell out_path) in_size ""
                                    in_size in
      let cmd := _encode_script _shell script in
      match buffer_size (Py.len cmd) with
      | None => raise OverflowError
      | Some buffer_size =>
          if buffer_size =? 0
          then raise (ValueError "xrange() arg 3 must not be zero")
          else put_file_loop (Py.xrange 0 in_size buffer_size)
                             buffer_size in_size content out_path
      end
  end.

(** ** The chunked downloader: [fetch_file] *)

(** [buffer_size = 2**19] *)
Definition fetch_buffer_size : Z := 2 ^ 19.

(** The script that prints one slice of the remote file, or the
    directory token. *)
Definition fetch_script (path : string) (offset buffer_size : Z) : string :=
  let line (s : string) := Py.nl ++ Py.spaces 24 ++ s in
  let quoted := Py.dq ++ path ++ Py.dq in
  line ("If (Test-Path -PathType Leaf " ++ quoted ++ ")")
  ++ line "{"
  ++ line ("    $stream = [System.IO.File]::OpenRead(" ++ quoted ++ ");")
  ++ line ("    $stream.Seek(" ++ Py.str_of_int offset
           ++ ", [System.IO.SeekOrigin]::Begin) | Out-Null;")
  ++ line ("    $buffer = New-Object Byte[] " ++ Py.str_of_int buffer_size
           ++ ";")
  ++ line ("    $bytesRead = $stream.Read($buffer, 0, "
           ++ Py.str_of_int buffer_size ++ ");")
  ++ line "    $bytes = $buffer[0..($bytesRead-1)];"
  ++ line "    [System.Convert]::ToBase64String($bytes);"
  ++ line "    $stream.Close() | Out-Null;"
  ++ line "}"
  ++ line ("ElseIf (Test-Path -PathType Container " ++ quoted ++ ")")
  ++ line "{"
  ++ line ("    Write-Host " ++ Py.dq ++ "[DIR]" ++ Py.dq ++ ";")
  ++ line "}"
  ++ line "Else"
  ++ line "{"
  ++ line ("    Write-Error " ++ Py.dq ++ path ++ " does not exist" ++ Py.dq
           ++ ";")
  ++ line "    Exit 1;"
  ++ line "}"
  ++ Py.nl ++ Py.spaces 20.

(** How one pass through the body of [while True] ends. *)
Variant LoopControl :=
| Break
| Continue (offset : Z) (out_file : bool).

(** The first half of the body of [while True]: the slice at [offset]
    is requested and decoded into [data], which is [None] for the
    directory token. *)
Definition fetch_chunk (in_path : string) (offset : Z) : M (option string) :=
  let script := fetch_script (_escape _shell in_path) offset
                             fetch_buffer_size in
  match _encode_script_as_list _shell script with
  | [] => raise IndexError
  | cmd0 :: cmd_rest =>
      result <- _winrm_exec cmd0 cmd_rest ;;
      if negb (status_code result =? 0)
      then raise (IOError (std_err result))
      else if String.eqb (Py.strip (std_out result)) "[DIR]"
      then ret None
      else match b64decode base64 (Py.strip (std_out result)) with
           | Some data => ret (Some data)
           | None => raise TypeError
           end
  end.

(** The second half: what is done with [data].  [out_file] tells
    whether the local file has been opened. *)
Definition store_chunk (out_path : string) (offset : Z) (out_file : bool)
           (data : option string) : M LoopControl :=
  match data with
  | None => modify (Local.makedirs_safe out_path) ;;; ret Break
  | Some data =>
      d <- get_disk ;;
      if (negb out_file && Local.isdir d out_path)%bool then ret Break
      else
        (if negb out_file then Local.open_wb out_path
         else ret tt) ;;;
        Local.write out_path data ;;;
        if Py.len data <? fetch_buffer_size then ret Break
        else ret (Continue (offset + Py.len data) true)
  end.

(** One pass through the body of [while True], with its own
    [try ... except Exception]. *)
Definition fetch_file_step (in_path out_path : string) (offset : Z)
           (out_file : bool) : M LoopControl :=
  try_except
    (data <- fetch_chunk in_path offset ;;
     store_chunk out_path offset out_file data)
    (fun _ => raise (AnsibleError
                       ("failed to transfer file to " ++ out_path))).

(** [while True], unrolled at most [fuel] times.  [None] is returned
    when the loop is still running after [fuel] passes. *)
Fixpoint fetch_file_loop (fuel : nat) (in_path out_path : string)
         (offset : Z) (out_file : bool) : M (option unit) :=
  match fuel with
  | O => ret None
  | S fuel' =>
      c <- fetch_file_step in_path out_path offset out_file ;;
      match c with
      | Break => ret (Some tt)
      | Continue offset' out_file' =>
          fetch_file_loop fuel' in_path out_path offset' out_file'
      end
  end.

(** [fetch_file(in_path, out_path)], after the call of the base class
    hook.  The outer [finally] closes the local file, which changes
    nothing the model records. *)
Definition fetch_file (fuel : nat) (in_path out_path : string)
  : M (option unit) :=
  let out_path := Py.replace_char (ascii_of_nat 92) "/" out_path in
  modify (Local.makedirs_safe (Py.dirname out_path)) ;;;
  fetch_file_loop fuel in_path out_path 0 false.

(* ===================================================================== *)
(** * Vocabulary of the properties *)
(* ===================================================================== *)

(** The probe of one negotiation attempt. *)
Definition probe (p : Protocol) : Request := send_message p "".

(** Whether the answer to the probe of [p], sent after the history [h],
    makes [p] the connection: the probe went through, or failed with a
    transport error that mentions no timeout and carries the code 411. *)
Definition accepted (h : list Request) (p : Protocol) : bool :=
  match on_send_message remote h p "" with
  | Ok _ => true
  | Raise (WinRMTransportError m) =>
      (negb (Py.search_timed_out m)
       && match Py.search_code m with
          | Some code => code =? 411
          | None => false
          end)%bool
  | Raise _ => false
  end.

(** [exhausted attempts exc w last w']: from the world [w], every entry of
    [attempts] is either skipped or fails with a transport error that is
    neither a timeout nor a 401 nor a 411; [last] is the text of the last
    such error ([exc] when there is none) and [w'] the world at the end. *)
Inductive exhausted
  : list (Transport * Scheme) -> option string -> World ->
    option string -> World -> Prop :=
| exhausted_nil exc w : exhausted [] exc w exc w
| exhausted_skip attempt rest exc w last w' :
    skipped attempt = true ->
    exhausted rest exc w last w' ->
    exhausted (attempt :: rest) exc w last w'
| exhausted_fail attempt rest exc w last w' realm err_msg :
    skipped attempt = false ->
    attempt_realm (fst attempt) = Ok realm ->
    on_send_message remote (wire w) (attempt_protocol attempt realm) ""
      = Raise (WinRMTransportError err_msg) ->
    Py.search_timed_out err_msg = false ->
    Py.search_code err_msg <> Some 401 ->
    Py.search_code err_msg <> Some 411 ->
    exhausted rest (Some err_msg)
              (sent (probe (attempt_protocol attempt realm)) w) last w' ->
    exhausted (attempt :: rest) exc w last w'.

(** What the result and the verdicts on the probes have to do with each
    other: the result is a connection exactly when the last probe was
    accepted, and nothing is probed after an accepted probe. *)
Definition first_accepted (h : list Request) (ps : list Protocol)
           (r : result (option Protocol)) : Prop :=
  (forall p, r = Ok (Some p) <->
             exists init, ps = (init ++ [p])%list
                          /\ accepted (h ++ map probe init)%list p = true)
  /\ (forall init p rest,
         ps = (init ++ p :: rest)%list ->
         accepted (h ++ map probe init)%list p = true -> rest = []).

(** Requests that set the session up: probes and [open_shell]. *)
Definition is_setup (q : Request) : bool :=
  match q with
  | send_message _ _ | open_shell _ => true
  | _ => false
  end.

(** A command handle: the shell it runs in and its id. *)
Definition CommandHandle : Type := option string * string.

Definition CommandHandle_eqb (a b : CommandHandle) : bool :=
  (match fst a, fst b with
   | Some x, Some y => String.eqb x y
   | None, None => true
   | _, _ => false
   end && String.eqb (snd a) (snd b))%bool.

Fixpoint remove_first (x : CommandHandle) (l : list CommandHandle)
  : list CommandHandle :=
  match l with
  | [] => []
  | y :: l' => if CommandHandle_eqb x y then l' else y :: remove_first x l'
  end.

(** The command handles open after the requests [todo], made after the
    history [done] with [held] open: [run_command] opens the handle the
    remote end answers with, [cleanup_command] releases the handle it
    names. *)
Fixpoint replay_commands (done todo : list Request)
         (held : list CommandHandle) : list CommandHandle :=
  match todo with
  | [] => held
  | q :: todo' =>
      replay_commands (done ++ [q])%list todo'
        (match q with
         | run_command p sh c a =>
             match on_run_command remote done p sh c a with
             | Ok cid => (sh, cid) :: held
             | Raise _ => held
             end
         | cleanup_command _ sh cid => remove_first (sh, cid) held
         | _ => held
         end)
  end.

(** The command handles left open by a whole history. *)
Definition open_commands (h : list Request) : list CommandHandle :=
  replay_commands [] h [].

(** The chunk size as the specification words it: the inner quotient is
    floored before the second division (exact arithmetic). *)
Definition spec_maxChunk (overhead : Z) : Z :=
  (((8190 - overhead) * 100) / 267 * 100) / 135.

(** The chunk size with one floor only: [floor((8190 - L) / 3.6045)]. *)
Definition single_floor (overhead : Z) : Z :=
  ((8190 - overhead) * 10000) / 36045.

(** What [buffer_size] is checked against, one overhead at a time. *)
Definition buffer_size_check (overhead : Z) : bool :=
  match buffer_size overhead with
  | Some b =>
      if overhead =? 981 then b =? 1999
      else ((b =? single_floor overhead)
            && (spec_maxChunk overhead <=? b)
            && (b <=? spec_maxChunk overhead + 1))%bool
  | None => false
  end.

(** What a chunk write looks like on the wire when it targets [path]. *)
Definition writes_to (in_size : Z) (path : string) (q : Request) : Prop :=
  match q with
  | run_command _ _ command args =>
      exists offset data,
        (command :: args)%list =
        _encode_script_as_list _shell
          (script_template (_escape _shell path) offset
                           (b64encode base64 data) in_size)
  | _ => True
  end.

(* ===================================================================== *)
(** * The rest of the plugin *)
(* ===================================================================== *)

(** ** Commands: [exec_command] *)

(** What [exec_command] needs besides the session:
    [shlex.split(cmd, posix=False)], which fails (ValueError) on a quote
    that is not closed, and
    [self._shell._build_file_cmd(cmd_parts, quote_args=False)]. *)
Record CommandLine := {
  shlex_split : string -> result (list string);
  _build_file_cmd : list string -> string
}.

(** [x in l] *)
Fixpoint list_in (x : string) (l : list string) : bool :=
  match l with
  | [] => false
  | y :: l' => (String.eqb y x || list_in x l')%bool
  end.

(** [l[l.index(x) + 1]] for an [x] that is in [l]; [None] stands for the
    IndexError of an [x] that is the last item. *)
Fixpoint item_after (x : string) (l : list string) : option string :=
  match l with
  | [] => None
  | y :: l' => if String.eqb y x then hd_error l' else item_after x l'
  end.

(** The words the command is run with: a script path is turned into an
    encoded script. *)
Definition script_parts (tools : CommandLine) (cmd_parts : list string)
  : list string :=
  match cmd_parts with
  | first :: _ =>
      if Py.endswith (Py.lower first) ".ps1"
      then _encode_script_as_list _shell (_build_file_cmd tools cmd_parts)
      else cmd_parts
  | [] => cmd_parts
  end.

(** [exec_command(cmd, tmp_path, in_data, sudoable)], after the call of
    the base class hook, which is what the other three arguments are
    for.  The encoded command is decoded for the log line only. *)
Definition exec_command (tools : CommandLine) (cmd : string)
  : M (Z * string * string * string) :=
  match shlex_split tools cmd with
  | Raise e => raise e
  | Ok cmd_parts =>
      (if list_in "-EncodedCommand" cmd_parts then
         match item_after "-EncodedCommand" cmd_parts with
         | None => raise IndexError
         | Some encoded_cmd =>
             match b64decode base64 encoded_cmd with
             | Some _ => ret tt
             | None => raise TypeError
             end
         end
       else ret tt) ;;;
      (let cmd_parts := script_parts tools cmd_parts in
       result <- try_except
                   (match cmd_parts with
                    | [] => raise IndexError
                    | cmd0 :: cmd_rest => _winrm_exec cmd0 cmd_rest
                    end)
                   (fun _ => raise (AnsibleError ("failed to exec cmd " ++ cmd))) ;;
       ret (status_code result, "", std_out result, std_err result))
  end.

(** ** A new session: [__init__] *)

(** The handles as [__init__] leaves them. *)
Definition Connection_init : Connection :=
  {| protocol := None; shell_id := None |}.

Definition new_session (d : Disk) : World :=
  {| self := Connection_init; wire := []; disk := d |}.

(* ===================================================================== *)
(** * More vocabulary *)
(* ===================================================================== *)

(** The calls a user of the session can make. *)
Inductive Method :=
| do_connect
| do_winrm_exec (command : string) (args : list string)
| do_exec_command (tools : CommandLine) (cmd : string)
| do_put_file (in_path out_path : string)
| do_fetch_file (fuel : nat) (in_path out_path : string)
| do_close.

(** The world a call leaves, whether it returns or raises. *)
Definition invoke (m : Method) (w : World) : World :=
  match m with
  | do_connect => snd (_connect w)
  | do_winrm_exec command args => snd (_winrm_exec command args w)
  | do_exec_command tools cmd => snd (exec_command tools cmd w)
  | do_put_file in_path out_path => snd (put_file in_path out_path w)
  | do_fetch_file fuel in_path out_path =>
      snd (fetch_file fuel in_path out_path w)
  | do_close => snd (close w)
  end.

Definition invoke_all (ms : list Method) (w : World) : World :=
  fold_left (fun w m => invoke m w) ms w.

(** A shell handle is held only together with a connection handle. *)
Definition handles_ordered (w : World) : bool :=
  implb (truthy_str (shell_id (self w))) (truthy_obj (protocol (self w))).

(** The command lines of the [run_command] requests of a history, in
    order. *)
Definition commands_run (h : list Request) : list (list string) :=
  flat_map (fun q => match q with
                     | run_command _ _ command args => [(command :: args)%list]
                     | _ => []
                     end) h.

(** The slices the upload loop reads, with the offsets it pairs them
    with. *)
Fixpoint file_chunks (offsets : list Z) (buffer_size : Z) (in_file : string)
  : list (Z * string) :=
  match offsets with
  | [] => []
  | offset :: rest =>
      (offset, Py.file_read buffer_size in_file)
      :: file_chunks rest buffer_size (Py.file_rest buffer_size in_file)
  end.

(** [''.join(l)] *)
Fixpoint join (l : list string) : string :=
  match l with
  | [] => ""
  | s :: l' => s ++ join l'
  end.

(** The path the first chunk of an upload settles on. *)
Definition upload_target (first_chunk out_path : string) : string :=
  if (Py.startswith (Py.lower first_chunk) "#!powershell"
      && negb (Py.endswith (Py.lower out_path) ".ps1"))%bool
  then out_path ++ ".ps1" else out_path.

(** The command line of the chunk write for one slice. *)
Definition chunk_command (target : string) (in_size : Z)
           (slice : Z * string) : list string :=
  _encode_script_as_list _shell
    (script_template (_escape _shell target) (fst slice)
                     (b64encode base64 (snd slice)) in_size).

(** [downloaded in_path out_path offset out_file w chunks w']: from the
    world [w], the passes of the download loop fetch the data chunks
    [chunks], all of full size but the last, which is short; [w'] is the
    world after the last one is stored. *)
Inductive downloaded (in_path out_path : string)
  : Z -> bool -> World -> list string -> World -> Prop :=
| downloaded_last offset out_file w w1 data :
    fetch_chunk in_path offset w = (Ok (Some data), w1) ->
    Py.len data < 524288 ->
    downloaded in_path out_path offset out_file w [data]
               (snd (store_chunk out_path offset out_file (Some data) w1))
| downloaded_more offset out_file w w1 data chunks w' :
    fetch_chunk in_path offset w = (Ok (Some data), w1) ->
    524288 <= Py.len data ->
    downloaded in_path out_path (offset + Py.len data) true
               (snd (store_chunk out_path offset out_file (Some data) w1))
               chunks w' ->
    downloaded in_path out_path offset out_file w (data :: chunks) w'.

(** The sign of the chunk size, one overhead at a time: positive up to
    8186, zero from 8187 to 8193, negative beyond. *)
Definition buffer_size_sign_check (overhead : Z) : bool :=
  match buffer_size overhead with
  | Some b =>
      if overhead <=? 8186 then 1 <=? b
      else if overhead <=? 8193 then b =? 0
      else b <? 0
  | None => false
  end.

(** Stand-ins for the two collaborators of [exec_command]: words are
    separated by spaces, and a script is called by its words. *)
Fixpoint demo_words (word s : string) : list string :=
  match s with
  | EmptyString =>
      match word with
      | EmptyString => []
      | _ => [Py.reverse word]
      end
  | String c s' =>
      if Ascii.eqb c " " then
        match word with
        | EmptyString => demo_words "" s'
        | _ => (Py.reverse word :: demo_words "" s')%list
        end
      else demo_words (String c word) s'
  end.

Definition demo_tools : CommandLine :=
  {| shlex_split := fun cmd => Ok (demo_words "" cmd);
     _build_file_cmd := fun cmd_parts => "& " ++ join cmd_parts |}.

(** A remote end that runs every command but refuses to clean up. *)
Definition demo_no_cleanup : Remote :=
  {| on_send_message := fun _ _ _ => Ok tt;
     on_open_shell := fun _ _ => Ok "shell-1";
     on_run_command := fun _ _ _ _ _ => Ok "cmd-1";
     on_get_command_output := fun _ _ _ _ => Ok ("done", "", 0);
     on_cleanup_command :=
       fun _ _ _ _ => Raise (WinRMTransportError "500 cleanup refused");
     on_close_shell := fun _ _ _ => Ok tt |}.

(** A remote end whose commands fail with status 1. *)
Definition demo_failing : Remote :=
  Demo.server (Ok tt) (Ok ("", "C:\remote.txt does not exist", 1)).

(** A target without a port. *)
Definition demo_default_port : ConnectionInfo :=
  {| remote_addr := "winhost"; port := None;
     remote_user := "bob"; conn_password := "secret" |}.

(** A session that has not connected yet, on a disk that holds one
    directory. *)
Definition demo_with_directory (path : string) : World :=
  {| self := Connection_init; wire := [];
     disk := disk_set (fun _ => None) path Dir |}.

(* ===================================================================== *)
(** * Properties *)
(* ===================================================================== *)

(** ** Stepping through computations *)

Lemma bind_ok {A B} (m : M A) (f : A -> M B) w a w1 :
  m w = (Ok a, w1) -> bind m f w = f a w1.
Proof. intros H. unfold bind. now rewrite H. Qed.

(** ** The chunk size *)

Lemma buffer_size_checked :
  forallb (fun n => buffer_size_check (Z.of_nat n)) (seq 0 8191) = true.
Proof. vm_compute. reflexivity. Qed.

(** C3 (as amended).  For an overhead between 0 and 8190 the chunk size
    is the double precision quotient [((8190 - L) / 2.67) / 1.35] cut to
    an integer once, at the end, with no floor in between: it is
    [floor((8190 - L) / 3.6045)], which is the nested-floor value or one
    more; the one exception is [L = 981], where the rounded quotient
    falls just short of 2000 and the chunk size is 1999. *)
Theorem buffer_size_single_truncation (overhead : Z) :
  0 <= overhead <= 8190 ->
  exists b,
    buffer_size overhead = Some b
    /\ (overhead = 981 -> b = 1999)
    /\ (overhead <> 981 ->
        b = single_floor overhead
        /\ spec_maxChunk overhead <= b <= spec_maxChunk overhead + 1).
Proof.
  intros Hrange.
  pose proof buffer_size_checked as Hall.
  rewrite forallb_forall in Hall.
  specialize (Hall (Z.to_nat overhead)).
  rewrite Z2Nat.id in Hall by lia.
  assert (Hin : In (Z.to_nat overhead) (seq 0 8191)).
  { apply in_seq. split; [lia|].
    apply Nat2Z.inj_lt. rewrite Z2Nat.id by lia.
    change (Z.of_nat (0 + 8191)) with 8191. lia. }
  specialize (Hall Hin).
  unfold buffer_size_check in Hall.
  destruct (buffer_size overhead) as [b|]; [|discriminate].
  exists b. split; [reflexivity|].
  destruct (overhead =? 981) eqn:Hspecial.
  - apply Z.eqb_eq in Hspecial. apply Z.eqb_eq in Hall.
    split; [easy|]. intros Hne. contradiction.
  - apply Z.eqb_neq in Hspecial.
    apply andb_prop in Hall. destruct Hall as [Hb Hhi].
    apply andb_prop in Hb. destruct Hb as [Hs Hlo].
    apply Z.eqb_eq in Hs. apply Z.leb_le in Hlo. apply Z.leb_le in Hhi.
    split; [intros Heq; contradiction|]. intros _. split; [exact Hs|lia].
Qed.

(** ** Upload: the local file *)

(** C10.  When the local path does not exist, [put_file] raises
    AnsibleFileNotFound at once: the world it leaves is the world it
    started in, so no chunk size was computed from a remote answer and no
    request was sent. *)
Theorem put_file_missing_local_file (in_path out_path : string) (w : World) :
  disk w in_path = None ->
  put_file in_path out_path w
  = (Raise (AnsibleFileNotFound ("file or module does not exist: " ++ in_path)),
     w).
Proof.
  intros Hmissing. unfold put_file, bind, get_disk, raise. cbn.
  now rewrite Hmissing.
Qed.

Lemma xrange_empty (step : Z) : step <> 0 -> Py.xrange 0 0 step = [].
Proof.
  intros Hstep. unfold Py.xrange, Py.xrange_len.
  destruct (0 <? step) eqn:Hpos.
  - apply Z.ltb_lt in Hpos.
    replace ((0 - 0 + step - 1) / step) with 0; [reflexivity|].
    symmetry. apply Z.div_small. lia.
  - apply Z.ltb_ge in Hpos.
    replace ((0 - 0 - step - 1) / - step) with 0; [reflexivity|].
    symmetry. apply Z.div_small. lia.
Qed.

(** C1 (what the code does).  For an empty local file [put_file] sends
    nothing at all: the range of offsets is empty (or its step is zero,
    which is a ValueError), so the remote file is neither created nor cut
    to length zero. *)
Theorem put_file_empty_file_sends_nothing (in_path out_path : string)
        (w : World) :
  disk w in_path = Some (File "") ->
  snd (put_file in_path out_path w) = w
  /\ (fst (put_file in_path out_path w) = Ok tt
      \/ exists e, fst (put_file in_path out_path w) = Raise e).
Proof.
  intros Hempty. unfold put_file, bind, get_disk. cbn.
  rewrite Hempty. cbn.
  destruct (buffer_size _) as [b|]; cbn.
  - destruct (b =? 0) eqn:Hb; cbn.
    + split; [reflexivity|]. right. eexists. reflexivity.
    + apply Z.eqb_neq in Hb. rewrite (xrange_empty b Hb). cbn.
      split; [reflexivity|]. now left.
  - split; [reflexivity|]. right. eexists. reflexivity.
Qed.

(** ** Negotiation *)

(** An attempt whose probe fails with a transport error of no special
    class: the loop goes on with the rest, and remembers the error. *)
Lemma connect_loop_try_next
      (attempt : Transport * Scheme) (rest : list (Transport * Scheme))
      (exc : option string) (w : World) (realm : option string)
      (err_msg : string) :
  skipped attempt = false ->
  attempt_realm (fst attempt) = Ok realm ->
  on_send_message remote (wire w) (attempt_protocol attempt realm) ""
    = Raise (WinRMTransportError err_msg) ->
  Py.search_timed_out err_msg = false ->
  Py.search_code err_msg <> Some 401 ->
  Py.search_code err_msg <> Some 411 ->
  _winrm_connect_loop (attempt :: rest) exc w
  = _winrm_connect_loop rest (Some err_msg)
      (sent (probe (attempt_protocol attempt realm)) w).
Proof.
  intros Hskip Hrealm Hsend Ht H401 H411.
  cbn [_winrm_connect_loop]. rewrite Hskip, Hrealm.
  unfold call. rewrite Hsend, Ht.
  destruct (Py.search_code err_msg) as [code|]; [|reflexivity].
  destruct (code =? 401) eqn:E1.
  { apply Z.eqb_eq in E1. subst code. now elim H401. }
  destruct (code =? 411) eqn:E2.
  { apply Z.eqb_eq in E2. subst code. now elim H411. }
  reflexivity.
Qed.

(** C4.  A transport error raised by the probe of an attempt is
    classified by its text, by four tests in this order: a timeout text
    ends the negotiation with the timeout error; otherwise the code 401
    ends it with the credentials error; otherwise the code 411 makes the
    attempt's connection the result; otherwise the loop goes on with the
    next attempt, remembering the error.  In the first three cases the
    probe is the last request sent. *)
Theorem transport_error_classification
        (attempt : Transport * Scheme) (rest : list (Transport * Scheme))
        (exc : option string) (w : World) (realm : option string)
        (err_msg : string) :
  skipped attempt = false ->
  attempt_realm (fst attempt) = Ok realm ->
  on_send_message remote (wire w) (attempt_protocol attempt realm) ""
    = Raise (WinRMTransportError err_msg) ->
  let p := attempt_protocol attempt realm in
  let w' := sent (probe p) w in
  (Py.search_timed_out err_msg = true ->
   _winrm_connect_loop (attempt :: rest) exc w
   = (Raise (AnsibleError "the connection attempt timed out"), w'))
  /\ (Py.search_timed_out err_msg = false ->
      Py.search_code err_msg = Some 401 ->
      _winrm_connect_loop (attempt :: rest) exc w
      = (Raise (AnsibleError
           "the username/password specified for this server was incorrect"),
         w'))
  /\ (Py.search_timed_out err_msg = false ->
      Py.search_code err_msg = Some 411 ->
      _winrm_connect_loop (attempt :: rest) exc w = (Ok (Some p), w'))
  /\ (Py.search_timed_out err_msg = false ->
      Py.search_code err_msg <> Some 401 ->
      Py.search_code err_msg <> Some 411 ->
      _winrm_connect_loop (attempt :: rest) exc w
      = _winrm_connect_loop rest (Some err_msg) w').
Proof.
  intros Hskip Hrealm Hsend p w'.
  split; [|split; [|split]].
  - intros Ht. cbn [_winrm_connect_loop]. rewrite Hskip, Hrealm.
    unfold call. now rewrite Hsend, Ht.
  - intros Ht Hcode. cbn [_winrm_connect_loop]. rewrite Hskip, Hrealm.
    unfold call. now rewrite Hsend, Ht, Hcode.
  - intros Ht Hcode. cbn [_winrm_connect_loop]. rewrite Hskip, Hrealm.
    unfold call. now rewrite Hsend, Ht, Hcode.
  - intros Ht H401 H411.
    now apply connect_loop_try_next.
Qed.

Lemma contains_split1_tail (c : ascii) (s : string) :
  Py.contains c s = true -> exists tail, Py.split1_tail c s = Some tail.
Proof.
  induction s as [|a s IH]; cbn; [discriminate|].
  destruct (Ascii.eqb a c); cbn; [eauto|exact IH].
Qed.

(** An attempt that is not skipped has a realm: the lookup of the text
    after ['@'] cannot fail. *)
Lemma attempt_realm_ok (attempt : Transport * Scheme) :
  skipped attempt = false -> exists realm, attempt_realm (fst attempt) = Ok realm.
Proof.
  destruct attempt as [t s]. unfold skipped, attempt_realm. cbn [fst].
  destruct t; cbn; [|eauto].
  intros H. apply orb_false_elim in H. destruct H as [_ H].
  apply negb_false_iff in H.
  destruct (contains_split1_tail _ _ H) as [tail ->]. eauto.
Qed.

Lemma skipped_false_kerberos (attempt : Transport * Scheme) :
  skipped attempt = false -> fst attempt = kerberos ->
  HAVE_KERBEROS = true
  /\ Py.contains "@" (remote_user _connection_info) = true.
Proof.
  destruct attempt as [t s]. unfold skipped. cbn [fst]. intros H ->.
  cbn in H.
  apply orb_false_elim in H. destruct H as [H1 H2].
  now rewrite negb_false_iff in H1, H2.
Qed.

Lemma first_accepted_nil h r :
  (forall p, r <> Ok (Some p)) -> first_accepted h [] r.
Proof.
  intros Hr. split.
  - intros p. split.
    + intros E. now elim (Hr p).
    + intros [init [E _]]. now destruct init.
  - intros init p rest E. now destruct init.
Qed.

Lemma first_accepted_one_yes h p :
  accepted h p = true -> first_accepted h [p] (Ok (Some p)).
Proof.
  intros Hacc. split.
  - intros q. split.
    + intros E. injection E as <-. exists []. cbn.
      now rewrite app_nil_r.
    + intros [init [E _]]. destruct init as [|x init]; cbn in E.
      * now injection E as <-.
      * injection E as _ E. now destruct init.
  - intros init q rest E _. destruct init as [|x init]; cbn in E.
    + now injection E.
    + injection E as _ E. now destruct init.
Qed.

Lemma first_accepted_one_no h p r :
  accepted h p = false -> (forall q, r <> Ok (Some q)) ->
  first_accepted h [p] r.
Proof.
  intros Hacc Hr. split.
  - intros q. split.
    + intros E. now elim (Hr q).
    + intros [init [E Hq]]. destruct init as [|x init]; cbn in E.
      * injection E as <-. cbn in Hq. rewrite app_nil_r in Hq. congruence.
      * injection E as _ E. now destruct init.
  - intros init q rest E Hq. destruct init as [|x init]; cbn in E.
    + injection E as <- _. cbn in Hq. rewrite app_nil_r in Hq. congruence.
    + injection E as _ E. now destruct init.
Qed.

Lemma first_accepted_cons h p ps r :
  accepted h p = false ->
  first_accepted (h ++ [probe p])%list ps r ->
  first_accepted h (p :: ps) r.
Proof.
  intros Hacc [Hiff Hstop]. split.
  - intros q. rewrite Hiff. split.
    + intros [init [-> Hq]]. exists (p :: init). split; [reflexivity|].
      cbn. now rewrite <- app_assoc in Hq.
    + intros [init [E Hq]]. destruct init as [|x init]; cbn in E.
      * injection E as <- _. cbn in Hq. rewrite app_nil_r in Hq. congruence.
      * injection E as <- ->. exists init. split; [reflexivity|].
        cbn in Hq. now rewrite <- app_assoc.
  - intros init q rest E Hq. destruct init as [|x init]; cbn in E.
    + injection E as <- _. cbn in Hq. rewrite app_nil_r in Hq. congruence.
    + injection E as <- ->. apply (Hstop init q rest eq_refl).
      cbn in Hq. now rewrite <- app_assoc.
Qed.

(** The trace of the loop: the attempts that are not skipped are probed
    in the order of the list, up to the one that ends the loop. *)
Lemma connect_loop_trace (attempts : list (Transport * Scheme)) :
  forall exc w r w',
    _winrm_connect_loop attempts exc w = (r, w') ->
    exists tried untried ps,
      filter (fun a => negb (skipped a)) attempts = (tried ++ untried)%list
      /\ map (fun p => (transport p, endpoint p)) ps
         = map (fun a => (fst a, urlunsplit_wsman (snd a))) tried
      /\ wire w' = (wire w ++ map probe ps)%list
      /\ self w' = self w
      /\ disk w' = disk w
      /\ first_accepted (wire w) ps r.
Proof.
  induction attempts as [|attempt rest IH]; intros exc w r w' Hrun.
  - cbn in Hrun. exists [], [], []. cbn. rewrite app_nil_r.
    destruct exc; inversion Hrun; subst;
      repeat (split; [reflexivity|]); apply first_accepted_nil; discriminate.
  - cbn [_winrm_connect_loop] in Hrun. cbn [filter].
    destruct (skipped attempt) eqn:Hskip; cbn [negb].
    { exact (IH _ _ _ _ Hrun). }
    destruct (attempt_realm_ok attempt Hskip) as [realm Hrealm].
    rewrite Hrealm in Hrun. unfold call in Hrun.
    set (p := attempt_protocol attempt realm) in *.
    assert (Hone : forall r0,
               (r0 = Ok (Some p) /\ accepted (wire w) p = true
                \/ (forall q, r0 <> Ok (Some q)) /\ accepted (wire w) p = false) ->
               (r0, sent (send_message p "") w) = (r, w') ->
               exists tried untried ps,
                 (attempt :: filter (fun a => negb (skipped a)) rest
                  = tried ++ untried)%list
                 /\ map (fun p => (transport p, endpoint p)) ps
                    = map (fun a => (fst a, urlunsplit_wsman (snd a))) tried
                 /\ wire w' = (wire w ++ map probe ps)%list
                 /\ self w' = self w
                 /\ disk w' = disk w
                 /\ first_accepted (wire w) ps r).
    { intros r0 Hr0 E. injection E as <- <-.
      exists [attempt], (filter (fun a => negb (skipped a)) rest), [p].
      repeat (split; [reflexivity|]).
      destruct Hr0 as [[-> Hacc]|[Hno Hacc]].
      - now apply first_accepted_one_yes.
      - now apply first_accepted_one_no. }
    assert (Hmore : forall err_msg,
               accepted (wire w) p = false ->
               _winrm_connect_loop rest (Some err_msg)
                                   (sent (send_message p "") w) = (r, w') ->
               exists tried untried ps,
                 (attempt :: filter (fun a => negb (skipped a)) rest
                  = tried ++ untried)%list
                 /\ map (fun p => (transport p, endpoint p)) ps
                    = map (fun a => (fst a, urlunsplit_wsman (snd a))) tried
                 /\ wire w' = (wire w ++ map probe ps)%list
                 /\ self w' = self w
                 /\ disk w' = disk w
                 /\ first_accepted (wire w) ps r).
    { intros err_msg Hacc Hrest.
      destruct (IH _ _ _ _ Hrest)
        as (tried & untried & ps & Hf & Hm & Hw & Hs & Hd & Hfirst).
      exists (attempt :: tried), untried, (p :: ps).
      split; [cbn; now rewrite Hf|].
      split; [cbn; now rewrite Hm|].
      split; [rewrite Hw; cbn; now rewrite <- app_assoc|].
      split; [exact Hs|]. split; [exact Hd|].
      now apply first_accepted_cons. }
    assert (Hfatal : forall e0,
               accepted (wire w) p = false ->
               (Raise e0, sent (send_message p "") w) = (r, w') ->
               exists tried untried ps,
                 (attempt :: filter (fun a => negb (skipped a)) rest
                  = tried ++ untried)%list
                 /\ map (fun p => (transport p, endpoint p)) ps
                    = map (fun a => (fst a, urlunsplit_wsman (snd a))) tried
                 /\ wire w' = (wire w ++ map probe ps)%list
                 /\ self w' = self w
                 /\ disk w' = disk w
                 /\ first_accepted (wire w) ps r).
    { intros e0 Hacc E. apply (Hone (Raise e0)); [|exact E].
      right. split; [discriminate|exact Hacc]. }
    unfold accepted in Hone, Hmore, Hfatal.
    destruct (on_send_message remote (wire w) p "") as [u|e] eqn:Hsend.
    { apply (Hone (Ok (Some p))); [now left|exact Hrun]. }
    destruct e as [err_msg|m|m|m|m| | | | |m];
      [|exact (Hfatal _ eq_refl Hrun)..].
    destruct (Py.search_timed_out err_msg) eqn:Ht; cbn [negb andb] in *.
    { exact (Hfatal _ eq_refl Hrun). }
    destruct (Py.search_code err_msg) as [code|] eqn:Hc.
    + destruct (code =? 401) eqn:E1.
      { destruct (code =? 411) eqn:E2.
        - apply Z.eqb_eq in E1. apply Z.eqb_eq in E2. lia.
        - exact (Hfatal _ eq_refl Hrun). }
      destruct (code =? 411) eqn:E2.
      { apply (Hone (Ok (Some p))); [now left|exact Hrun]. }
      exact (Hmore err_msg eq_refl Hrun).
    + exact (Hmore err_msg eq_refl Hrun).
Qed.

(** The attempts that fail with a transport error of no special class,
    and the skipped ones, are passed over: the loop goes on with what
    follows them. *)
Lemma exhausted_then (before rest : list (Transport * Scheme))
      (exc : option string) (w : World) (last : option string) (w1 : World) :
  exhausted before exc w last w1 ->
  _winrm_connect_loop (before ++ rest) exc w
  = _winrm_connect_loop rest last w1.
Proof.
  induction 1 as [exc w
                 |attempt before exc w last w1 Hskip _ IH
                 |attempt before exc w last w1 realm err_msg
                          Hskip Hrealm Hsend Ht H401 H411 _ IH].
  - reflexivity.
  - cbn [app _winrm_connect_loop]. now rewrite Hskip.
  - cbn [app].
    rewrite (connect_loop_try_next attempt (before ++ rest) exc w realm err_msg
               Hskip Hrealm Hsend Ht H401 H411).
    exact IH.
Qed.

(** An attempt whose probe is accepted ends the loop with its
    connection. *)
Lemma connect_loop_accepts
      (attempt : Transport * Scheme) (rest : list (Transport * Scheme))
      (exc : option string) (w : World) (realm : option string) :
  skipped attempt = false ->
  attempt_realm (fst attempt) = Ok realm ->
  accepted (wire w) (attempt_protocol attempt realm) = true ->
  _winrm_connect_loop (attempt :: rest) exc w
  = (Ok (Some (attempt_protocol attempt realm)),
     sent (probe (attempt_protocol attempt realm)) w).
Proof.
  intros Hskip Hrealm Hacc.
  cbn [_winrm_connect_loop]. rewrite Hskip, Hrealm.
  unfold call, probe. unfold accepted in Hacc.
  destruct (on_send_message remote (wire w) (attempt_protocol attempt realm) "")
    as [[]|e]; [reflexivity|].
  destruct e; try discriminate.
  apply andb_prop in Hacc. destruct Hacc as [Ht Hcode].
  apply negb_true_iff in Ht. rewrite Ht.
  destruct (Py.search_code _) as [code|]; [|discriminate].
  apply Z.eqb_eq in Hcode. subst code. reflexivity.
Qed.

(** C5.  Whatever the list of attempts and its order, the loop probes
    the attempts that are not skipped, one after the other in the order
    of the list, and stops at the first probe that is accepted (it went
    through, or failed with a 411).  On every run, the probes sent are
    those of a front part of the attempts that are not skipped, the
    result is a connection exactly when the last probe sent was accepted,
    it is the connection of that probe, nothing is probed after an
    accepted probe, and a kerberos entry is probed only when kerberos
    support is present and the user name contains ['@'].  And the loop
    does get to the first accepted attempt: when every entry before an
    attempt is skipped or refused with a transport error of no special
    class, the attempt is probed next, and if its probe is accepted the
    loop returns its connection with that probe as the last request; the
    entries after it are not looked at. *)
Theorem negotiation_returns_first_accepted
        (attempts : list (Transport * Scheme)) (exc : option string)
        (w : World) :
  (exists tried untried ps,
      filter (fun a => negb (skipped a)) attempts = (tried ++ untried)%list
      /\ map (fun p => (transport p, endpoint p)) ps
         = map (fun a => (fst a, urlunsplit_wsman (snd a))) tried
      /\ wire (snd (_winrm_connect_loop attempts exc w))
         = (wire w ++ map probe ps)%list
      /\ first_accepted (wire w) ps (fst (_winrm_connect_loop attempts exc w))
      /\ (forall p, In p ps -> transport p = kerberos ->
                    HAVE_KERBEROS = true
                    /\ Py.contains "@" (remote_user _connection_info) = true))
  /\ (forall before attempt after last w1,
         attempts = (before ++ attempt :: after)%list ->
         exhausted before exc w last w1 ->
         skipped attempt = false ->
         exists realm,
           attempt_realm (fst attempt) = Ok realm
           /\ (accepted (wire w1) (attempt_protocol attempt realm) = true ->
               _winrm_connect_loop attempts exc w
               = (Ok (Some (attempt_protocol attempt realm)),
                  sent (probe (attempt_protocol attempt realm)) w1))).
Proof.
  split.
  - destruct (_winrm_connect_loop attempts exc w) as [r w'] eqn:Hrun.
    destruct (connect_loop_trace _ _ _ _ _ Hrun)
      as (tried & untried & ps & Hf & Hm & Hw & _ & _ & Hfirst).
    exists tried, untried, ps. cbn [fst snd].
    repeat (split; [assumption|]).
    intros p Hin Hk.
    assert (Hp : In (transport p, endpoint p)
                    (map (fun a => (fst a, urlunsplit_wsman (snd a))) tried)).
    { rewrite <- Hm. now apply (in_map (fun p => (transport p, endpoint p))). }
    apply in_map_iff in Hp. destruct Hp as [a [Ea Ha]].
    assert (Hfilter : In a (filter (fun a => negb (skipped a)) attempts)).
    { rewrite Hf. apply in_or_app. now left. }
    apply filter_In in Hfilter. destruct Hfilter as [_ Hns].
    apply negb_true_iff in Hns.
    apply (skipped_false_kerberos a Hns). injection Ea as Ea _. congruence.
  - intros before attempt after last w1 -> Hbefore Hskip.
    destruct (attempt_realm_ok attempt Hskip) as [realm Hrealm].
    exists realm. split; [exact Hrealm|]. intros Hacc.
    rewrite (exhausted_then before (attempt :: after) exc w last w1 Hbefore).
    now apply connect_loop_accepts.
Qed.




(** ** The shell session *)

Lemma is_setup_probes (ps : list Protocol) :
  forallb is_setup (map probe ps) = true.
Proof. induction ps; cbn; auto. Qed.

Lemma ensure_protocol_effect (w : World) (r : result unit) (w1 : World) :
  ensure_protocol w = (r, w1) ->
  exists new,
    wire w1 = (wire w ++ new)%list
    /\ forallb is_setup new = true
    /\ shell_id (self w1) = shell_id (self w)
    /\ disk w1 = disk w.
Proof.
  unfold ensure_protocol, bind, get_self.
  destruct (truthy_obj (protocol (self w))).
  - intros E. injection E as <- <-. exists []. now rewrite app_nil_r.
  - destruct (_winrm_connect w) as [c w0] eqn:Hc.
    unfold _winrm_connect in Hc.
    destruct (connect_loop_trace _ _ _ _ _ Hc)
      as (_ & _ & ps & _ & _ & Hw & Hs & Hd & _).
    destruct c as [p|e]; intros E; injection E as <- <-;
      exists (map probe ps); cbn; rewrite ?Hw, ?Hs, ?Hd;
      auto using is_setup_probes.
Qed.

Lemma ensure_shell_effect (w : World) (r : result unit) (w1 : World) :
  ensure_shell w = (r, w1) ->
  exists new,
    wire w1 = (wire w ++ new)%list
    /\ forallb is_setup new = true
    /\ protocol (self w1) = protocol (self w)
    /\ disk w1 = disk w.
Proof.
  unfold ensure_shell, bind, get_self, with_protocol, call.
  destruct (truthy_str (shell_id (self w))).
  - intros E. injection E as <- <-. exists []. now rewrite app_nil_r.
  - destruct (protocol (self w)) as [p|] eqn:Hp.
    + destruct (on_open_shell remote (wire w) p) as [sh|e];
        intros E; injection E as <- <-; exists [open_shell p]; cbn; auto.
    + intros E. injection E as <- <-. exists []. now rewrite app_nil_r.
Qed.

(** The requests of one [_winrm_exec]: some set-up, then nothing more
    when the call fails before a command is started; or [run_command]
    alone when it raises; or [run_command] and [get_command_output],
    followed by [cleanup_command] for the id [run_command] answered with,
    unless that id is the empty string. *)
Lemma winrm_exec_wire (command : string) (args : list string)
      (w : World) (r : result Response) (w' : World) :
  _winrm_exec command args w = (r, w') ->
  disk w' = disk w
  /\ exists pre,
      forallb is_setup pre = true
      /\ (wire w' = (wire w ++ pre)%list
          \/ (exists p sh e,
                 on_run_command remote (wire w ++ pre)%list p sh command args
                 = Raise e
                 /\ wire w' = (wire w ++ pre ++ [run_command p sh command args])%list)
          \/ (exists p sh cid,
                 on_run_command remote (wire w ++ pre)%list p sh command args
                 = Ok cid
                 /\ (cid = ""
                     /\ wire w' = (wire w ++ pre
                                   ++ [run_command p sh command args;
                                       get_command_output p sh cid])%list
                     \/ cid <> ""
                        /\ wire w' = (wire w ++ pre
                                      ++ [run_command p sh command args;
                                          get_command_output p sh cid;
                                          cleanup_command p sh cid])%list))).
Proof.
  unfold _winrm_exec. unfold bind at 1.
  destruct (ensure_protocol w) as [r0 w0] eqn:H0.
  destruct (ensure_protocol_effect _ _ _ H0) as (n0 & Hw0 & Hn0 & _ & Hd0).
  destruct r0 as [[]|e0].
  2:{ intros E. injection E as <- <-. split; [exact Hd0|].
      exists n0. split; [exact Hn0|]. now left. }
  unfold bind at 1.
  destruct (ensure_shell w0) as [r1 w1] eqn:H1.
  destruct (ensure_shell_effect _ _ _ H1) as (n1 & Hw1 & Hn1 & _ & Hd1).
  assert (Hpre : wire w1 = (wire w ++ (n0 ++ n1))%list).
  { rewrite Hw1, Hw0. now rewrite app_assoc. }
  assert (Hsetup : forallb is_setup (n0 ++ n1) = true).
  { rewrite forallb_app. now rewrite Hn0, Hn1. }
  assert (Hdisk : disk w1 = disk w) by congruence.
  clear H0 H1 Hw0 Hw1 Hn0 Hn1 Hd0 Hd1.
  destruct r1 as [[]|e1].
  2:{ intros E. injection E as <- <-. split; [exact Hdisk|].
      exists (n0 ++ n1)%list. split; [exact Hsetup|]. now left. }
  unfold protocol_run_command, protocol_get_command_output, cleanup,
    finally_, bind, get_self, with_protocol, call, ret.
  destruct (protocol (self w1)) as [p|] eqn:Hp.
  2:{ intros E. injection E as <- <-. split; [exact Hdisk|].
      exists (n0 ++ n1)%list. split; [exact Hsetup|]. now left. }
  destruct (on_run_command remote (wire w1) p (shell_id (self w1)) command args)
    as [cid|e] eqn:Hrun; rewrite Hpre in Hrun.
  2:{ intros E. injection E as <- <-. split; [exact Hdisk|].
      exists (n0 ++ n1)%list. split; [exact Hsetup|]. right. left.
      exists p, (shell_id (self w1)), e. split; [exact Hrun|].
      cbn. rewrite Hpre. now rewrite <- app_assoc. }
  cbn [self sent protocol]. rewrite Hp.
  set (sh := shell_id (self w1)) in *.
  destruct (on_get_command_output remote
              (wire (sent (run_command p sh command args) w1)) p sh cid)
    as [out|e]; cbn [truthy_str];
    (destruct (String.eqb_spec cid "") as [Hcid|Hcid]; cbn [negb];
     [|cbn [self sent protocol shell_id]; rewrite Hp; fold sh;
       destruct (on_cleanup_command remote _ p sh cid)]);
    intros E; injection E as <- <-; (split; [exact Hdisk|]);
    exists (n0 ++ n1)%list; (split; [exact Hsetup|]); right; right;
    exists p, sh, cid; (split; [exact Hrun|]);
    [left|right|right|left|right|right];
    (split; [exact Hcid|]); cbn [wire sent]; rewrite Hpre;
    now rewrite <- !app_assoc.
Qed.

Lemma replay_commands_app (a b : list Request) :
  forall done held,
    replay_commands done (a ++ b)%list held
    = replay_commands (done ++ a)%list b (replay_commands done a held).
Proof.
  induction a as [|q a IH]; intros done held; cbn.
  - now rewrite app_nil_r.
  - rewrite IH. now rewrite <- app_assoc.
Qed.

Lemma replay_commands_setup (new : list Request) :
  forall done held,
    forallb is_setup new = true -> replay_commands done new held = held.
Proof.
  induction new as [|q new IH]; intros done held H; cbn in *; [reflexivity|].
  apply andb_prop in H. destruct H as [Hq Hnew].
  rewrite (IH _ _ Hnew). now destruct q.
Qed.

Lemma CommandHandle_eqb_refl (x : CommandHandle) : CommandHandle_eqb x x = true.
Proof.
  destruct x as [[sh|] cid]; unfold CommandHandle_eqb; cbn;
    now rewrite ?String.eqb_refl.
Qed.

(** C6.  Provided the remote end never hands out the empty string as a
    command id, the command handles left open after [_winrm_exec] are the
    ones that were open before it, however the call ends (a response, a
    failure of [run_command], or an error thrown while the output is
    fetched): the handle opened by the call has had its
    [cleanup_command] sent by the time the call returns or raises. *)
Theorem winrm_exec_releases_command_handle
        (command : string) (args : list string) (w : World) :
  (forall h p sh c a, on_run_command remote h p sh c a <> Ok "") ->
  open_commands (wire (snd (_winrm_exec command args w)))
  = open_commands (wire w).
Proof.
  intros Hids.
  destruct (_winrm_exec command args w) as [r w'] eqn:Hrun. cbn [snd].
  destruct (winrm_exec_wire _ _ _ _ _ Hrun) as (_ & pre & Hpre & Hshape).
  unfold open_commands.
  destruct Hshape as [Hw|[(p & sh & e & Hreply & Hw)|(p & sh & cid & Hreply & Hw)]].
  - rewrite Hw, replay_commands_app. now apply replay_commands_setup.
  - rewrite Hw, !replay_commands_app. cbn [app replay_commands].
    rewrite Hreply. now apply replay_commands_setup.
  - destruct Hw as [[-> _]|[Hcid Hw]]; [now elim (Hids _ _ _ _ _ Hreply)|].
    rewrite Hw, !replay_commands_app. cbn [app replay_commands remove_first].
    rewrite Hreply. cbn [remove_first]. rewrite CommandHandle_eqb_refl.
    now apply replay_commands_setup.
Qed.

Lemma close_effect (w : World) :
  (forall p, protocol (self w) = Some p ->
             truthy_str (shell_id (self w)) = true ->
             close w
             = match on_close_shell remote (wire w) p (shell_id (self w)) with
               | Ok _ =>
                   (Ok tt,
                    set_shell_id None (sent (close_shell p (shell_id (self w))) w))
               | Raise e =>
                   (Raise e, sent (close_shell p (shell_id (self w))) w)
               end)
  /\ (protocol (self w) = None \/ truthy_str (shell_id (self w)) = false ->
      close w = (Ok tt, w)).
Proof.
  unfold close, bind, get_self, with_protocol, call, modify, ret. split.
  - intros p Hp Hsh. rewrite Hp, Hsh. cbn. rewrite Hp.
    now destruct (on_close_shell remote (wire w) p (shell_id (self w))).
  - intros [Hp|Hsh].
    + now rewrite Hp.
    + rewrite Hsh. now rewrite andb_false_r.
Qed.

(** C7.  [close] sends [close_shell] for the shell handle and clears it
    exactly when the session holds both a connection and a shell handle;
    otherwise it does nothing; it never touches the connection handle.
    On a session that was closed, the next [_winrm_exec] asks for a shell
    again: when the remote end hands out a shell and runs the command, the
    call returns the response and the session holds the new shell
    handle. *)
Theorem close_clears_shell_and_reopens (w : World) :
  protocol (self (snd (close w))) = protocol (self w)
  /\ (forall p,
         protocol (self w) = Some p ->
         truthy_str (shell_id (self w)) = true ->
         wire (snd (close w))
         = (wire w ++ [close_shell p (shell_id (self w))])%list
         /\ (on_close_shell remote (wire w) p (shell_id (self w)) = Ok tt ->
             fst (close w) = Ok tt
             /\ shell_id (self (snd (close w))) = None))
  /\ (protocol (self w) = None \/ truthy_str (shell_id (self w)) = false ->
      close w = (Ok tt, w))
  /\ (forall command args p sh cid out wc,
         (truthy_str (shell_id (self w)) = true -> protocol (self w) <> None) ->
         fst (close w) = Ok tt ->
         _connect (snd (close w)) = (Ok tt, wc) ->
         protocol (self wc) = Some p ->
         on_open_shell remote (wire wc) p = Ok sh ->
         on_run_command remote (wire wc ++ [open_shell p])%list p (Some sh)
                        command args = Ok cid ->
         cid <> "" ->
         on_get_command_output remote
           (wire wc ++ [open_shell p; run_command p (Some sh) command args])%list
           p (Some sh) cid = Ok out ->
         on_cleanup_command remote
           (wire wc ++ [open_shell p; run_command p (Some sh) command args;
                        get_command_output p (Some sh) cid])%list
           p (Some sh) cid = Ok tt ->
         exists w2,
           _winrm_exec command args (snd (close w))
           = (Ok {| std_out := fst (fst out); std_err := snd (fst out);
                    status_code := snd out |}, w2)
           /\ shell_id (self w2) = Some sh
           /\ protocol (self w2) = Some p
           /\ wire w2
              = (wire wc ++ [open_shell p; run_command p (Some sh) command args;
                             get_command_output p (Some sh) cid;
                             cleanup_command p (Some sh) cid])%list).
Proof.
  destruct (close_effect w) as [Hboth Hnoop].
  assert (Hcases : (exists p, protocol (self w) = Some p
                              /\ truthy_str (shell_id (self w)) = true)
                   \/ (protocol (self w) = None
                       \/ truthy_str (shell_id (self w)) = false)).
  { destruct (protocol (self w)) as [p|]; [|now right; left].
    destruct (truthy_str (shell_id (self w))); [left; eauto|now right; right]. }
  split; [|split; [|split]].
  - destruct Hcases as [(p & Hp & Hsh)|Hno].
    + rewrite (Hboth p Hp Hsh).
      now destruct (on_close_shell remote (wire w) p (shell_id (self w))).
    + now rewrite (Hnoop Hno).
  - intros p Hp Hsh. rewrite (Hboth p Hp Hsh).
    destruct (on_close_shell remote (wire w) p (shell_id (self w))) as [[]|e].
    + split; [reflexivity|]. intros _. now split.
    + split; [reflexivity|]. discriminate.
  - exact Hnoop.
  - intros command args p sh cid out wc Hinv Hok Hconn Hp Hopen Hrun Hcid
           Hout Hclean.
    assert (Hfalsy : truthy_str (shell_id (self (snd (close w)))) = false).
    { destruct Hcases as [(p0 & Hp0 & Hsh)|Hno].
      - rewrite (Hboth p0 Hp0 Hsh) in Hok |- *.
        destruct (on_close_shell remote (wire w) p0 (shell_id (self w)));
          [reflexivity|discriminate].
      - rewrite (Hnoop Hno). cbn [snd].
        destruct Hno as [Hnone|Hsh]; [|exact Hsh].
        destruct (truthy_str (shell_id (self w))); [|reflexivity].
        now elim (Hinv eq_refl). }
    unfold _connect in Hconn.
    destruct (ensure_protocol_effect _ _ _ Hconn) as (_ & _ & _ & Hshell & _).
    rewrite <- Hshell in Hfalsy.
    unfold _winrm_exec.
    rewrite (bind_ok _ _ _ _ _ Hconn).
    unfold ensure_shell, protocol_run_command, protocol_get_command_output,
      cleanup, finally_, bind, get_self, with_protocol, call, modify, ret.
    rewrite Hfalsy, Hp, Hopen. cbn. rewrite Hp, Hrun. cbn. rewrite Hp.
    rewrite <- !app_assoc. cbn. rewrite Hout.
    destruct (String.eqb_spec cid "") as [E|_]; [contradiction|]. cbn.
    rewrite Hp. rewrite <- !app_assoc. cbn. rewrite Hclean.
    eexists. split; [reflexivity|]. cbn. rewrite <- !app_assoc. now cbn.
Qed.

(** ** Download *)

Lemma fetch_buffer_size_value : fetch_buffer_size = 524288.
Proof. reflexivity. Qed.

Lemma can_open_not_dir (d : Disk) (path : string) :
  Local.can_open d path = true -> Local.isdir d path = false.
Proof.
  unfold Local.can_open. intros H.
  apply andb_prop in H. destruct H as [H _].
  apply andb_prop in H. destruct H as [_ H].
  now apply negb_true_iff in H.
Qed.

Lemma store_data_chunk (out_path : string) (offset : Z) (out_file : bool)
      (data : string) (w1 : World) :
  (out_file = false -> Local.can_open (disk w1) out_path = true) ->
  (out_file = true -> exists old, disk w1 out_path = Some (File old)) ->
  exists w2 old,
    wire w2 = wire w1
    /\ self w2 = self w1
    /\ disk w2 out_path = Some (File (old ++ data))
    /\ (out_file = false -> old = "")
    /\ store_chunk out_path offset out_file (Some data) w1
       = (Ok (if Py.len data <? 524288 then Break
              else Continue (offset + Py.len data) true), w2).
Proof.
  intros Hcan Hopen.
  unfold store_chunk, bind, get_disk, ret, Local.write, Local.open_wb.
  rewrite fetch_buffer_size_value.
  destruct out_file; cbn [negb andb].
  - destruct (Hopen eq_refl) as [old Hold]. rewrite Hold.
    exists (set_disk (disk_set (disk w1) out_path (File (old ++ data))) w1), old.
    split; [reflexivity|]. split; [reflexivity|].
    split; [cbn; unfold disk_set; now rewrite String.eqb_refl|].
    split; [discriminate|].
    now destruct (Py.len data <? 524288).
  - rewrite (can_open_not_dir _ _ (Hcan eq_refl)), (Hcan eq_refl).
    cbn [disk set_disk]. unfold disk_set at 1. rewrite String.eqb_refl.
    exists (set_disk (disk_set (disk_set (disk w1) out_path (File ""))
                               out_path (File ("" ++ data)))
                     (set_disk (disk_set (disk w1) out_path (File "")) w1)), "".
    split; [reflexivity|]. split; [reflexivity|].
    split; [cbn; unfold disk_set; now rewrite String.eqb_refl|].
    split; [reflexivity|].
    now destruct (Py.len data <? 524288).
Qed.

(** A first data chunk for a local path that is no directory and cannot
    be opened: the pass fails, and nothing is written. *)
Lemma store_chunk_cannot_open (out_path : string) (offset : Z)
      (data : string) (w1 : World) :
  Local.isdir (disk w1) out_path = false ->
  Local.can_open (disk w1) out_path = false ->
  store_chunk out_path offset false (Some data) w1
  = (Raise (IOError out_path), w1).
Proof.
  intros Hdir Hcan.
  unfold store_chunk, bind, get_disk, ret, Local.open_wb.
  cbn [negb andb]. now rewrite Hdir, Hcan.
Qed.

(** C8.  Once a pass of the download loop has decoded a data chunk for a
    local file that is open, or that the pass opens (the local path is
    no directory): a chunk shorter than 524288 bytes is written and ends
    the loop, and the transfer, successfully, with no request sent after
    the one that fetched the chunk; any other chunk is written and moves
    the offset forward by exactly its decoded length, and the loop goes
    round again.  When the local file cannot be opened, the pass raises
    the transfer error instead, and nothing is written. *)
Theorem fetch_chunk_length_decides
        (in_path out_path : string) (offset : Z) (out_file : bool)
        (w w1 : World) (data : string) :
  fetch_chunk in_path offset w = (Ok (Some data), w1) ->
  (out_file = false -> Local.isdir (disk w1) out_path = false) ->
  (out_file = true -> exists old, disk w1 out_path = Some (File old)) ->
  (out_file = false ->
   Local.can_open (disk w1) out_path = false ->
   forall fuel,
     fetch_file_loop (S fuel) in_path out_path offset out_file w
     = (Raise (AnsibleError ("failed to transfer file to " ++ out_path)), w1))
  /\ ((out_file = false -> Local.can_open (disk w1) out_path = true) ->
      exists w2 old,
        wire w2 = wire w1
        /\ self w2 = self w1
        /\ disk w2 out_path = Some (File (old ++ data))
        /\ (out_file = false -> old = "")
        /\ (Py.len data < 524288 ->
            fetch_file_step in_path out_path offset out_file w = (Ok Break, w2)
            /\ forall fuel,
                fetch_file_loop (S fuel) in_path out_path offset out_file w
                = (Ok (Some tt), w2))
        /\ (524288 <= Py.len data ->
            fetch_file_step in_path out_path offset out_file w
            = (Ok (Continue (offset + Py.len data) true), w2)
            /\ forall fuel,
                fetch_file_loop (S fuel) in_path out_path offset out_file w
                = fetch_file_loop fuel in_path out_path (offset + Py.len data)
                                  true w2)).
Proof.
  intros Hchunk Hdir Hopen. split.
  - intros -> Hcan fuel.
    cbn [fetch_file_loop]. unfold bind at 1. unfold fetch_file_step, try_except.
    rewrite (bind_ok _ _ _ _ _ Hchunk).
    now rewrite (store_chunk_cannot_open out_path offset data w1
                   (Hdir eq_refl) Hcan).
  - intros Hcan.
    destruct (store_data_chunk out_path offset out_file data w1 Hcan Hopen)
      as (w2 & old & Hwire & Hself & Hdisk & Hold & Hstore).
    exists w2, old. repeat (split; [assumption|]).
    assert (Hstep : fetch_file_step in_path out_path offset out_file w
                    = (Ok (if Py.len data <? 524288 then Break
                           else Continue (offset + Py.len data) true), w2)).
    { unfold fetch_file_step, try_except.
      rewrite (bind_ok _ _ _ _ _ Hchunk). now rewrite Hstore. }
    split.
    + intros Hshort. apply Z.ltb_lt in Hshort. rewrite Hshort in Hstep.
      split; [exact Hstep|]. intros fuel. cbn [fetch_file_loop].
      now rewrite (bind_ok _ _ _ _ _ Hstep).
    + intros Hfull. apply Z.ltb_ge in Hfull. rewrite Hfull in Hstep.
      split; [exact Hstep|]. intros fuel. cbn [fetch_file_loop].
      now rewrite (bind_ok _ _ _ _ _ Hstep).
Qed.

(** ** Upload: the target path *)

Lemma setup_writes_to (in_size : Z) (path : string) (pre : list Request) :
  forallb is_setup pre = true -> Forall (writes_to in_size path) pre.
Proof.
  induction pre as [|q pre IH]; cbn; intros H; constructor.
  - apply andb_prop in H. destruct H as [Hq _]. now destruct q.
  - apply IH. apply andb_prop in H. tauto.
Qed.

Lemma exec_writes_to (in_size : Z) (path : string) (offset : Z)
      (data command : string) (args : list string)
      (w : World) (r : result Response) (w' : World) :
  (command :: args)%list
  = _encode_script_as_list _shell
      (script_template (_escape _shell path) offset (b64encode base64 data)
                       in_size) ->
  _winrm_exec command args w = (r, w') ->
  exists new,
    wire w' = (wire w ++ new)%list /\ Forall (writes_to in_size path) new.
Proof.
  intros Hcmd Hrun.
  destruct (winrm_exec_wire _ _ _ _ _ Hrun) as (_ & pre & Hpre & Hshape).
  assert (Hw : forall p sh, writes_to in_size path (run_command p sh command args)).
  { intros p sh. exists offset, data. exact Hcmd. }
  pose proof (setup_writes_to in_size path pre Hpre) as Hsetup.
  destruct Hshape as [E|[(p & sh & e & _ & E)|(p & sh & cid & _ & [[_ E]|[_ E]])]];
    rewrite E; eexists; (split; [reflexivity|]);
    rewrite ?Forall_app; repeat split; auto;
    repeat (constructor; auto); exact I.
Qed.

(** One chunk: whatever reaches the wire is set-up or a write to the
    path, and a failure is reported with the path. *)
Lemma put_chunk_effect (path : string) (offset : Z) (data : string)
      (in_size : Z) (w : World) :
  exists new,
    wire (snd (put_chunk path offset data in_size w)) = (wire w ++ new)%list
    /\ Forall (writes_to in_size path) new
    /\ (forall e,
           fst (put_chunk path offset data in_size w) = Raise e ->
           e = AnsibleError ("failed to transfer file to " ++ path)).
Proof.
  unfold put_chunk, try_except.
  destruct (_encode_script_as_list _shell _) as [|command args] eqn:Hcmd.
  { exists []. unfold raise. cbn [fst snd]. rewrite app_nil_r.
    repeat split; auto. intros e E. now injection E as <-. }
  unfold bind.
  destruct (_winrm_exec command args w) as [r w1] eqn:Hrun.
  destruct (exec_writes_to _ _ _ _ _ _ _ _ _ (eq_sym Hcmd) Hrun)
    as (new1 & Hw1 & Hn1).
  exists new1.
  destruct r as [resp|e0]; [destruct (status_code resp =? 0)|];
    unfold raise, ret; cbn [negb fst snd];
    (split; [exact Hw1|]); (split; [exact Hn1|]);
    intros e E; try discriminate; now injection E as <-.
Qed.

(** The loop from an offset that is not the first one on: the path stays
    what it is. *)
Lemma put_file_loop_keeps_path (offsets : list Z) (chunk in_size : Z)
      (path : string) :
  Forall (fun offset => offset <> 0) offsets ->
  forall in_file w,
  exists new,
    wire (snd (put_file_loop offsets chunk in_size in_file path w))
    = (wire w ++ new)%list
    /\ Forall (writes_to in_size path) new
    /\ (forall e,
           fst (put_file_loop offsets chunk in_size in_file path w) = Raise e ->
           e = AnsibleError ("failed to transfer file to " ++ path)).
Proof.
  induction 1 as [|offset rest Hoffset _ IH]; intros in_file w.
  - exists []. cbn. rewrite app_nil_r. repeat split; auto. discriminate.
  - cbn [put_file_loop]. apply Z.eqb_neq in Hoffset. rewrite Hoffset.
    unfold bind.
    destruct (put_chunk_effect path offset (Py.file_read chunk in_file)
                               in_size w) as (new1 & Hw1 & Hn1 & He1).
    destruct (put_chunk path offset (Py.file_read chunk in_file) in_size w)
      as [[[]|e1] w1]; cbn [fst snd] in *.
    + destruct (IH (Py.file_rest chunk in_file) w1) as (new2 & Hw2 & Hn2 & He2).
      exists (new1 ++ new2)%list. rewrite Hw2, Hw1, app_assoc.
      split; [reflexivity|]. split; [|exact He2].
      apply Forall_app. now split.
    + exists new1. repeat split; auto.
Qed.

Lemma xrange_from_zero (stop step : Z) :
  step <> 0 ->
  Py.xrange 0 stop step = []
  \/ exists rest, Py.xrange 0 stop step = (0 :: rest)%list
                  /\ Forall (fun offset => offset <> 0) rest.
Proof.
  intros Hstep. unfold Py.xrange.
  destruct (Py.xrange_len 0 stop step) as [|n]; [now left|right].
  cbn [seq map]. eexists. split; [reflexivity|].
  apply Forall_forall. intros offset Hin.
  apply in_map_iff in Hin. destruct Hin as [i [<- Hi]].
  apply in_seq in Hi. nia.
Qed.

(** The loop from the first offset on: the first pass settles the path. *)
Lemma put_file_loop_from_zero (rest : list Z) (chunk in_size : Z)
      (in_file out_path : string) (w : World) :
  Forall (fun offset => offset <> 0) rest ->
  let target :=
    if (Py.startswith (Py.lower (Py.file_read chunk in_file)) "#!powershell"
        && negb (Py.endswith (Py.lower out_path) ".ps1"))%bool
    then out_path ++ ".ps1" else out_path in
  exists new,
    wire (snd (put_file_loop (0 :: rest) chunk in_size in_file out_path w))
    = (wire w ++ new)%list
    /\ Forall (writes_to in_size target) new
    /\ (forall e,
           fst (put_file_loop (0 :: rest) chunk in_size in_file out_path w)
           = Raise e ->
           e = AnsibleError ("failed to transfer file to " ++ target)).
Proof.
  intros Hrest target.
  cbn [put_file_loop]. rewrite Z.eqb_refl. fold target.
  unfold bind.
  destruct (put_chunk_effect target 0 (Py.file_read chunk in_file) in_size w)
    as (new1 & Hw1 & Hn1 & He1).
  destruct (put_chunk target 0 (Py.file_read chunk in_file) in_size w)
    as [[[]|e1] w1]; cbn [fst snd] in *.
  - destruct (put_file_loop_keeps_path rest chunk in_size target Hrest
                (Py.file_rest chunk in_file) w1) as (new2 & Hw2 & Hn2 & He2).
    exists (new1 ++ new2)%list. rewrite Hw2, Hw1, app_assoc.
    split; [reflexivity|]. split; [|exact He2].
    apply Forall_app. now split.
  - exists new1. repeat split; auto.
Qed.

(* ===================================================================== *)
(** * Further properties *)
(* ===================================================================== *)

(** ** A session that holds its handles *)

(** [_winrm_exec] on a session that holds a connection and a shell,
    spelled out answer by answer. *)
Lemma winrm_exec_open_session (command : string) (args : list string)
      (w : World) (p : Protocol) :
  protocol (self w) = Some p ->
  truthy_str (shell_id (self w)) = true ->
  _winrm_exec command args w
  = match on_run_command remote (wire w) p (shell_id (self w)) command args with
    | Raise e =>
        (Raise e, sent (run_command p (shell_id (self w)) command args) w)
    | Ok cid =>
        let w1 := sent (run_command p (shell_id (self w)) command args) w in
        let w2 := sent (get_command_output p (shell_id (self w)) cid) w1 in
        let r := match on_get_command_output remote (wire w1) p
                         (shell_id (self w)) cid with
                 | Ok out => Ok {| std_out := fst (fst out);
                                   std_err := snd (fst out);
                                   status_code := snd out |}
                 | Raise e => Raise e
                 end in
        if String.eqb cid "" then (r, w2)
        else match on_cleanup_command remote (wire w2) p
                     (shell_id (self w)) cid with
             | Ok _ => (r, sent (cleanup_command p (shell_id (self w)) cid) w2)
             | Raise e =>
                 (Raise e, sent (cleanup_command p (shell_id (self w)) cid) w2)
             end
    end.
Proof.
  intros Hp Hsh.
  unfold _winrm_exec, ensure_protocol, ensure_shell, protocol_run_command,
    protocol_get_command_output, cleanup, finally_, bind, get_self,
    with_protocol, call, ret.
  cbv beta iota. rewrite Hp. cbn [truthy_obj]. cbv beta iota.
  rewrite Hsh, Hp.
  destruct (on_run_command remote (wire w) p (shell_id (self w)) command args)
    as [cid|e]; [|reflexivity].
  cbv beta iota zeta. cbn [self sent protocol shell_id]. rewrite Hp.
  cbn [truthy_str].
  destruct (on_get_command_output remote _ p (shell_id (self w)) cid) as [out|e];
    destruct (String.eqb cid ""); cbn [negb]; cbv beta iota; try reflexivity;
    cbn [self sent protocol shell_id]; rewrite Hp;
    now destruct (on_cleanup_command remote _ p (shell_id (self w)) cid).
Qed.

(** X1.  On a session that holds a connection and a shell,
    [_winrm_exec] negotiates nothing and opens nothing: it sends
    [run_command] first, at most three requests in all, each of them on
    the held connection and for the held shell, and it leaves the session
    object and the disk as they are, however the command ends. *)
Theorem winrm_exec_reuses_open_session (command : string) (args : list string)
        (w : World) (p : Protocol) :
  protocol (self w) = Some p ->
  truthy_str (shell_id (self w)) = true ->
  self (snd (_winrm_exec command args w)) = self w
  /\ disk (snd (_winrm_exec command args w)) = disk w
  /\ exists new,
      wire (snd (_winrm_exec command args w)) = (wire w ++ new)%list
      /\ hd_error new = Some (run_command p (shell_id (self w)) command args)
      /\ (List.length new <= 3)%nat
      /\ Forall (fun q =>
                   match q with
                   | run_command p' sh' _ _
                   | get_command_output p' sh' _
                   | cleanup_command p' sh' _ =>
                       p' = p /\ sh' = shell_id (self w)
                   | _ => False
                   end) new.
Proof.
  intros Hp Hsh. rewrite (winrm_exec_open_session command args w p Hp Hsh).
  destruct (on_run_command remote (wire w) p (shell_id (self w)) command args)
    as [cid|e].
  - cbv zeta.
    destruct (String.eqb cid "").
    + cbn [snd]. repeat split.
      eexists. split; [cbn; rewrite <- app_assoc; reflexivity|].
      cbn. repeat split; auto.
    + destruct (on_cleanup_command remote _ p (shell_id (self w)) cid);
        cbn [snd]; repeat split;
        (eexists; split; [cbn; rewrite <- !app_assoc; reflexivity|]);
        cbn; repeat split; auto.
  - cbn [snd]. repeat split.
    eexists. split; [reflexivity|]. cbn. repeat split; auto.
Qed.

(** X2.  How a command on a session that holds its handles ends.  When
    [run_command] raises, that error is the outcome and nothing else is
    sent.  When it hands out a command id: if [cleanup_command] raises,
    its error is the outcome, whether the output had been fetched or not;
    if the clean-up goes through, the outcome is the fetched output as a
    response, unchanged, or the error of fetching it. *)
Theorem winrm_exec_outcome (command : string) (args : list string)
        (w : World) (p : Protocol) :
  protocol (self w) = Some p ->
  truthy_str (shell_id (self w)) = true ->
  let sh := shell_id (self w) in
  let h1 := (wire w ++ [run_command p sh command args])%list in
  (forall e,
      on_run_command remote (wire w) p sh command args = Raise e ->
      _winrm_exec command args w
      = (Raise e, sent (run_command p sh command args) w))
  /\ (forall cid,
         on_run_command remote (wire w) p sh command args = Ok cid ->
         cid <> "" ->
         let h2 := (h1 ++ [get_command_output p sh cid])%list in
         (forall e,
             on_cleanup_command remote h2 p sh cid = Raise e ->
             fst (_winrm_exec command args w) = Raise e)
         /\ (on_cleanup_command remote h2 p sh cid = Ok tt ->
             fst (_winrm_exec command args w)
             = match on_get_command_output remote h1 p sh cid with
               | Ok out => Ok {| std_out := fst (fst out);
                                 std_err := snd (fst out);
                                 status_code := snd out |}
               | Raise e => Raise e
               end)).
Proof.
  intros Hp Hsh sh h1.
  rewrite (winrm_exec_open_session command args w p Hp Hsh). fold sh.
  split.
  - intros e ->. reflexivity.
  - intros cid -> Hcid. cbv zeta.
    destruct (String.eqb_spec cid "") as [E|_]; [contradiction|].
    cbn [wire sent]. fold h1. split.
    + intros e ->. reflexivity.
    + intros ->. reflexivity.
Qed.

(** X3.  [close] releases the shell once: after a [close] that returned,
    another [close] sends nothing and changes nothing.  A [close] whose
    [close_shell] raises keeps the shell handle in the session, so that
    the release can be tried again. *)
Theorem close_releases_once (w : World) :
  (fst (close w) = Ok tt ->
   close (snd (close w)) = (Ok tt, snd (close w)))
  /\ (forall e, fst (close w) = Raise e -> self (snd (close w)) = self w).
Proof.
  destruct (close_effect w) as [Hboth Hnoop].
  destruct (protocol (self w)) as [p|] eqn:Hp.
  - destruct (truthy_str (shell_id (self w))) eqn:Hsh.
    + rewrite (Hboth p eq_refl eq_refl).
      destruct (on_close_shell remote (wire w) p (shell_id (self w)))
        as [[]|e0]; cbn [fst snd]; split; try discriminate.
      * intros _. apply close_effect. right. reflexivity.
      * intros e _. reflexivity.
    + rewrite (Hnoop (or_intror eq_refl)). cbn [fst snd]. split.
      * intros _. apply close_effect. right. exact Hsh.
      * discriminate.
  - rewrite (Hnoop (or_introl eq_refl)). cbn [fst snd]. split.
    + intros _. apply close_effect. left. exact Hp.
    + discriminate.
Qed.

(** ** More on negotiation *)

(** What one probe is: the handle of an attempt of the list that is not
    skipped. *)
Lemma connect_loop_handles (attempts : list (Transport * Scheme)) :
  forall exc w r w',
    _winrm_connect_loop attempts exc w = (r, w') ->
    exists ps,
      wire w' = (wire w ++ map probe ps)%list
      /\ (List.length ps <= List.length attempts)%nat
      /\ Forall (fun p => exists a realm,
                     In a attempts
                     /\ skipped a = false
                     /\ attempt_realm (fst a) = Ok realm
                     /\ p = attempt_protocol a realm) ps
      /\ (forall p, r = Ok (Some p) -> In p ps)
      /\ (r = Ok None -> exc = None /\ forallb skipped attempts = true).
Proof.
  induction attempts as [|attempt rest IH]; intros exc w r w' Hrun.
  - cbn in Hrun. exists []. cbn. rewrite app_nil_r.
    destruct exc; inversion Hrun; subst; repeat split; auto; discriminate.
  - cbn [_winrm_connect_loop] in Hrun.
    destruct (skipped attempt) eqn:Hskip.
    { destruct (IH _ _ _ _ Hrun) as (ps & Hw & Hlen & Hall & Hret & Hnone).
      exists ps. split; [exact Hw|]. split; [cbn; lia|].
      split.
      - eapply Forall_impl; [|exact Hall].
        intros p (a & realm & Ha & H). exists a, realm. split; [now right|exact H].
      - split; [exact Hret|]. intros E. destruct (Hnone E) as [-> Hs].
        split; [reflexivity|]. cbn. now rewrite Hskip, Hs. }
    destruct (attempt_realm_ok attempt Hskip) as [realm Hrealm].
    rewrite Hrealm in Hrun. unfold call in Hrun.
    set (p := attempt_protocol attempt realm) in *.
    assert (Hp : exists a realm0,
               In a (attempt :: rest) /\ skipped a = false
               /\ attempt_realm (fst a) = Ok realm0
               /\ p = attempt_protocol a realm0).
    { exists attempt, realm. repeat split; auto. now left. }
    assert (Hone : forall r0,
               r0 <> Ok None -> (forall q, r0 = Ok (Some q) -> q = p) ->
               (r0, sent (send_message p "") w) = (r, w') ->
               exists ps,
                 wire w' = (wire w ++ map probe ps)%list
                 /\ (List.length ps <= List.length (attempt :: rest))%nat
                 /\ Forall (fun p => exists a realm,
                                In a (attempt :: rest)
                                /\ skipped a = false
                                /\ attempt_realm (fst a) = Ok realm
                                /\ p = attempt_protocol a realm) ps
                 /\ (forall p, r = Ok (Some p) -> In p ps)
                 /\ (r = Ok None ->
                     exc = None /\ forallb skipped (attempt :: rest) = true)).
    { intros r0 Hr0 Hq E. injection E as <- <-. exists [p].
      split; [reflexivity|]. split; [cbn; lia|].
      split; [constructor; [exact Hp|constructor]|].
      split; [intros q E; left; symmetry; now apply Hq|].
      intros E. now elim Hr0. }
    assert (Hmore : forall err_msg,
               _winrm_connect_loop rest (Some err_msg)
                                   (sent (send_message p "") w) = (r, w') ->
               exists ps,
                 wire w' = (wire w ++ map probe ps)%list
                 /\ (List.length ps <= List.length (attempt :: rest))%nat
                 /\ Forall (fun p => exists a realm,
                                In a (attempt :: rest)
                                /\ skipped a = false
                                /\ attempt_realm (fst a) = Ok realm
                                /\ p = attempt_protocol a realm) ps
                 /\ (forall p, r = Ok (Some p) -> In p ps)
                 /\ (r = Ok None ->
                     exc = None /\ forallb skipped (attempt :: rest) = true)).
    { intros err_msg Hrest.
      destruct (IH _ _ _ _ Hrest) as (ps & Hw & Hlen & Hall & Hret & Hnone).
      exists (p :: ps).
      split; [rewrite Hw; cbn; now rewrite <- app_assoc|].
      split; [cbn; lia|].
      split.
      - constructor; [exact Hp|].
        eapply Forall_impl; [|exact Hall].
        intros q (a & realm0 & Ha & H). exists a, realm0.
        split; [now right|exact H].
      - split; [intros q E; right; now apply Hret|].
        intros E. destruct (Hnone E) as [Habs _]. discriminate. }
    pose proof (fun e0 => Hone (Raise e0) ltac:(discriminate)
                               ltac:(discriminate)) as Hfatal.
    destruct (on_send_message remote (wire w) p "") as [u|e].
    { apply (Hone (Ok (Some p))); [discriminate| |exact Hrun].
      intros q E. now injection E. }
    destruct e as [err_msg|m|m|m|m| | | | |m];
      [|exact (Hfatal _ Hrun)..].
    destruct (Py.search_timed_out err_msg).
    { exact (Hfatal _ Hrun). }
    destruct (Py.search_code err_msg) as [code|]; [|exact (Hmore _ Hrun)].
    destruct (code =? 401).
    { exact (Hfatal _ Hrun). }
    destruct (code =? 411); [|exact (Hmore _ Hrun)].
    apply (Hone (Ok (Some p))); [discriminate| |exact Hrun].
    intros q E. now injection E.
Qed.

(** X4.  Negotiation talks and changes nothing: all it sends are probes,
    no more of them than the attempt table has entries, and it leaves the
    session object (the caller stores the handle) and the disk as they
    are. *)
Theorem negotiation_sends_only_probes (w : World) :
  self (snd (_winrm_connect w)) = self w
  /\ disk (snd (_winrm_connect w)) = disk w
  /\ exists ps,
      wire (snd (_winrm_connect w)) = (wire w ++ map probe ps)%list
      /\ (List.length ps
          <= List.length
               (transport_schemes
                  (if (connect_port =? 5985)%Z then http else https)))%nat.
Proof.
  unfold _winrm_connect.
  destruct (_winrm_connect_loop _ None w) as [r w'] eqn:Hrun. cbn [snd].
  destruct (connect_loop_trace _ _ _ _ _ Hrun)
    as (_ & _ & _ & _ & _ & _ & Hself & Hdisk & _).
  destruct (connect_loop_handles _ _ _ _ _ Hrun) as (ps & Hw & Hlen & _).
  repeat split; auto. exists ps. now split.
Qed.

(** X5.  Every handle negotiation probes carries the user name and the
    password of the session and targets [/wsman] at the configured host
    and port, over http or https; a plaintext handle has no realm, a
    kerberos handle has the text after the first ['@'] of the user name,
    stripped, or no realm if that is empty.  The handle negotiation
    returns is one of those it probed. *)
Theorem negotiated_handles (attempts : list (Transport * Scheme))
        (exc : option string) (w : World) :
  exists ps,
    wire (snd (_winrm_connect_loop attempts exc w))
    = (wire w ++ map probe ps)%list
    /\ Forall (fun p =>
                 username p = remote_user _connection_info
                 /\ password p = conn_password _connection_info
                 /\ (endpoint p = "http://" ++ netloc ++ "/wsman"
                     \/ endpoint p = "https://" ++ netloc ++ "/wsman")
                 /\ (transport p = plaintext -> realm p = None)
                 /\ (transport p = kerberos ->
                     exists tail,
                       Py.split1_tail "@" (remote_user _connection_info)
                       = Some tail
                       /\ realm p = if String.eqb (Py.strip tail) "" then None
                                    else Some (Py.strip tail))) ps
    /\ (forall p, fst (_winrm_connect_loop attempts exc w) = Ok (Some p) ->
                  In p ps).
Proof.
  destruct (_winrm_connect_loop attempts exc w) as [r w'] eqn:Hrun.
  destruct (connect_loop_handles _ _ _ _ _ Hrun) as (ps & Hw & _ & Hall & Hret & _).
  exists ps. cbn [fst snd]. split; [exact Hw|]. split; [|exact Hret].
  eapply Forall_impl; [|exact Hall].
  intros p ([t s] & realm0 & _ & _ & Hrealm & ->).
  cbn [attempt_protocol username password endpoint transport realm fst snd].
  split; [reflexivity|]. split; [reflexivity|].
  split; [destruct s; [left|right]; reflexivity|].
  unfold attempt_realm in Hrealm. cbn [fst] in Hrealm.
  split.
  - intros ->. now injection Hrealm.
  - intros ->.
    destruct (Py.split1_tail "@" (remote_user _connection_info)) as [tail|];
      [|discriminate].
    exists tail. split; [reflexivity|]. now injection Hrealm.
Qed.

Lemma re_search_append {A} (m : string -> option A) (s : string) :
  (exists r, m s = Some r) ->
  forall pre, exists r, Py.re_search m (pre ++ s) = Some r.
Proof.
  intros [r Hr] pre. induction pre as [|c pre IH].
  - cbn [append]. exists r. destruct s; cbn; now rewrite Hr.
  - cbn [append Py.re_search].
    destruct (m (String c (pre ++ s))) as [r0|]; [eauto|exact IH].
Qed.

Lemma search_timed_out_anywhere (pre post : string) :
  Py.search_timed_out (pre ++ "Operation timed out" ++ post) = true.
Proof.
  unfold Py.search_timed_out.
  match goal with
  | |- match Py.re_search ?m _ with _ => _ end = _ =>
      destruct (re_search_append m ("Operation timed out" ++ post)
                  (ex_intro _ tt eq_refl) pre) as [r ->]
  end.
  reflexivity.
Qed.

(** X6.  A transport error whose text has [Operation timed out] in it,
    anywhere, ends the negotiation at once with the timeout error: what
    else the text carries, a status code 401 or 411 included, plays no
    part, and the attempts that are left are not made. *)
Theorem timeout_text_halts_negotiation
        (attempt : Transport * Scheme) (rest : list (Transport * Scheme))
        (exc : option string) (w : World) (realm : option string)
        (pre post : string) :
  skipped attempt = false ->
  attempt_realm (fst attempt) = Ok realm ->
  on_send_message remote (wire w) (attempt_protocol attempt realm) ""
    = Raise (WinRMTransportError (pre ++ "Operation timed out" ++ post)) ->
  _winrm_connect_loop (attempt :: rest) exc w
  = (Raise (AnsibleError "the connection attempt timed out"),
     sent (probe (attempt_protocol attempt realm)) w).
Proof.
  intros Hskip Hrealm Hsend.
  cbn [_winrm_connect_loop]. rewrite Hskip, Hrealm.
  unfold call. rewrite Hsend. now rewrite search_timed_out_anywhere.
Qed.

(** ** More on connecting *)

Lemma ensure_protocol_cases (w : World) :
  (forall p, protocol (self w) = Some p -> ensure_protocol w = (Ok tt, w))
  /\ (protocol (self w) = None ->
      ensure_protocol w
      = match _winrm_connect w with
        | (Ok p, w') => (Ok tt, set_protocol p w')
        | (Raise e, w') => (Raise e, w')
        end).
Proof.
  unfold ensure_protocol, bind, get_self, modify, ret. split.
  - intros p ->. reflexivity.
  - intros ->. cbn [truthy_obj].
    now destruct (_winrm_connect w) as [[p|e] w'].
Qed.

(** ** What every call keeps *)

Section EveryMethod.

(** A relation between the world before and the world after that
    composes, and that holds for the three calls on the remote end and
    for a change of the disk, holds for every call. *)
Variable P : World -> World -> Prop.
Hypothesis P_refl : forall w, P w w.
Hypothesis P_trans : forall a b c, P a b -> P b c -> P a c.
Hypothesis P_disk : forall w d, P w (set_disk d w).
Hypothesis P_exec :
  forall command args w, P w (snd (_winrm_exec command args w)).
Hypothesis P_connect : forall w, P w (snd (_connect w)).
Hypothesis P_close : forall w, P w (snd (close w)).

Lemma put_chunk_kept (path : string) (offset : Z) (data : string)
      (in_size : Z) (w : World) :
  P w (snd (put_chunk path offset data in_size w)).
Proof.
  unfold put_chunk, try_except.
  destruct (_encode_script_as_list _shell _) as [|command args].
  { unfold raise. cbn [snd]. apply P_refl. }
  unfold bind. pose proof (P_exec command args w) as Hexec.
  destruct (_winrm_exec command args w) as [[resp|e] w1]; cbn [snd] in Hexec.
  - destruct (status_code resp =? 0); unfold raise, ret; cbn [negb snd];
      exact Hexec.
  - unfold raise. cbn [snd]. exact Hexec.
Qed.

Lemma put_file_loop_kept (offsets : list Z) (chunk in_size : Z) :
  forall in_file path w,
    P w (snd (put_file_loop offsets chunk in_size in_file path w)).
Proof.
  induction offsets as [|offset rest IH]; intros in_file path w.
  - cbn. apply P_refl.
  - cbn [put_file_loop]. unfold bind.
    match goal with
    | |- context [put_chunk ?t ?o ?d ?n w] =>
        pose proof (put_chunk_kept t o d n w) as Hchunk;
        destruct (put_chunk t o d n w) as [[[]|e] w1]
    end; cbn [snd] in *.
    + eapply P_trans; [exact Hchunk|apply IH].
    + exact Hchunk.
Qed.

Lemma put_file_kept (in_path out_path : string) (w : World) :
  P w (snd (put_file in_path out_path w)).
Proof.
  unfold put_file, bind, get_disk.
  destruct (disk w in_path) as [[content|]|]; unfold raise; cbn [snd];
    try apply P_refl.
  destruct (buffer_size _) as [chunk|]; [|apply P_refl].
  destruct (chunk =? 0); [apply P_refl|]. apply put_file_loop_kept.
Qed.

Lemma fetch_chunk_kept (in_path : string) (offset : Z) (w : World) :
  P w (snd (fetch_chunk in_path offset w)).
Proof.
  unfold fetch_chunk.
  destruct (_encode_script_as_list _shell _) as [|command args].
  { unfold raise. cbn [snd]. apply P_refl. }
  unfold bind. pose proof (P_exec command args w) as Hexec.
  destruct (_winrm_exec command args w) as [[resp|e] w1]; cbn [snd] in Hexec;
    [|exact Hexec].
  destruct (status_code resp =? 0); cbn [negb]; [|exact Hexec].
  destruct (String.eqb (Py.strip (std_out resp)) "[DIR]"); [exact Hexec|].
  destruct (b64decode base64 _); exact Hexec.
Qed.

Lemma store_chunk_kept (out_path : string) (offset : Z) (out_file : bool)
      (data : option string) (w : World) :
  P w (snd (store_chunk out_path offset out_file data w)).
Proof.
  assert (Hwrite : forall d w0, P w0 (snd (Local.write out_path d w0))).
  { intros d w0. unfold Local.write.
    destruct (disk w0 out_path) as [[old|]|]; cbn [snd];
      auto using P_refl, P_disk. }
  assert (Hopen : forall w0, P w0 (snd (Local.open_wb out_path w0))).
  { intros w0. unfold Local.open_wb.
    destruct (Local.can_open (disk w0) out_path); cbn [snd];
      auto using P_refl, P_disk. }
  unfold store_chunk, bind, get_disk, modify, ret.
  destruct data as [data|].
  - destruct (negb out_file && Local.isdir (disk w) out_path)%bool;
      [apply P_refl|].
    destruct (negb out_file).
    + specialize (Hopen w).
      destruct (Local.open_wb out_path w) as [[[]|e0] w0]; cbn [snd] in *;
        [|exact Hopen].
      specialize (Hwrite data w0).
      destruct (Local.write out_path data w0)
        as [[[]|e] w1]; cbn [snd] in *;
        [destruct (Py.len data <? fetch_buffer_size); cbn [snd]|];
        (eapply P_trans; [exact Hopen|exact Hwrite]).
    + specialize (Hwrite data w).
      destruct (Local.write out_path data w) as [[[]|e] w1]; cbn [snd] in *;
        [destruct (Py.len data <? fetch_buffer_size); cbn [snd]|];
        exact Hwrite.
  - cbn [snd]. unfold Local.makedirs_safe.
    destruct (disk w out_path); auto using P_refl, P_disk.
Qed.

Lemma fetch_file_step_kept (in_path out_path : string) (offset : Z)
      (out_file : bool) (w : World) :
  P w (snd (fetch_file_step in_path out_path offset out_file w)).
Proof.
  unfold fetch_file_step, try_except, bind.
  pose proof (fetch_chunk_kept in_path offset w) as Hfetch.
  destruct (fetch_chunk in_path offset w) as [[data|e] w1]; cbn [snd] in Hfetch.
  - pose proof (store_chunk_kept out_path offset out_file data w1) as Hstore.
    destruct (store_chunk out_path offset out_file data w1) as [[c|e] w2];
      unfold raise; cbn [snd] in *; eapply P_trans; eauto.
  - unfold raise. cbn [snd]. exact Hfetch.
Qed.

Lemma fetch_file_loop_kept (fuel : nat) (in_path out_path : string) :
  forall offset out_file w,
    P w (snd (fetch_file_loop fuel in_path out_path offset out_file w)).
Proof.
  induction fuel as [|fuel IH]; intros offset out_file w.
  - cbn. apply P_refl.
  - cbn [fetch_file_loop]. unfold bind.
    pose proof (fetch_file_step_kept in_path out_path offset out_file w) as Hstep.
    destruct (fetch_file_step in_path out_path offset out_file w)
      as [[[|offset' out_file']|e] w1]; cbn [snd] in *; try exact Hstep.
    eapply P_trans; [exact Hstep|apply IH].
Qed.

Lemma fetch_file_kept (fuel : nat) (in_path out_path : string) (w : World) :
  P w (snd (fetch_file fuel in_path out_path w)).
Proof.
  unfold fetch_file, bind, modify.
  eapply P_trans; [|apply fetch_file_loop_kept].
  unfold Local.makedirs_safe.
  destruct (disk w _); auto using P_refl, P_disk.
Qed.

Lemma exec_command_kept (tools : CommandLine) (cmd : string) (w : World) :
  P w (snd (exec_command tools cmd w)).
Proof.
  unfold exec_command.
  destruct (shlex_split tools cmd) as [cmd_parts|e];
    [|unfold raise; cbn [snd]; apply P_refl].
  unfold bind at 1.
  assert (Hrun : forall w0,
             P w0 (snd ((result <- try_except
                            match script_parts tools cmd_parts with
                            | [] => raise IndexError
                            | cmd0 :: cmd_rest => _winrm_exec cmd0 cmd_rest
                            end
                            (fun _ => raise (AnsibleError
                                               ("failed to exec cmd " ++ cmd)));;
                         ret (status_code result, "", std_out result,
                              std_err result)) w0))).
  { intros w0. unfold bind, try_except, raise, ret.
    destruct (script_parts tools cmd_parts) as [|command args];
      [cbn [snd]; apply P_refl|].
    pose proof (P_exec command args w0) as Hexec.
    destruct (_winrm_exec command args w0) as [[resp|e] w1]; exact Hexec. }
  destruct (list_in "-EncodedCommand" cmd_parts).
  - destruct (item_after "-EncodedCommand" cmd_parts) as [encoded|];
      [|unfold raise; cbn [snd]; apply P_refl].
    destruct (b64decode base64 encoded); unfold raise, ret;
      [apply Hrun|cbn [snd]; apply P_refl].
  - unfold ret. apply Hrun.
Qed.

Lemma every_method_kept (m : Method) (w : World) : P w (invoke m w).
Proof.
  destruct m; cbn [invoke];
    auto using put_file_kept, fetch_file_kept, exec_command_kept.
Qed.

Lemma every_sequence_kept (ms : list Method) :
  forall w, P w (invoke_all ms w).
Proof.
  unfold invoke_all.
  induction ms as [|m ms IH]; intros w; cbn [fold_left]; [apply P_refl|].
  eapply P_trans; [apply every_method_kept|apply IH].
Qed.

End EveryMethod.

Lemma winrm_exec_handles_ordered (command : string) (args : list string)
      (w : World) :
  handles_ordered w = true ->
  handles_ordered (snd (_winrm_exec command args w)) = true.
Proof.
  intros Hord.
  destruct (_winrm_exec command args w) as [r w'] eqn:Hrun. cbn [snd].
  revert Hrun. unfold handles_ordered in *.
  unfold _winrm_exec. unfold bind at 1.
  destruct (ensure_protocol w) as [r0 w0] eqn:H0.
  assert (Hord0 : implb (truthy_str (shell_id (self w0)))
                        (truthy_obj (protocol (self w0))) = true).
  { destruct (ensure_protocol_cases w) as [Hsome Hnone].
    destruct (protocol (self w)) as [p|] eqn:Hp.
    - rewrite (Hsome p eq_refl) in H0. injection H0 as <- <-. now rewrite Hp.
    - destruct (truthy_str (shell_id (self w))) eqn:Hsh; [discriminate|].
      destruct (ensure_protocol_effect w r0 w0 H0) as (_ & _ & _ & Hs & _).
      now rewrite Hs, Hsh. }
  destruct r0 as [[]|e0]; [|intros E; now injection E as <- <-].
  unfold bind at 1.
  assert (Hshell : forall r1 w1,
             ensure_shell w0 = (r1, w1) ->
             implb (truthy_str (shell_id (self w1)))
                   (truthy_obj (protocol (self w1))) = true).
  { unfold ensure_shell, bind, get_self, with_protocol, call, modify, ret.
    intros r1 w1.
    destruct (truthy_str (shell_id (self w0))) eqn:Hsh.
    - intros E. injection E as <- <-. now rewrite Hsh in *.
    - destruct (protocol (self w0)) as [p|] eqn:Hp.
      + destruct (on_open_shell remote (wire w0) p) as [sh|e];
          intros E; injection E as <- <-; cbn; rewrite ?Hp, ?Hsh;
          auto using implb_true_r.
      + intros E. injection E as <- <-. now rewrite Hsh. }
  destruct (ensure_shell w0) as [r1 w1] eqn:H1.
  specialize (Hshell _ _ eq_refl).
  destruct r1 as [[]|e1]; [|intros E; now injection E as <- <-].
  unfold protocol_run_command, protocol_get_command_output, cleanup,
    finally_, bind, get_self, with_protocol, call, ret.
  cbv beta iota.
  destruct (protocol (self w1)) as [p|] eqn:Hp;
    [|intros E; injection E as <- <-; now rewrite Hp].
  destruct (on_run_command remote (wire w1) p (shell_id (self w1)) command args)
    as [cid|e]; [|intros E; injection E as <- <-; cbn; now rewrite Hp in *].
  cbv beta iota zeta. cbn [self sent protocol shell_id]. rewrite Hp.
  destruct (on_get_command_output remote _ p (shell_id (self w1)) cid);
    destruct (truthy_str (Some cid)); cbv beta iota;
    cbn [self sent protocol shell_id]; rewrite ?Hp;
    try (destruct (on_cleanup_command remote _ p (shell_id (self w1)) cid));
    intros E; injection E as <- <-; cbn; now rewrite Hp in *.
Qed.

(** X7.  Whatever calls are made on a new session, in whatever order and
    however they end, the session never holds a shell handle without a
    connection handle. *)
Theorem session_handles_stay_ordered (ms : list Method) (d : Disk) :
  handles_ordered (invoke_all ms (new_session d)) = true.
Proof.
  apply (every_sequence_kept
           (fun w w' => handles_ordered w = true -> handles_ordered w' = true));
    auto using winrm_exec_handles_ordered.
  - intros w. unfold _connect, handles_ordered.
    destruct (ensure_protocol_cases w) as [Hsome Hnone].
    destruct (protocol (self w)) as [p|] eqn:Hp.
    + rewrite (Hsome p eq_refl). cbn [snd]. now rewrite Hp.
    + destruct (truthy_str (shell_id (self w))) eqn:Hsh.
      * intros Habs. discriminate.
      * intros _.
        destruct (ensure_protocol w) as [r0 w0] eqn:H0. cbn [snd].
        destruct (ensure_protocol_effect w r0 w0 H0) as (_ & _ & _ & Hs & _).
        now rewrite Hs, Hsh.
  - intros w. unfold handles_ordered.
    destruct (close_effect w) as [Hboth Hnoop].
    destruct (protocol (self w)) as [p|] eqn:Hp.
    + destruct (truthy_str (shell_id (self w))) eqn:Hsh.
      * rewrite (Hboth p eq_refl eq_refl). intros _.
        destruct (on_close_shell remote (wire w) p (shell_id (self w)));
          cbn; rewrite ?Hp; auto using implb_true_r.
      * rewrite (Hnoop (or_intror eq_refl)). cbn [snd]. now rewrite Hp, Hsh.
    + rewrite (Hnoop (or_introl eq_refl)). cbn [snd]. now rewrite Hp.
Qed.

(** X8.  Provided the remote end never hands out the empty string as a
    command id, no sequence of calls on a new session leaves a command
    handle open: after any number of commands, uploads and downloads,
    failed or not, every handle that was opened has had its
    [cleanup_command] sent. *)
Theorem session_leaves_no_command_open (ms : list Method) (d : Disk) :
  (forall h p sh c a, on_run_command remote h p sh c a <> Ok "") ->
  open_commands (wire (invoke_all ms (new_session d))) = [].
Proof.
  intros Hids.
  assert (Hkept : exists new,
             wire (invoke_all ms (new_session d))
             = (wire (new_session d) ++ new)%list
             /\ forall held,
                 replay_commands (wire (new_session d)) new held = held).
  { apply (every_sequence_kept
             (fun w w' => exists new,
                  wire w' = (wire w ++ new)%list
                  /\ forall held, replay_commands (wire w) new held = held)).
    - intros w. exists []. now rewrite app_nil_r.
    - intros a b c (n1 & H1 & R1) (n2 & H2 & R2). exists (n1 ++ n2)%list.
      split; [rewrite H2, H1; now rewrite app_assoc|].
      intros held. rewrite replay_commands_app, R1, <- H1. apply R2.
    - intros w f. exists []. cbn. now rewrite app_nil_r.
    - intros command args w.
      destruct (_winrm_exec command args w) as [r w'] eqn:Hrun. cbn [snd].
      destruct (winrm_exec_wire _ _ _ _ _ Hrun) as (_ & pre & Hpre & Hshape).
      destruct Hshape
        as [Hw|[(p & sh & e & Hreply & Hw)|(p & sh & cid & Hreply & Hw)]].
      + exists pre. split; [exact Hw|].
        intros held. now apply replay_commands_setup.
      + eexists. split; [exact Hw|]. intros held.
        rewrite replay_commands_app. cbn [replay_commands].
        rewrite Hreply. now apply replay_commands_setup.
      + destruct Hw as [[-> _]|[Hcid Hw]]; [now elim (Hids _ _ _ _ _ Hreply)|].
        eexists. split; [exact Hw|]. intros held.
        rewrite replay_commands_app. cbn [replay_commands].
        rewrite Hreply. cbn [remove_first]. rewrite CommandHandle_eqb_refl.
        now apply replay_commands_setup.
    - intros w. unfold _connect.
      destruct (ensure_protocol w) as [r0 w0] eqn:H0. cbn [snd].
      destruct (ensure_protocol_effect w r0 w0 H0) as (new & Hw & Hnew & _).
      exists new. split; [exact Hw|].
      intros held. now apply replay_commands_setup.
    - intros w. destruct (close_effect w) as [Hboth Hnoop].
      destruct (protocol (self w)) as [p|] eqn:Hp.
      + destruct (truthy_str (shell_id (self w))) eqn:Hsh.
        * rewrite (Hboth p eq_refl eq_refl).
          destruct (on_close_shell remote (wire w) p (shell_id (self w)));
            cbn [snd]; eexists; (split; [reflexivity|]); reflexivity.
        * rewrite (Hnoop (or_intror eq_refl)). cbn [snd].
          exists []. now rewrite app_nil_r.
      + rewrite (Hnoop (or_introl eq_refl)). cbn [snd].
        exists []. now rewrite app_nil_r. }
  destruct Hkept as (new & Hw & Hreplay).
  unfold open_commands. rewrite Hw. cbn [new_session wire app].
  apply (Hreplay []).
Qed.

(** ** More on uploads *)

Lemma commands_run_app (a b : list Request) :
  commands_run (a ++ b) = (commands_run a ++ commands_run b)%list.
Proof. unfold commands_run. apply flat_map_app. Qed.

Lemma commands_run_setup (pre : list Request) :
  forallb is_setup pre = true -> commands_run pre = [].
Proof.
  unfold commands_run.
  induction pre as [|q pre IH]; cbn [forallb flat_map]; [reflexivity|].
  intros H. apply andb_prop in H. destruct H as [Hq Hpre].
  rewrite (IH Hpre). now destruct q.
Qed.

(** One [_winrm_exec] runs its command line at most once, and exactly
    once when it returns a response. *)
Lemma winrm_exec_commands (command : string) (args : list string)
      (w : World) (r : result Response) (w' : World) :
  _winrm_exec command args w = (r, w') ->
  exists new,
    wire w' = (wire w ++ new)%list
    /\ (commands_run new = [] \/ commands_run new = [(command :: args)%list])
    /\ (forall resp, r = Ok resp -> commands_run new = [(command :: args)%list]).
Proof.
  unfold _winrm_exec. unfold bind at 1.
  destruct (ensure_protocol w) as [r0 w0] eqn:H0.
  destruct (ensure_protocol_effect _ _ _ H0) as (n0 & Hw0 & Hn0 & _ & _).
  destruct r0 as [[]|e0].
  2:{ intros E. injection E as <- <-. exists n0. split; [exact Hw0|].
      split; [left; now apply commands_run_setup|discriminate]. }
  unfold bind at 1.
  destruct (ensure_shell w0) as [r1 w1] eqn:H1.
  destruct (ensure_shell_effect _ _ _ H1) as (n1 & Hw1 & Hn1 & _ & _).
  assert (Hpre : wire w1 = (wire w ++ (n0 ++ n1))%list).
  { rewrite Hw1, Hw0. now rewrite app_assoc. }
  assert (Hsetup : commands_run (n0 ++ n1) = []).
  { apply commands_run_setup. rewrite forallb_app. now rewrite Hn0, Hn1. }
  clear H0 H1 Hw0 Hw1 Hn0 Hn1.
  destruct r1 as [[]|e1].
  2:{ intros E. injection E as <- <-. exists (n0 ++ n1)%list.
      split; [exact Hpre|]. split; [now left|discriminate]. }
  unfold protocol_run_command, protocol_get_command_output, cleanup,
    finally_, bind, get_self, with_protocol, call, ret.
  cbv beta iota.
  destruct (protocol (self w1)) as [p|] eqn:Hp.
  2:{ intros E. injection E as <- <-. exists (n0 ++ n1)%list.
      split; [exact Hpre|]. split; [now left|discriminate]. }
  assert (Hran : forall tail,
             commands_run tail = [] ->
             commands_run
               (n0 ++ n1
                ++ run_command p (shell_id (self w1)) command args :: tail)%list
             = [(command :: args)%list]).
  { intros tail Htail. rewrite app_assoc, commands_run_app, Hsetup.
    unfold commands_run in *. cbn [flat_map app]. now rewrite Htail. }
  destruct (on_run_command remote (wire w1) p (shell_id (self w1)) command args)
    as [cid|e].
  2:{ intros E. injection E as <- <-. eexists.
      split; [cbn [wire sent]; rewrite Hpre, <- app_assoc; reflexivity|].
      split; [right|intros resp _]; rewrite <- ?app_assoc; cbn [app]; now apply Hran. }
  cbv beta iota zeta. cbn [self sent protocol shell_id]. rewrite Hp.
  destruct (on_get_command_output remote _ p (shell_id (self w1)) cid);
    destruct (truthy_str (Some cid)); cbv beta iota;
    cbn [self sent protocol shell_id]; rewrite ?Hp;
    try (destruct (on_cleanup_command remote _ p (shell_id (self w1)) cid));
    intros E; injection E as <- <-; eexists;
    (split; [cbn [wire sent]; rewrite Hpre, <- !app_assoc; reflexivity|]);
    (split; [right|intros resp _]); rewrite <- ?app_assoc; cbn [app]; now apply Hran.
Qed.

Lemma put_chunk_commands (path : string) (offset : Z) (data : string)
      (in_size : Z) (w : World) :
  exists new,
    wire (snd (put_chunk path offset data in_size w)) = (wire w ++ new)%list
    /\ (commands_run new = []
        \/ commands_run new = [chunk_command path in_size (offset, data)])
    /\ (fst (put_chunk path offset data in_size w) = Ok tt ->
        commands_run new = [chunk_command path in_size (offset, data)]).
Proof.
  unfold put_chunk, try_except, chunk_command. cbn [fst snd].
  destruct (_encode_script_as_list _shell _) as [|command args].
  { exists []. unfold raise. cbn [fst snd]. rewrite app_nil_r.
    split; [reflexivity|]. split; [now left|discriminate]. }
  unfold bind.
  destruct (_winrm_exec command args w) as [r w1] eqn:Hrun.
  destruct (winrm_exec_commands _ _ _ _ _ Hrun) as (new & Hw & Hany & Hok).
  exists new.
  destruct r as [resp|e0]; [destruct (status_code resp =? 0)|];
    unfold raise, ret; cbn [negb fst snd];
    (split; [exact Hw|]); (split; [exact Hany|]);
    intros E; try discriminate; now apply (Hok resp).
Qed.

Lemma put_file_loop_commands (offsets : list Z) (chunk in_size : Z)
      (path : string) :
  Forall (fun offset => offset <> 0) offsets ->
  forall in_file w,
  exists new k,
    wire (snd (put_file_loop offsets chunk in_size in_file path w))
    = (wire w ++ new)%list
    /\ commands_run new
       = firstn k (map (chunk_command path in_size)
                       (file_chunks offsets chunk in_file))
    /\ (fst (put_file_loop offsets chunk in_size in_file path w) = Ok tt ->
        commands_run new
        = map (chunk_command path in_size) (file_chunks offsets chunk in_file)).
Proof.
  induction 1 as [|offset rest Hoffset _ IH]; intros in_file w.
  - exists [], O. cbn. rewrite app_nil_r. repeat split; auto.
  - cbn [put_file_loop file_chunks map]. apply Z.eqb_neq in Hoffset.
    rewrite Hoffset. unfold bind.
    destruct (put_chunk_commands path offset (Py.file_read chunk in_file)
                                 in_size w) as (new1 & Hw1 & Hany & Hok).
    destruct (put_chunk path offset (Py.file_read chunk in_file) in_size w)
      as [[[]|e1] w1]; cbn [fst snd] in *.
    + destruct (IH (Py.file_rest chunk in_file) w1) as (new2 & k & Hw2 & Hk & Hall).
      exists (new1 ++ new2)%list, (S k).
      rewrite Hw2, Hw1, app_assoc. split; [reflexivity|].
      rewrite commands_run_app, (Hok eq_refl). cbn [app firstn].
      split; [now rewrite Hk|]. intros E. now rewrite (Hall E).
    + destruct Hany as [Hnone|Hone].
      * exists new1, O. repeat split; auto. discriminate.
      * exists new1, 1%nat. cbn [firstn]. repeat split; auto. discriminate.
Qed.

Lemma put_file_loop_from_zero_commands (rest : list Z) (chunk in_size : Z)
      (in_file out_path : string) (w : World) :
  Forall (fun offset => offset <> 0) rest ->
  let target := upload_target (Py.file_read chunk in_file) out_path in
  exists new k,
    wire (snd (put_file_loop (0 :: rest) chunk in_size in_file out_path w))
    = (wire w ++ new)%list
    /\ commands_run new
       = firstn k (map (chunk_command target in_size)
                       (file_chunks (0 :: rest) chunk in_file))
    /\ (fst (put_file_loop (0 :: rest) chunk in_size in_file out_path w) = Ok tt ->
        commands_run new
        = map (chunk_command target in_size)
              (file_chunks (0 :: rest) chunk in_file)).
Proof.
  intros Hrest target.
  cbn [put_file_loop file_chunks map]. rewrite Z.eqb_refl.
  fold (upload_target (Py.file_read chunk in_file) out_path). fold target.
  unfold bind.
  destruct (put_chunk_commands target 0 (Py.file_read chunk in_file) in_size w)
    as (new1 & Hw1 & Hany & Hok).
  destruct (put_chunk target 0 (Py.file_read chunk in_file) in_size w)
    as [[[]|e1] w1]; cbn [fst snd] in *.
  - destruct (put_file_loop_commands rest chunk in_size target Hrest
                (Py.file_rest chunk in_file) w1) as (new2 & k & Hw2 & Hk & Hall).
    exists (new1 ++ new2)%list, (S k).
    rewrite Hw2, Hw1, app_assoc. split; [reflexivity|].
    rewrite commands_run_app, (Hok eq_refl). cbn [app firstn].
    split; [now rewrite Hk|]. intros E. now rewrite (Hall E).
  - destruct Hany as [Hnone|Hone].
    + exists new1, O. repeat split; auto. discriminate.
    + exists new1, 1%nat. cbn [firstn]. repeat split; auto. discriminate.
Qed.

Lemma take_drop (n : nat) (s : string) : Py.take n s ++ Py.drop n s = s.
Proof.
  revert s. induction n as [|n IH]; intros s; [reflexivity|].
  destruct s as [|c s]; [reflexivity|]. cbn. now rewrite IH.
Qed.

Lemma drop_drop (a b : nat) (s : string) :
  Py.drop a (Py.drop b s) = Py.drop (b + a) s.
Proof.
  revert s. induction b as [|b IH]; intros s; [reflexivity|].
  destruct s as [|c s]; cbn; [now destruct a|apply IH].
Qed.

Lemma length_drop (n : nat) (s : string) :
  String.length (Py.drop n s) = (String.length s - n)%nat.
Proof.
  revert s. induction n as [|n IH]; intros s; cbn; [lia|].
  destruct s as [|c s]; cbn; [reflexivity|apply IH].
Qed.

Lemma length_zero (s : string) : String.length s = O -> s = "".
Proof. now destruct s. Qed.

Lemma file_chunks_join (chunk : Z) (offsets : list Z) :
  0 < chunk ->
  forall s,
    (String.length s <= List.length offsets * Z.to_nat chunk)%nat ->
    join (map snd (file_chunks offsets chunk s)) = s.
Proof.
  intros Hchunk.
  assert (Hread : forall s, Py.file_read chunk s = Py.take (Z.to_nat chunk) s).
  { intros s. unfold Py.file_read.
    destruct (chunk <? 0) eqn:E; [apply Z.ltb_lt in E; lia|reflexivity]. }
  assert (Hrest : forall s, Py.file_rest chunk s = Py.drop (Z.to_nat chunk) s).
  { intros s. unfold Py.file_rest.
    destruct (chunk <? 0) eqn:E; [apply Z.ltb_lt in E; lia|reflexivity]. }
  induction offsets as [|offset rest IH]; intros s Hlen.
  - cbn in *. symmetry. apply length_zero. lia.
  - cbn [file_chunks map join snd]. rewrite IH.
    + rewrite Hread, Hrest. apply take_drop.
    + rewrite Hrest, length_drop. cbn [List.length] in Hlen. lia.
Qed.

Lemma file_chunks_offsets (offsets : list Z) (chunk : Z) :
  forall s, map fst (file_chunks offsets chunk s) = offsets.
Proof.
  induction offsets as [|o offsets IH]; intros s; cbn; [reflexivity|].
  now rewrite IH.
Qed.

Lemma xrange_covers (stop step : Z) :
  0 < step -> 0 <= stop ->
  (Z.to_nat stop <= Py.xrange_len 0 stop step * Z.to_nat step)%nat.
Proof.
  intros Hstep Hstop. unfold Py.xrange_len.
  destruct (0 <? step) eqn:E; [|apply Z.ltb_ge in E; lia].
  rewrite <- Z2Nat.inj_mul; [|apply Z.div_pos; lia|lia].
  apply Z2Nat.inj_le; [lia|apply Z.mul_nonneg_nonneg; [apply Z.div_pos|]; lia|].
  pose proof (Z.div_mod (stop - 0 + step - 1) step ltac:(lia)) as Hdm.
  pose proof (Z.mod_pos_bound (stop - 0 + step - 1) step Hstep) as Hmod.
  nia.
Qed.

Lemma file_chunks_slices (chunk : Z) (s : string) (count : nat) :
  0 < chunk ->
  forall k,
    Forall (fun slice =>
              snd slice
              = Py.take (Z.to_nat chunk) (Py.drop (Z.to_nat (fst slice)) s))
           (file_chunks (map (fun i => 0 + Z.of_nat i * chunk) (seq k count))
                        chunk (Py.drop (k * Z.to_nat chunk) s)).
Proof.
  intros Hchunk.
  assert (Hread : forall t, Py.file_read chunk t = Py.take (Z.to_nat chunk) t).
  { intros t. unfold Py.file_read.
    destruct (chunk <? 0) eqn:E; [apply Z.ltb_lt in E; lia|reflexivity]. }
  assert (Hrest : forall t, Py.file_rest chunk t = Py.drop (Z.to_nat chunk) t).
  { intros t. unfold Py.file_rest.
    destruct (chunk <? 0) eqn:E; [apply Z.ltb_lt in E; lia|reflexivity]. }
  induction count as [|count IH]; intros k; cbn [seq map file_chunks];
    constructor.
  - cbn [fst snd]. rewrite Hread. f_equal. f_equal.
    rewrite Z.add_0_l, Z2Nat.inj_mul, Nat2Z.id; lia.
  - rewrite Hrest, drop_drop.
    replace (k * Z.to_nat chunk + Z.to_nat chunk)%nat
      with (S k * Z.to_nat chunk)%nat by lia.
    apply IH.
Qed.

(** X9.  An upload with a positive chunk size cuts the file into the
    slices at the offsets 0, chunk, 2 chunk, ..., which put together
    again are the file, and sends one chunk write per slice, in that
    order, each for the settled path, with the slice's offset, its data
    and the size of the file: what reaches the wire is always a front
    part of that list, and all of it when the upload returns. *)
Theorem upload_sends_slices_in_order
        (in_path out_path content : string) (chunk : Z) (w : World) :
  disk w in_path = Some (File content) ->
  buffer_size
    (Py.len (_encode_script _shell
               (script_template (_escape _shell out_path) (Py.len content) ""
                                (Py.len content))))
  = Some chunk ->
  0 < chunk ->
  let slices :=
    file_chunks (Py.xrange 0 (Py.len content) chunk) chunk content in
  let target := upload_target (Py.file_read chunk content) out_path in
  join (map snd slices) = content
  /\ map fst slices = Py.xrange 0 (Py.len content) chunk
  /\ Forall (fun slice =>
               snd slice
               = Py.take (Z.to_nat chunk)
                         (Py.drop (Z.to_nat (fst slice)) content)) slices
  /\ exists new k,
      wire (snd (put_file in_path out_path w)) = (wire w ++ new)%list
      /\ commands_run new
         = firstn k (map (chunk_command target (Py.len content)) slices)
      /\ (fst (put_file in_path out_path w) = Ok tt ->
          commands_run new
          = map (chunk_command target (Py.len content)) slices).
Proof.
  intros Hfile Hchunk Hpos slices target.
  split; [|split; [|split]].
  - apply file_chunks_join; [exact Hpos|].
    unfold Py.xrange. rewrite length_map, length_seq.
    pose proof (xrange_covers (Py.len content) chunk Hpos
                  ltac:(unfold Py.len; lia)) as Hcov.
    unfold Py.len in Hcov at 1. now rewrite Nat2Z.id in Hcov.
  - apply file_chunks_offsets.
  - apply (file_chunks_slices chunk content _ Hpos O).
  - unfold put_file, bind, get_disk. rewrite Hfile, Hchunk.
    destruct (chunk =? 0) eqn:Hzero; [apply Z.eqb_eq in Hzero; lia|].
    apply Z.eqb_neq in Hzero. unfold slices.
    destruct (xrange_from_zero (Py.len content) chunk Hzero)
      as [E|(rest & E & Hrest)]; rewrite E.
    + exists [], O. cbn. rewrite app_nil_r. repeat split; auto.
    + apply (put_file_loop_from_zero_commands rest chunk (Py.len content)
               content out_path w Hrest).
Qed.

Lemma lower_append (a b : string) :
  Py.lower (a ++ b) = Py.lower a ++ Py.lower b.
Proof. induction a as [|c a IH]; cbn; [reflexivity|now rewrite IH]. Qed.

Lemma append_assoc (a b c : string) : (a ++ b) ++ c = a ++ (b ++ c).
Proof. induction a as [|x a IH]; cbn; [reflexivity|now rewrite IH]. Qed.

Lemma reverse_append (a b : string) :
  Py.reverse (a ++ b) = Py.reverse b ++ Py.reverse a.
Proof.
  induction a as [|c a IH]; cbn.
  - induction (Py.reverse b) as [|x r IHr]; cbn; [reflexivity|now rewrite <- IHr].
  - rewrite IH. apply append_assoc.
Qed.

Lemma endswith_extension (path : string) :
  Py.endswith (Py.lower (path ++ ".ps1")) ".ps1" = true.
Proof.
  unfold Py.endswith. rewrite lower_append, reverse_append.
  change (Py.reverse (Py.lower ".ps1")) with "1sp.".
  change (Py.reverse ".ps1") with "1sp.".
  cbn. now destruct (Py.reverse (Py.lower path)).
Qed.

(** X10.  The extension is never appended to a path that an upload has
    extended: whatever the file begins with, an upload to
    [out_path + '.ps1'] sends its chunk writes for that very path. *)
Theorem upload_to_extended_path
        (in_path out_path content : string) (chunk : Z) (w : World) :
  disk w in_path = Some (File content) ->
  buffer_size
    (Py.len (_encode_script _shell
               (script_template (_escape _shell (out_path ++ ".ps1"))
                                (Py.len content) "" (Py.len content))))
  = Some chunk ->
  exists new k,
    wire (snd (put_file in_path (out_path ++ ".ps1") w)) = (wire w ++ new)%list
    /\ commands_run new
       = firstn k (map (chunk_command (out_path ++ ".ps1") (Py.len content))
                       (file_chunks (Py.xrange 0 (Py.len content) chunk)
                                    chunk content)).
Proof.
  intros Hfile Hchunk.
  unfold put_file, bind, get_disk. rewrite Hfile, Hchunk.
  destruct (chunk =? 0) eqn:Hzero.
  { exists [], O. unfold raise. cbn [snd wire]. now rewrite app_nil_r. }
  apply Z.eqb_neq in Hzero.
  destruct (xrange_from_zero (Py.len content) chunk Hzero)
    as [E|(rest & E & Hrest)]; rewrite E.
  { exists [], O. cbn. now rewrite app_nil_r. }
  destruct (put_file_loop_from_zero_commands rest chunk (Py.len content)
              content (out_path ++ ".ps1") w Hrest) as (new & k & Hw & Hk & _).
  exists new, k. split; [exact Hw|]. rewrite Hk.
  unfold upload_target. rewrite endswith_extension.
  now rewrite andb_false_r.
Qed.

Lemma buffer_size_sign_checked :
  forallb (fun n => buffer_size_sign_check (Z.of_nat n)) (seq 0 16385) = true.
Proof. vm_compute. reflexivity. Qed.

Lemma xrange_backwards (stop step : Z) :
  step < 0 -> 0 <= stop -> Py.xrange 0 stop step = [].
Proof.
  intros Hstep Hstop. unfold Py.xrange, Py.xrange_len.
  destruct (0 <? step) eqn:E; [apply Z.ltb_lt in E; lia|].
  replace (Z.to_nat ((0 - stop - step - 1) / - step)) with O; [reflexivity|].
  assert ((0 - stop - step - 1) / - step < 1); [|lia].
  apply Z.div_lt_upper_bound; lia.
Qed.

(** X11.  When the command line of the empty chunk write is too long for
    the ceiling, nothing of the file is sent: for a length from 8187 to
    8193 the chunk size is zero and the upload raises ValueError, for a
    length from 8194 to 16384 the chunk size is negative and the upload
    returns as if it had succeeded; in both cases the world is left as
    it was. *)
Theorem upload_with_long_command_line
        (in_path out_path content : string) (w : World) :
  disk w in_path = Some (File content) ->
  let overhead :=
    Py.len (_encode_script _shell
              (script_template (_escape _shell out_path) (Py.len content) ""
                               (Py.len content))) in
  (8187 <= overhead <= 8193 ->
   put_file in_path out_path w
   = (Raise (ValueError "xrange() arg 3 must not be zero"), w))
  /\ (8194 <= overhead <= 16384 ->
      put_file in_path out_path w = (Ok tt, w)).
Proof.
  intros Hfile overhead.
  assert (Hsign : 0 <= overhead <= 16384 ->
                  buffer_size_sign_check overhead = true).
  { intros Hrange. pose proof buffer_size_sign_checked as Hall.
    rewrite forallb_forall in Hall.
    specialize (Hall (Z.to_nat overhead)).
    rewrite Z2Nat.id in Hall by lia. apply Hall.
    apply in_seq. split; [lia|].
    apply Nat2Z.inj_lt. rewrite Z2Nat.id by lia.
    change (Z.of_nat (0 + 16385)) with 16385. lia. }
  unfold put_file, bind, get_disk. rewrite Hfile. fold overhead.
  unfold buffer_size_sign_check in Hsign.
  split; intros Hrange; specialize (Hsign ltac:(lia));
    destruct (buffer_size overhead) as [b|]; try discriminate;
    destruct (overhead <=? 8186) eqn:E1; try (apply Z.leb_le in E1; lia);
    destruct (overhead <=? 8193) eqn:E2.
  - apply Z.eqb_eq in Hsign. subst b. reflexivity.
  - apply Z.leb_gt in E2. lia.
  - apply Z.leb_le in E2. lia.
  - apply Z.ltb_lt in Hsign.
    destruct (b =? 0) eqn:Hb; [apply Z.eqb_eq in Hb; lia|].
    rewrite xrange_backwards; [reflexivity|exact Hsign|unfold Py.len; lia].
Qed.


(** ** Upload: the target path *)

Lemma xrange_nonempty (stop step : Z) :
  0 < step -> 0 < stop ->
  exists rest, Py.xrange 0 stop step = (0 :: rest)%list
               /\ Forall (fun offset => offset <> 0) rest.
Proof.
  intros Hstep Hstop.
  destruct (xrange_from_zero stop step ltac:(lia)) as [E|H]; [|exact H].
  pose proof (xrange_covers stop step Hstep ltac:(lia)) as Hcov.
  assert (Hlen : List.length (Py.xrange 0 stop step)
                 = Py.xrange_len 0 stop step).
  { unfold Py.xrange. now rewrite length_map, length_seq. }
  rewrite E in Hlen. cbn in Hlen. rewrite <- Hlen in Hcov. lia.
Qed.

(** On a session that holds a connection and a shell, the first request
    of a chunk write is its [run_command]. *)
Lemma put_chunk_first_request (path : string) (offset : Z) (data : string)
      (in_size : Z) (w : World) (p : Protocol) (command : string)
      (args : list string) :
  protocol (self w) = Some p ->
  truthy_str (shell_id (self w)) = true ->
  chunk_command path in_size (offset, data) = (command :: args)%list ->
  exists tail,
    wire (snd (put_chunk path offset data in_size w))
    = (wire w ++ run_command p (shell_id (self w)) command args :: tail)%list.
Proof.
  intros Hp Hsh Hcmd.
  unfold chunk_command in Hcmd. cbn [fst snd] in Hcmd.
  unfold put_chunk, try_except. cbv zeta. rewrite Hcmd. unfold bind.
  rewrite (winrm_exec_open_session command args w p Hp Hsh).
  destruct (on_run_command remote (wire w) p (shell_id (self w)) command args)
    as [cid|e].
  2:{ exists []. reflexivity. }
  cbv zeta.
  destruct (on_get_command_output remote _ p (shell_id (self w)) cid)
    as [out|e];
    destruct (String.eqb cid "");
    try destruct (on_cleanup_command remote _ p (shell_id (self w)) cid);
    cbv beta iota; cbn [status_code];
    try destruct (snd out =? 0); unfold raise, ret; cbn [negb snd wire sent];
    rewrite <- ?app_assoc; cbn [app]; eexists; reflexivity.
Qed.

Lemma put_file_loop_first_request (rest : list Z) (chunk in_size : Z)
      (in_file out_path : string) (w : World) (p : Protocol)
      (command : string) (args : list string) :
  Forall (fun offset => offset <> 0) rest ->
  protocol (self w) = Some p ->
  truthy_str (shell_id (self w)) = true ->
  chunk_command (upload_target (Py.file_read chunk in_file) out_path) in_size
                (0, Py.file_read chunk in_file)
  = (command :: args)%list ->
  exists tail,
    wire (snd (put_file_loop (0 :: rest) chunk in_size in_file out_path w))
    = (wire w ++ run_command p (shell_id (self w)) command args :: tail)%list.
Proof.
  intros Hrest Hp Hsh Hcmd.
  cbn [put_file_loop]. rewrite Z.eqb_refl.
  fold (upload_target (Py.file_read chunk in_file) out_path).
  set (target := upload_target (Py.file_read chunk in_file) out_path) in *.
  unfold bind.
  destruct (put_chunk_first_request target 0 (Py.file_read chunk in_file)
              in_size w p command args Hp Hsh Hcmd) as [tail1 Hw1].
  destruct (put_chunk target 0 (Py.file_read chunk in_file) in_size w)
    as [[[]|e1] w1]; cbn [fst snd] in *.
  - destruct (put_file_loop_keeps_path rest chunk in_size target Hrest
                (Py.file_rest chunk in_file) w1) as (new2 & Hw2 & _).
    exists (tail1 ++ new2)%list.
    rewrite Hw2, Hw1, <- app_assoc. reflexivity.
  - exists tail1. exact Hw1.
Qed.

(** C9.  The path the chunks of an upload are written to is decided on
    the first chunk and stays: when that chunk begins with the marker
    [#!powershell] (in any case) and the remote path does not end with
    [.ps1] (in any case), the path is the remote path with [.ps1]
    appended once; otherwise, and in particular when the path already
    ends with [.ps1], it is the remote path as given.  The chunk writes
    that reach the wire are, in order, those of the slices of the file
    for that path, the first one included: a front part of them when the
    upload fails, all of them when it returns.  On a session that holds
    its handles, the first request of the upload of a file that is not
    empty is already the write of the first slice to that path.  The
    error of a transfer that fails names that path. *)
Theorem put_file_script_extension
        (in_path out_path content : string) (chunk : Z) (w : World) :
  disk w in_path = Some (File content) ->
  buffer_size
    (Py.len (_encode_script _shell
               (script_template (_escape _shell out_path) (Py.len content) ""
                                (Py.len content))))
  = Some chunk ->
  let first := Py.file_read chunk content in
  let target :=
    if (Py.startswith (Py.lower first) "#!powershell"
        && negb (Py.endswith (Py.lower out_path) ".ps1"))%bool
    then out_path ++ ".ps1" else out_path in
  let writes :=
    map (chunk_command target (Py.len content))
        (file_chunks (Py.xrange 0 (Py.len content) chunk) chunk content) in
  exists new k,
    wire (snd (put_file in_path out_path w)) = (wire w ++ new)%list
    /\ commands_run new = firstn k writes
    /\ (fst (put_file in_path out_path w) = Ok tt -> commands_run new = writes)
    /\ (forall p command args,
           protocol (self w) = Some p ->
           truthy_str (shell_id (self w)) = true ->
           0 < chunk ->
           content <> "" ->
           chunk_command target (Py.len content) (0, first)
           = (command :: args)%list ->
           exists rest,
             new = (run_command p (shell_id (self w)) command args :: rest)%list)
    /\ (forall msg,
           fst (put_file in_path out_path w) = Raise (AnsibleError msg) ->
           msg = "failed to transfer file to " ++ target).
Proof.
  intros Hfile Hchunk first target writes.
  assert (Hlen : content <> "" -> 0 < Py.len content).
  { unfold Py.len. destruct content; [congruence|cbn; lia]. }
  unfold put_file, bind, get_disk. rewrite Hfile, Hchunk.
  destruct (chunk =? 0) eqn:Hzero.
  { exists [], O. unfold raise. cbn [fst snd]. rewrite app_nil_r.
    split; [reflexivity|]. split; [reflexivity|]. split; [discriminate|].
    split; [|discriminate].
    intros p command args _ _ Hpos. apply Z.eqb_eq in Hzero. lia. }
  apply Z.eqb_neq in Hzero. unfold writes.
  destruct (xrange_from_zero (Py.len content) chunk Hzero)
    as [E|(rest & E & Hrest)]; rewrite E.
  { exists [], O. cbn [put_file_loop file_chunks map]. unfold ret.
    cbn [fst snd]. rewrite app_nil_r.
    split; [reflexivity|]. split; [reflexivity|]. split; [reflexivity|].
    split; [|discriminate].
    intros p command args _ _ Hpos Hcontent _.
    destruct (xrange_nonempty (Py.len content) chunk Hpos (Hlen Hcontent))
      as (rest & E' & _).
    rewrite E in E'. discriminate. }
  destruct (put_file_loop_from_zero_commands rest chunk (Py.len content)
              content out_path w Hrest) as (new & k & Hw & Hk & Hall).
  destruct (put_file_loop_from_zero rest chunk (Py.len content) content
              out_path w Hrest) as (new' & _ & _ & He).
  exists new, k. split; [exact Hw|]. split; [exact Hk|]. split; [exact Hall|].
  split.
  - intros p command args Hp Hsh _ _ Hcmd.
    destruct (put_file_loop_first_request rest chunk (Py.len content) content
                out_path w p command args Hrest Hp Hsh Hcmd) as [tail Htail].
    exists tail. rewrite Hw in Htail. now apply app_inv_head in Htail.
  - intros msg Hfail. apply He in Hfail. fold first in Hfail.
    fold target in Hfail. congruence.
Qed.
(** ** More on downloads *)

Lemma bind_raised {A B} (m : M A) (f : A -> M B) w e w1 :
  m w = (Raise e, w1) -> bind m f w = (Raise e, w1).
Proof. intros H. unfold bind. now rewrite H. Qed.

Lemma fetch_chunk_disk (in_path : string) (offset : Z) (w : World)
      (r : result (option string)) (w1 : World) :
  fetch_chunk in_path offset w = (r, w1) -> disk w1 = disk w.
Proof.
  unfold fetch_chunk.
  destruct (_encode_script_as_list _shell _) as [|command args].
  { intros E. now injection E as <- <-. }
  unfold bind.
  destruct (_winrm_exec command args w) as [r0 w0] eqn:Hrun.
  destruct (winrm_exec_wire _ _ _ _ _ Hrun) as [Hdisk _].
  destruct r0 as [resp|e]; [|intros E; now injection E as <- <-].
  destruct (status_code resp =? 0); cbn [negb];
    [|intros E; now injection E as <- <-].
  destruct (String.eqb (Py.strip (std_out resp)) "[DIR]");
    [intros E; now injection E as <- <-|].
  destruct (b64decode base64 _); intros E; now injection E as <- <-.
Qed.

(** What the first half of a pass makes of the command's result. *)
Lemma fetch_chunk_of_response (in_path : string) (offset : Z) (w : World)
      (cmd0 : string) (cmd_rest : list string) (r : result Response)
      (w1 : World) :
  _encode_script_as_list _shell
    (fetch_script (_escape _shell in_path) offset fetch_buffer_size)
  = (cmd0 :: cmd_rest)%list ->
  _winrm_exec cmd0 cmd_rest w = (r, w1) ->
  fetch_chunk in_path offset w
  = match r with
    | Raise e => (Raise e, w1)
    | Ok resp =>
        if negb (status_code resp =? 0) then (Raise (IOError (std_err resp)), w1)
        else if String.eqb (Py.strip (std_out resp)) "[DIR]" then (Ok None, w1)
        else match b64decode base64 (Py.strip (std_out resp)) with
             | Some data => (Ok (Some data), w1)
             | None => (Raise TypeError, w1)
             end
    end.
Proof.
  intros Hcmd Hrun. unfold fetch_chunk. rewrite Hcmd.
  unfold bind. rewrite Hrun.
  destruct r as [resp|e]; [|reflexivity].
  destruct (negb (status_code resp =? 0)); [reflexivity|].
  destruct (String.eqb (Py.strip (std_out resp)) "[DIR]"); [reflexivity|].
  now destruct (b64decode base64 _).
Qed.

(** X12.  When the remote path is a directory (the command prints the
    token [[DIR]] with status 0), the download ends with success at that
    pass: the local path is made a directory if nothing is there, no
    local file is opened or written, and nothing more is requested. *)
Theorem fetch_remote_directory
        (in_path out_path : string) (offset : Z) (out_file : bool)
        (w w1 : World) (cmd0 : string) (cmd_rest : list string)
        (resp : Response) :
  _encode_script_as_list _shell
    (fetch_script (_escape _shell in_path) offset fetch_buffer_size)
  = (cmd0 :: cmd_rest)%list ->
  _winrm_exec cmd0 cmd_rest w = (Ok resp, w1) ->
  status_code resp = 0 ->
  Py.strip (std_out resp) = "[DIR]" ->
  (forall fuel,
      fetch_file_loop (S fuel) in_path out_path offset out_file w
      = (Ok (Some tt), Local.makedirs_safe out_path w1))
  /\ wire (Local.makedirs_safe out_path w1) = wire w1
  /\ (disk w out_path = None ->
      disk (Local.makedirs_safe out_path w1) out_path = Some Dir)
  /\ (forall path content,
         disk w path = Some (File content) ->
         disk (Local.makedirs_safe out_path w1) path = Some (File content)).
Proof.
  intros Hcmd Hrun Hstatus Hdir.
  pose proof (fetch_chunk_of_response in_path offset w _ _ _ _ Hcmd Hrun) as Hchunk.
  cbv beta iota in Hchunk. rewrite Hstatus, Hdir in Hchunk. cbn in Hchunk.
  pose proof (fetch_chunk_disk _ _ _ _ _ Hchunk) as Hdisk.
  split; [|split; [|split]].
  - intros fuel. cbn [fetch_file_loop].
    unfold bind at 1. unfold fetch_file_step, try_except.
    now rewrite (bind_ok _ _ _ _ _ Hchunk).
  - unfold Local.makedirs_safe. now destruct (disk w1 out_path).
  - intros Hnone. unfold Local.makedirs_safe. rewrite Hdisk, Hnone.
    cbn. unfold disk_set. now rewrite String.eqb_refl.
  - intros path content Hpath. unfold Local.makedirs_safe. rewrite Hdisk.
    destruct (disk w out_path) eqn:Hout; [now rewrite Hdisk|].
    cbn. unfold disk_set. rewrite ?Hdisk.
    destruct (String.eqb_spec path out_path) as [->|_]; [congruence|exact Hpath].
Qed.

(** X13.  When the command of a pass ends with a status that is not 0
    (a remote path that does not exist), the download raises
    [AnsibleError] naming the local path, and that pass touches no local
    file. *)
Theorem fetch_remote_failure
        (in_path out_path : string) (offset : Z) (out_file : bool)
        (w w1 : World) (cmd0 : string) (cmd_rest : list string)
        (resp : Response) :
  _encode_script_as_list _shell
    (fetch_script (_escape _shell in_path) offset fetch_buffer_size)
  = (cmd0 :: cmd_rest)%list ->
  _winrm_exec cmd0 cmd_rest w = (Ok resp, w1) ->
  status_code resp <> 0 ->
  (forall fuel,
      fetch_file_loop (S fuel) in_path out_path offset out_file w
      = (Raise (AnsibleError ("failed to transfer file to " ++ out_path)), w1))
  /\ disk w1 = disk w.
Proof.
  intros Hcmd Hrun Hstatus.
  pose proof (fetch_chunk_of_response in_path offset w _ _ _ _ Hcmd Hrun) as Hchunk.
  cbv beta iota in Hchunk. apply Z.eqb_neq in Hstatus.
  rewrite Hstatus in Hchunk. cbn [negb] in Hchunk.
  split; [|exact (fetch_chunk_disk _ _ _ _ _ Hchunk)].
  intros fuel. cbn [fetch_file_loop].
  unfold bind at 1. unfold fetch_file_step, try_except.
  now rewrite (bind_raised _ _ _ _ _ Hchunk).
Qed.

Lemma fetch_file_loop_error (fuel : nat) (in_path out_path : string) :
  forall offset out_file w e,
    fst (fetch_file_loop fuel in_path out_path offset out_file w) = Raise e ->
    e = AnsibleError ("failed to transfer file to " ++ out_path).
Proof.
  induction fuel as [|fuel IH]; intros offset out_file w e.
  - discriminate.
  - cbn [fetch_file_loop]. unfold bind at 1.
    unfold fetch_file_step at 1. unfold try_except.
    destruct ((data <- fetch_chunk in_path offset;;
               store_chunk out_path offset out_file data) w)
      as [[[|offset' out_file']|e0] w1].
    + discriminate.
    + apply IH.
    + unfold raise. cbn [fst]. intros E. now injection E as <-.
Qed.

(** X14.  Whatever goes wrong in a download once its loop has started (a
    transport error, a remote status that is not 0, output that is not
    base64, a local write that fails), the caller sees one error:
    [AnsibleError] with the text [failed to transfer file to] and the
    local path, backslashes turned into slashes. *)
Theorem fetch_file_raises_one_error
        (fuel : nat) (in_path out_path : string) (w : World) (e : exn) :
  fst (fetch_file fuel in_path out_path w) = Raise e ->
  e = AnsibleError ("failed to transfer file to "
                    ++ Py.replace_char (ascii_of_nat 92) "/" out_path).
Proof.
  unfold fetch_file, bind, modify. apply fetch_file_loop_error.
Qed.

(** X15.  A first data chunk that arrives while the local path is a
    directory ends the download at once, with success and without
    writing: the world is the one the fetch of the chunk left. *)
Theorem fetch_onto_local_directory
        (in_path out_path : string) (offset : Z) (w w1 : World)
        (data : string) :
  fetch_chunk in_path offset w = (Ok (Some data), w1) ->
  Local.isdir (disk w1) out_path = true ->
  forall fuel,
    fetch_file_loop (S fuel) in_path out_path offset false w
    = (Ok (Some tt), w1).
Proof.
  intros Hchunk Hdir fuel. cbn [fetch_file_loop].
  unfold bind at 1. unfold fetch_file_step, try_except.
  rewrite (bind_ok _ _ _ _ _ Hchunk).
  unfold store_chunk, bind, get_disk, ret. now rewrite Hdir.
Qed.

Lemma append_empty (s : string) : s ++ "" = s.
Proof. induction s as [|c s IH]; cbn; [reflexivity|now rewrite IH]. Qed.

Lemma store_chunk_appends (out_path : string) (offset : Z) (data old : string)
      (w1 : World) :
  disk w1 out_path = Some (File old) ->
  store_chunk out_path offset true (Some data) w1
  = (Ok (if Py.len data <? 524288 then Break
         else Continue (offset + Py.len data) true),
     set_disk (disk_set (disk w1) out_path (File (old ++ data))) w1).
Proof.
  intros Hold.
  unfold store_chunk, bind, get_disk, modify, ret, Local.write.
  rewrite fetch_buffer_size_value. cbn [negb andb]. rewrite Hold.
  now destruct (Py.len data <? 524288).
Qed.

Lemma store_chunk_opens (out_path : string) (offset : Z) (data : string)
      (w1 : World) :
  Local.can_open (disk w1) out_path = true ->
  store_chunk out_path offset false (Some data) w1
  = (Ok (if Py.len data <? 524288 then Break
         else Continue (offset + Py.len data) true),
     set_disk (disk_set (disk_set (disk w1) out_path (File "")) out_path
                        (File data)) w1).
Proof.
  intros Hcan.
  unfold store_chunk, bind, get_disk, ret, Local.write, Local.open_wb.
  rewrite fetch_buffer_size_value. cbn [negb andb].
  rewrite (can_open_not_dir _ _ Hcan), Hcan.
  cbn [disk set_disk]. unfold disk_set at 1. rewrite String.eqb_refl.
  cbn [append].
  now destruct (Py.len data <? 524288).
Qed.

(** X16.  A download whose passes fetch full chunks and then a short one
    ends with success as soon as the fuel covers the passes, and the
    local file then holds the chunks put together in the order they
    came, after what it held when the loop is entered with the file open
    (and after nothing, when the loop opens the file itself, which takes
    a local path that can be opened: not a directory, and in a directory
    that is there). *)
Theorem download_reassembles
        (in_path out_path : string) (offset : Z) (out_file : bool)
        (w : World) (chunks : list string) (w' : World) :
  downloaded in_path out_path offset out_file w chunks w' ->
  forall old,
    (if out_file then disk w out_path = Some (File old)
     else Local.can_open (disk w) out_path = true /\ old = "") ->
    (forall fuel,
        (List.length chunks <= fuel)%nat ->
        fetch_file_loop fuel in_path out_path offset out_file w
        = (Ok (Some tt), w'))
    /\ disk w' out_path = Some (File (old ++ join chunks)).
Proof.
  assert (Hpass : forall offset (out_file : bool) w w1 data old,
             fetch_chunk in_path offset w = (Ok (Some data), w1) ->
             (if out_file then disk w out_path = Some (File old)
              else Local.can_open (disk w) out_path = true /\ old = "") ->
             fetch_file_step in_path out_path offset out_file w
             = (Ok (if Py.len data <? 524288 then Break
                    else Continue (offset + Py.len data) true),
                snd (store_chunk out_path offset out_file (Some data) w1))
             /\ disk (snd (store_chunk out_path offset out_file (Some data) w1))
                     out_path
                = Some (File (old ++ data))).
  { intros offset0 out_file0 w0 w1 data old Hchunk Hold.
    pose proof (fetch_chunk_disk _ _ _ _ _ Hchunk) as Hdisk.
    rewrite <- Hdisk in Hold.
    unfold fetch_file_step, try_except. rewrite (bind_ok _ _ _ _ _ Hchunk).
    destruct out_file0.
    - rewrite (store_chunk_appends out_path offset0 data old w1 Hold).
      cbn [snd]. split; [reflexivity|].
      cbn. unfold disk_set. now rewrite String.eqb_refl.
    - destruct Hold as [Hcan ->].
      rewrite (store_chunk_opens out_path offset0 data w1 Hcan).
      cbn [snd]. split; [reflexivity|].
      cbn. unfold disk_set. now rewrite String.eqb_refl. }
  induction 1 as [offset out_file w w1 data Hchunk Hshort
                 |offset out_file w w1 data chunks w' Hchunk Hfull _ IH];
    intros old Hold;
    destruct (Hpass _ _ _ _ _ _ Hchunk Hold) as [Hstep Hfile].
  - apply Z.ltb_lt in Hshort. rewrite Hshort in Hstep. split.
    + intros [|fuel] Hfuel; [cbn in Hfuel; lia|].
      cbn [fetch_file_loop]. now rewrite (bind_ok _ _ _ _ _ Hstep).
    + rewrite Hfile. cbn [join]. now rewrite append_empty.
  - apply Z.ltb_ge in Hfull. rewrite Hfull in Hstep.
    destruct (IH (old ++ data) Hfile) as [Hloop Hfinal]. split.
    + intros [|fuel] Hfuel; [cbn in Hfuel; lia|].
      cbn [fetch_file_loop]. rewrite (bind_ok _ _ _ _ _ Hstep).
      apply Hloop. cbn in Hfuel. lia.
    + rewrite Hfinal. cbn [join]. now rewrite append_assoc.
Qed.

(** ** Commands *)

(** The part of [exec_command] that follows the log line. *)
Lemma exec_command_run (tools : CommandLine) (cmd : string)
      (cmd_parts : list string) (w : World) :
  shlex_split tools cmd = Ok cmd_parts ->
  list_in "-EncodedCommand" cmd_parts = false
  \/ (exists encoded data,
         item_after "-EncodedCommand" cmd_parts = Some encoded
         /\ b64decode base64 encoded = Some data) ->
  exec_command tools cmd w
  = match script_parts tools cmd_parts with
    | [] => (Raise (AnsibleError ("failed to exec cmd " ++ cmd)), w)
    | cmd0 :: cmd_rest =>
        match _winrm_exec cmd0 cmd_rest w with
        | (Ok resp, w1) =>
            (Ok (status_code resp, "", std_out resp, std_err resp), w1)
        | (Raise _, w1) =>
            (Raise (AnsibleError ("failed to exec cmd " ++ cmd)), w1)
        end
    end.
Proof.
  intros Hsplit Hlog. unfold exec_command. rewrite Hsplit.
  unfold bind at 1.
  assert (Hlogged :
            (if list_in "-EncodedCommand" cmd_parts
             then match item_after "-EncodedCommand" cmd_parts with
                  | Some encoded_cmd =>
                      match b64decode base64 encoded_cmd with
                      | Some _ => ret tt
                      | None => raise TypeError
                      end
                  | None => raise IndexError
                  end
             else ret tt) w = (Ok tt, w)).
  { destruct Hlog as [->|(encoded & data & -> & ->)]; [reflexivity|].
    now destruct (list_in "-EncodedCommand" cmd_parts). }
  rewrite Hlogged. unfold bind, try_except, raise, ret.
  destruct (script_parts tools cmd_parts) as [|cmd0 cmd_rest]; [reflexivity|].
  now destruct (_winrm_exec cmd0 cmd_rest w) as [[resp|e] w1].
Qed.

(** X17.  The errors of [exec_command]: a command line that does not
    split, or whose [-EncodedCommand] word has no word after it
    (IndexError) or one that is not base64 (TypeError), fails before
    anything is sent and leaves the world as it was; every other failure
    is the one [AnsibleError] with the text [failed to exec cmd] and the
    command line. *)
Theorem exec_command_errors (tools : CommandLine) (cmd : string) (w : World)
        (e : exn) :
  fst (exec_command tools cmd w) = Raise e ->
  ((shlex_split tools cmd = Raise e \/ e = IndexError \/ e = TypeError)
   /\ snd (exec_command tools cmd w) = w)
  \/ e = AnsibleError ("failed to exec cmd " ++ cmd).
Proof.
  destruct (exec_command tools cmd w) as [r w'] eqn:Hrun. cbn [fst snd].
  intros ->. revert Hrun. unfold exec_command.
  destruct (shlex_split tools cmd) as [cmd_parts|e0].
  2:{ unfold raise. intros E. injection E as <- <-. left. auto. }
  assert (Hrest : forall w0 w1 e1,
             (let cmd_parts := script_parts tools cmd_parts in
              result <- try_except
                          match cmd_parts with
                          | [] => raise IndexError
                          | cmd0 :: cmd_rest => _winrm_exec cmd0 cmd_rest
                          end
                          (fun _ => raise (AnsibleError
                                             ("failed to exec cmd " ++ cmd)));;
              ret (status_code result, "", std_out result, std_err result))
               w0 = (Raise e1, w1) ->
             e1 = AnsibleError ("failed to exec cmd " ++ cmd)).
  { intros w0 w1 e1. cbv zeta. unfold bind, try_except, raise, ret.
    destruct (script_parts tools cmd_parts) as [|cmd0 cmd_rest].
    - intros E. now injection E.
    - destruct (_winrm_exec cmd0 cmd_rest w0) as [[resp|e2] w2];
        [discriminate|]. intros E. now injection E. }
  unfold bind at 1.
  destruct (list_in "-EncodedCommand" cmd_parts).
  - destruct (item_after "-EncodedCommand" cmd_parts) as [encoded|].
    + destruct (b64decode base64 encoded).
      * intros E. right. exact (Hrest _ _ _ E).
      * intros E. injection E as <- <-. left. auto.
    + intros E. injection E as <- <-. left. auto.
  - intros E. right. exact (Hrest _ _ _ E).
Qed.

Lemma list_in_last (x : string) (pre : list string) :
  list_in x (pre ++ [x]) = true.
Proof.
  induction pre as [|y pre IH]; cbn; [now rewrite String.eqb_refl|].
  rewrite IH. apply orb_true_r.
Qed.

Lemma item_after_last (x : string) (pre : list string) :
  list_in x pre = false -> item_after x (pre ++ [x]) = None.
Proof.
  induction pre as [|y pre IH]; cbn; [now rewrite String.eqb_refl|].
  intros H. apply orb_false_elim in H. destruct H as [Hy Hpre].
  rewrite Hy. now apply IH.
Qed.

(** X18.  A command line that ends with its only [-EncodedCommand] word
    makes [exec_command] raise IndexError, and one whose encoded command
    is not base64 makes it raise TypeError: both come from decoding the
    command for the log, are not turned into [AnsibleError], and are
    raised before the session is touched. *)
Theorem exec_command_log_line_fails (tools : CommandLine) (cmd : string)
        (w : World) :
  (forall pre,
      shlex_split tools cmd = Ok (pre ++ ["-EncodedCommand"])%list ->
      list_in "-EncodedCommand" pre = false ->
      exec_command tools cmd w = (Raise IndexError, w))
  /\ (forall cmd_parts encoded,
         shlex_split tools cmd = Ok cmd_parts ->
         list_in "-EncodedCommand" cmd_parts = true ->
         item_after "-EncodedCommand" cmd_parts = Some encoded ->
         b64decode base64 encoded = None ->
         exec_command tools cmd w = (Raise TypeError, w)).
Proof.
  split.
  - intros pre Hsplit Hpre. unfold exec_command. rewrite Hsplit.
    unfold bind at 1. now rewrite list_in_last, (item_after_last _ _ Hpre).
  - intros cmd_parts encoded Hsplit Hin Hitem Hbad.
    unfold exec_command. rewrite Hsplit.
    unfold bind at 1. now rewrite Hin, Hitem, Hbad.
Qed.

(** X19.  A command line that splits and whose log line can be written
    is run at most once on the remote end, as the words it splits into,
    or as the encoded script when the first word ends with [.ps1] in any
    case.  A response comes back as (status, empty string, output,
    errors) whatever the status is, with the command run exactly once;
    an empty command line raises [AnsibleError] and sends nothing. *)
Theorem exec_command_runs_once (tools : CommandLine) (cmd : string)
        (cmd_parts : list string) (w : World) :
  shlex_split tools cmd = Ok cmd_parts ->
  list_in "-EncodedCommand" cmd_parts = false
  \/ (exists encoded data,
         item_after "-EncodedCommand" cmd_parts = Some encoded
         /\ b64decode base64 encoded = Some data) ->
  let ran :=
    match cmd_parts with
    | first :: _ =>
        if Py.endswith (Py.lower first) ".ps1"
        then _encode_script_as_list _shell (_build_file_cmd tools cmd_parts)
        else cmd_parts
    | [] => []
    end in
  (cmd_parts = [] ->
   exec_command tools cmd w
   = (Raise (AnsibleError ("failed to exec cmd " ++ cmd)), w))
  /\ exists new,
      wire (snd (exec_command tools cmd w)) = (wire w ++ new)%list
      /\ (commands_run new = [] \/ commands_run new = [ran])
      /\ (forall status text out err,
             fst (exec_command tools cmd w) = Ok (status, text, out, err) ->
             text = "" /\ commands_run new = [ran]).
Proof.
  intros Hsplit Hlog ran.
  rewrite (exec_command_run tools cmd cmd_parts w Hsplit Hlog).
  assert (Hran : script_parts tools cmd_parts = ran) by now destruct cmd_parts.
  rewrite Hran. split.
  - intros ->. reflexivity.
  - destruct ran as [|cmd0 cmd_rest].
    + exists []. cbn. rewrite app_nil_r. repeat split; auto; discriminate.
    + destruct (_winrm_exec cmd0 cmd_rest w) as [r w1] eqn:Hrun.
      destruct (winrm_exec_commands _ _ _ _ _ Hrun) as (new & Hw & Hany & Hok).
      exists new. destruct r as [resp|e]; cbn [fst snd];
        (split; [exact Hw|]); (split; [exact Hany|]).
      * intros status text out err E. injection E as _ <- _ _.
        split; [reflexivity|]. now apply (Hok resp).
      * discriminate.
Qed.

End Plugin.

(* ===================================================================== *)
(** * The properties at concrete inputs *)
(* ===================================================================== *)

(** The chunk size for a command line of 722 characters. *)
Lemma buffer_size_single_truncation_witness :
  0 <= 722 <= 8190
  /\ exists b,
      buffer_size 722 = Some b
      /\ (722 = 981 -> b = 1999)
      /\ (722 <> 981 ->
          b = single_floor 722
          /\ spec_maxChunk 722 <= b <= spec_maxChunk 722 + 1).
Proof.
  split; [lia|]. apply (buffer_size_single_truncation 722). lia.
Defined.

(** C3, as the specification states it, fails for a command line of 602
    characters: the code yields 2105, the nested floors 2104. *)
Lemma buffer_size_is_not_nested_floor :
  buffer_size 602 = Some 2105 /\ spec_maxChunk 602 = 2104.
Proof. split; vm_compute; reflexivity. Qed.

(** An upload from a path that is not on the disk. *)
Lemma put_file_missing_local_file_witness :
  put_file true Connection_transport_schemes Demo.info (Demo.shell 722)
           Demo.codec Demo.obliging "missing.ps1" "C:\x.ps1"
           (Demo.fresh "other.ps1" "data")
  = (Raise (AnsibleFileNotFound "file or module does not exist: missing.ps1"),
     Demo.fresh "other.ps1" "data").
Proof.
  apply (put_file_missing_local_file true Connection_transport_schemes
           Demo.info (Demo.shell 722) Demo.codec Demo.obliging
           "missing.ps1" "C:\x.ps1" (Demo.fresh "other.ps1" "data")).
  reflexivity.
Defined.

(** An upload of an empty file to a willing remote end: nothing is sent. *)
Lemma put_file_empty_file_sends_nothing_witness :
  disk (Demo.fresh "empty.txt" "") "empty.txt" = Some (File "")
  /\ snd (put_file true Connection_transport_schemes Demo.info
                   (Demo.shell 722) Demo.codec Demo.obliging
                   "empty.txt" "C:\stale.txt" (Demo.fresh "empty.txt" ""))
     = Demo.fresh "empty.txt" "".
Proof.
  split; [reflexivity|].
  apply (put_file_empty_file_sends_nothing true Connection_transport_schemes
           Demo.info (Demo.shell 722) Demo.codec Demo.obliging
           "empty.txt" "C:\stale.txt" (Demo.fresh "empty.txt" "")).
  reflexivity.
Defined.

(** The four classes of transport errors, one remote end each: a timeout
    text that also carries a 401, a 401, a 411, and a 500. *)
Lemma transport_error_classification_witness :
  let attempts := [(plaintext, https); (plaintext, http)] in
  let w := Demo.fresh "a" "" in
  let run (err_msg : string) :=
    fst (_winrm_connect_loop false Demo.info (Demo.refusing err_msg)
                             attempts None w) in
  run "500 Operation timed out. Code 401"
  = Raise (AnsibleError "the connection attempt timed out")
  /\ run "Bad HTTP response returned from server. Code 401"
     = Raise (AnsibleError
                "the username/password specified for this server was incorrect")
  /\ run "Bad HTTP response returned from server. Code 411"
     = Ok (Some (attempt_protocol Demo.info (plaintext, https) None))
  /\ run "Bad HTTP response returned from server. Code 500"
     = fst (_winrm_connect_loop false Demo.info
              (Demo.refusing "Bad HTTP response returned from server. Code 500")
              [(plaintext, http)]
              (Some "Bad HTTP response returned from server. Code 500")
              (sent (probe (attempt_protocol Demo.info (plaintext, https) None))
                    (Demo.fresh "a" ""))).
Proof.
  cbv zeta.
  pose (classified := fun err_msg =>
          transport_error_classification false Demo.info (Demo.refusing err_msg)
            (plaintext, https) [(plaintext, http)] None (Demo.fresh "a" "")
            None err_msg eq_refl eq_refl eq_refl).
  split; [|split; [|split]].
  - rewrite (proj1 (classified "500 Operation timed out. Code 401"));
      reflexivity.
  - rewrite (proj1 (proj2
               (classified "Bad HTTP response returned from server. Code 401")));
      reflexivity.
  - rewrite (proj1 (proj2 (proj2
               (classified "Bad HTTP response returned from server. Code 411"))));
      reflexivity.
  - rewrite (proj2 (proj2 (proj2
               (classified "Bad HTTP response returned from server. Code 500"))));
      [reflexivity|reflexivity|discriminate|discriminate].
Defined.

Lemma refused_twice :
  exhausted true Demo.info (Demo.https_only (Ok tt))
            [(kerberos, http); (plaintext, http)] None (Demo.fresh "a" "")
            (Some "Bad HTTP response returned from server. Code 500")
            (sent (probe (attempt_protocol Demo.info (plaintext, http) None))
               (sent (probe (attempt_protocol Demo.info (kerberos, http)
                                              (Some "EXAMPLE.COM")))
                     (Demo.fresh "a" ""))).
Proof.
  eapply exhausted_fail with (realm := Some "EXAMPLE.COM");
    [reflexivity|reflexivity|reflexivity|reflexivity|discriminate|discriminate|].
  eapply exhausted_fail with (realm := None);
    [reflexivity|reflexivity|reflexivity|reflexivity|discriminate|discriminate|].
  apply exhausted_nil.
Defined.

(** The plugin's own table for port 5985 against a remote end that lets
    only plaintext over https through: the kerberos attempt and the
    plaintext attempt over http are refused, the third attempt is probed
    and its connection returned. *)
Lemma negotiation_returns_first_accepted_witness :
  _winrm_connect true Connection_transport_schemes Demo.info
                 (Demo.https_only (Ok tt)) (Demo.fresh "a" "")
  = (Ok (Some (attempt_protocol Demo.info (plaintext, https) None)),
     sent (probe (attempt_protocol Demo.info (plaintext, https) None))
       (sent (probe (attempt_protocol Demo.info (plaintext, http) None))
          (sent (probe (attempt_protocol Demo.info (kerberos, http)
                                         (Some "EXAMPLE.COM")))
                (Demo.fresh "a" "")))).
Proof.
  destruct (proj2 (negotiation_returns_first_accepted
                     true Demo.info (Demo.https_only (Ok tt))
                     (Connection_transport_schemes http) None
                     (Demo.fresh "a" ""))
                  [(kerberos, http); (plaintext, http)] (plaintext, https) []
                  _ _ eq_refl refused_twice eq_refl)
    as (realm & Hrealm & Hrun).
  injection Hrealm as <-.
  apply Hrun. reflexivity.
Defined.




(** One command on a willing remote end, and one on a remote end where
    fetching the output breaks: no handle is left open in either case. *)
Lemma winrm_exec_releases_command_handle_witness :
  open_commands Demo.obliging
    (wire (snd (_winrm_exec true Connection_transport_schemes Demo.info
                            Demo.obliging "ipconfig" ["/all"]
                            (Demo.fresh "a" ""))))
  = open_commands Demo.obliging (wire (Demo.fresh "a" ""))
  /\ open_commands Demo.breaking
       (wire (snd (_winrm_exec true Connection_transport_schemes Demo.info
                               Demo.breaking "ipconfig" ["/all"] Demo.busy)))
     = open_commands Demo.breaking (wire Demo.busy).
Proof.
  split.
  - apply (winrm_exec_releases_command_handle true Connection_transport_schemes
             Demo.info Demo.obliging "ipconfig" ["/all"] (Demo.fresh "a" "")).
    intros h p sh c a. discriminate.
  - apply (winrm_exec_releases_command_handle true Connection_transport_schemes
             Demo.info Demo.breaking "ipconfig" ["/all"] Demo.busy).
    intros h p sh c a. discriminate.
Defined.

(** A session with a connection and a shell is closed, and used again. *)
Lemma close_clears_shell_and_reopens_witness :
  exists w2,
    _winrm_exec true Connection_transport_schemes Demo.info Demo.obliging
                "hostname" [] (snd (close Demo.obliging Demo.busy))
    = (Ok {| std_out := ""; std_err := ""; status_code := 0 |}, w2)
    /\ shell_id (self w2) = Some "shell-1"
    /\ protocol (self w2) = Some Demo.handle.
Proof.
  destruct (close_clears_shell_and_reopens true Connection_transport_schemes
              Demo.info Demo.obliging Demo.busy) as (_ & _ & _ & Hagain).
  destruct (Hagain "hostname" [] Demo.handle "shell-1" "cmd-1" ("", "", 0)
                   (snd (close Demo.obliging Demo.busy)))
    as (w2 & Hrun & Hshell & Hconn & _);
    try reflexivity; try discriminate.
  exists w2. repeat split; assumption.
Defined.

(** A download whose first pass fetches eight bytes: into a directory
    that is there, the loop ends with the file written; below a path
    that is a regular file, it fails. *)
Lemma fetch_chunk_length_decides_witness :
  (exists w2,
      fetch_file_loop true Connection_transport_schemes Demo.info
                      (Demo.shell 722) Demo.codec (Demo.printing "aGVsbG8=")
                      3 "C:\remote.txt" "fetched/remote.txt" 0 false
                      (Demo.local "fetched")
      = (Ok (Some tt), w2)
      /\ disk w2 "fetched/remote.txt" = Some (File "aGVsbG8="))
  /\ fst (fetch_file_loop true Connection_transport_schemes Demo.info
                          (Demo.shell 722) Demo.codec (Demo.printing "aGVsbG8=")
                          3 "C:\remote.txt" "a/remote.txt" 0 false
                          (Demo.fresh "a" ""))
     = Raise (AnsibleError "failed to transfer file to a/remote.txt").
Proof.
  split.
  - destruct (fetch_chunk_length_decides true Connection_transport_schemes
                Demo.info (Demo.shell 722) Demo.codec (Demo.printing "aGVsbG8=")
                "C:\remote.txt" "fetched/remote.txt" 0 false
                (Demo.local "fetched")
                (snd (fetch_chunk true Connection_transport_schemes Demo.info
                                  (Demo.shell 722) Demo.codec
                                  (Demo.printing "aGVsbG8=")
                                  "C:\remote.txt" 0 (Demo.local "fetched")))
                "aGVsbG8=")
      as [_ Hopens].
    + vm_compute. reflexivity.
    + intros _. vm_compute. reflexivity.
    + discriminate.
    + destruct Hopens as (w2 & old & _ & _ & Hdisk & Hold & Hshort & _).
      * intros _. vm_compute. reflexivity.
      * exists w2. split.
        -- apply Hshort. reflexivity.
        -- rewrite Hdisk. now rewrite (Hold eq_refl).
  - destruct (fetch_chunk_length_decides true Connection_transport_schemes
                Demo.info (Demo.shell 722) Demo.codec (Demo.printing "aGVsbG8=")
                "C:\remote.txt" "a/remote.txt" 0 false
                (Demo.fresh "a" "")
                (snd (fetch_chunk true Connection_transport_schemes Demo.info
                                  (Demo.shell 722) Demo.codec
                                  (Demo.printing "aGVsbG8=")
                                  "C:\remote.txt" 0 (Demo.fresh "a" "")))
                "aGVsbG8=")
      as [Hfails _].
    + vm_compute. reflexivity.
    + intros _. vm_compute. reflexivity.
    + discriminate.
    + rewrite (Hfails eq_refl); [reflexivity|]. vm_compute. reflexivity.
Defined.

(** An upload in three chunks of a script that starts with the marker,
    to a path without the extension, on a session that holds its
    handles: the first request is the write of the first slice to the
    extended path, and the three writes are all for that path. *)
Lemma put_file_script_extension_witness :
  let content := "#!powershell" ++ Py.nl ++ "Write-Host hello world" in
  let w := set_disk (disk (Demo.fresh "hello.ps1" content)) Demo.busy in
  let write offset data :=
    ["PowerShell"; "-EncodedCommand";
     script_template "C:\tmp\hello.ps1" offset data 35] in
  exists rest,
    wire (snd (put_file true Connection_transport_schemes Demo.info
                        (Demo.shell 8143) Demo.codec Demo.obliging
                        "hello.ps1" "C:\tmp\hello" w))
    = (wire w
       ++ run_command Demo.handle (Some "shell-0") "PowerShell"
            ["-EncodedCommand";
             script_template "C:\tmp\hello.ps1" 0 ("#!powershell" ++ Py.nl) 35]
          :: rest)%list
    /\ commands_run
         (run_command Demo.handle (Some "shell-0") "PowerShell"
            ["-EncodedCommand";
             script_template "C:\tmp\hello.ps1" 0 ("#!powershell" ++ Py.nl) 35]
          :: rest)
       = [write 0 ("#!powershell" ++ Py.nl); write 13 "Write-Host he";
          write 26 "llo world"].
Proof.
  cbv zeta.
  destruct (put_file_script_extension true Connection_transport_schemes
              Demo.info (Demo.shell 8143) Demo.codec Demo.obliging
              "hello.ps1" "C:\tmp\hello"
              ("#!powershell" ++ Py.nl ++ "Write-Host hello world") 13
              (set_disk
                 (disk (Demo.fresh "hello.ps1"
                          ("#!powershell" ++ Py.nl ++ "Write-Host hello world")))
                 Demo.busy))
    as (new & k & Hwire & _ & Hall & Hfirst & _).
  - vm_compute. reflexivity.
  - vm_compute. reflexivity.
  - destruct (Hfirst Demo.handle "PowerShell"
                     ["-EncodedCommand";
                      script_template "C:\tmp\hello.ps1" 0
                                      ("#!powershell" ++ Py.nl) 35])
      as [rest ->].
    + reflexivity.
    + reflexivity.
    + reflexivity.
    + discriminate.
    + vm_compute. reflexivity.
    + exists rest. split; [exact Hwire|].
      etransitivity; [apply Hall; vm_compute; reflexivity|].
      vm_compute. reflexivity.
Defined.

(* ===================================================================== *)
(** * The plugin's own attempt table *)
(* ===================================================================== *)

Lemma own_table_not_all_skipped (HAVE_KERBEROS : bool) (info : ConnectionInfo)
      (key : Scheme) :
  forallb (skipped HAVE_KERBEROS info) (Connection_transport_schemes key)
  = false.
Proof.
  destruct key; cbn; now rewrite !andb_false_r.
Qed.

(** X20.  With the plugin's own attempt table, [_connect] ends with an
    error or with a connection handle stored in the session, never with
    an empty handle; and once it has returned, a second [_connect] sends
    nothing and changes nothing. *)
Theorem connect_establishes_once (HAVE_KERBEROS : bool) (info : ConnectionInfo)
        (remote : Remote) (w : World) :
  let connect := _connect HAVE_KERBEROS Connection_transport_schemes info remote in
  ((exists e, fst (connect w) = Raise e)
   \/ (fst (connect w) = Ok tt
       /\ exists p, protocol (self (snd (connect w))) = Some p))
  /\ (fst (connect w) = Ok tt ->
      connect (snd (connect w)) = (Ok tt, snd (connect w))).
Proof.
  intros connect.
  assert (Hcases :
            (exists e, fst (connect w) = Raise e)
            \/ (fst (connect w) = Ok tt
                /\ exists p, protocol (self (snd (connect w))) = Some p)).
  { unfold connect, _connect.
    destruct (ensure_protocol_cases HAVE_KERBEROS Connection_transport_schemes
                info remote w) as [Hsome Hnone].
    destruct (protocol (self w)) as [p|] eqn:Hp.
    - rewrite (Hsome p eq_refl). right. cbn [fst snd]. split; [reflexivity|].
      rewrite Hp. eauto.
    - rewrite (Hnone eq_refl). unfold _winrm_connect.
      destruct (_winrm_connect_loop HAVE_KERBEROS info remote _ None w)
        as [[[p|]|e] w'] eqn:Hrun; cbn [fst snd].
      + right. split; [reflexivity|]. cbn. eauto.
      + destruct (connect_loop_handles HAVE_KERBEROS info remote _ _ _ _ _ Hrun)
          as (_ & _ & _ & _ & _ & Hnone').
        destruct (Hnone' eq_refl) as [_ Hall].
        now rewrite own_table_not_all_skipped in Hall.
      + left. eauto. }
  split; [exact Hcases|].
  intros Hok. destruct Hcases as [[e He]|[_ [p Hp]]]; [congruence|].
  unfold connect, _connect.
  now apply (ensure_protocol_cases HAVE_KERBEROS Connection_transport_schemes
               info remote (snd (connect w))) with (p := p).
Qed.

(** X21.  With the plugin's own attempt table and a port that is not
    5985 (an unset port counts as 5986), negotiation sends at most two
    probes, and every one of them goes to the https endpoint. *)
Theorem negotiation_stays_on_https (HAVE_KERBEROS : bool)
        (info : ConnectionInfo) (remote : Remote) (w : World) :
  connect_port info <> 5985 ->
  exists ps,
    wire (snd (_winrm_connect HAVE_KERBEROS Connection_transport_schemes info
                              remote w))
    = (wire w ++ map probe ps)%list
    /\ (List.length ps <= 2)%nat
    /\ Forall (fun p => endpoint p = "https://" ++ netloc info ++ "/wsman") ps.
Proof.
  intros Hport. unfold _winrm_connect.
  apply Z.eqb_neq in Hport. rewrite Hport.
  destruct (_winrm_connect_loop HAVE_KERBEROS info remote
              (Connection_transport_schemes https) None w) as [r w'] eqn:Hrun.
  destruct (connect_loop_handles HAVE_KERBEROS info remote _ _ _ _ _ Hrun)
    as (ps & Hw & Hlen & Hall & _).
  exists ps. cbn [snd]. split; [exact Hw|]. split; [exact Hlen|].
  eapply Forall_impl; [|exact Hall].
  intros p (a & realm & Ha & _ & _ & ->).
  cbn in Ha. destruct Ha as [<-|[<-|[]]]; reflexivity.
Qed.

(* ===================================================================== *)
(** * The further properties at concrete inputs *)
(* ===================================================================== *)

(** A command whose output cannot be fetched, on a session that holds
    its handles: the session is the same afterwards. *)
Lemma winrm_exec_reuses_open_session_witness :
  self (snd (_winrm_exec true Connection_transport_schemes Demo.info
                         Demo.breaking "hostname" [] Demo.busy))
  = self Demo.busy.
Proof.
  apply (proj1 (winrm_exec_reuses_open_session
                  true Connection_transport_schemes Demo.info Demo.breaking
                  "hostname" [] Demo.busy Demo.handle eq_refl eq_refl)).
Defined.

(** A command that runs, on a remote end that refuses the clean-up: the
    caller gets the clean-up's error, not the output. *)
Lemma winrm_exec_outcome_witness :
  fst (_winrm_exec true Connection_transport_schemes Demo.info
                   demo_no_cleanup "hostname" [] Demo.busy)
  = Raise (WinRMTransportError "500 cleanup refused").
Proof.
  destruct (winrm_exec_outcome true Connection_transport_schemes Demo.info
              demo_no_cleanup "hostname" [] Demo.busy Demo.handle
              eq_refl eq_refl) as [_ Hran].
  destruct (Hran "cmd-1" eq_refl ltac:(discriminate)) as [Hmasked _].
  apply Hmasked. reflexivity.
Defined.

(** Closing twice. *)
Lemma close_releases_once_witness :
  close Demo.obliging (snd (close Demo.obliging Demo.busy))
  = (Ok tt, snd (close Demo.obliging Demo.busy)).
Proof.
  apply (proj1 (close_releases_once Demo.obliging Demo.busy)). reflexivity.
Defined.

(** A timeout text that also carries a 411. *)
Lemma timeout_text_halts_negotiation_witness :
  _winrm_connect_loop
    false Demo.info
    (Demo.refusing "500 Operation timed out after 30s. Code 411")
    [(plaintext, https); (plaintext, http)] None (Demo.fresh "a" "")
  = (Raise (AnsibleError "the connection attempt timed out"),
     sent (probe (attempt_protocol Demo.info (plaintext, https) None))
          (Demo.fresh "a" "")).
Proof.
  apply (timeout_text_halts_negotiation
           false Demo.info
           (Demo.refusing "500 Operation timed out after 30s. Code 411")
           (plaintext, https) [(plaintext, http)] None (Demo.fresh "a" "")
           None "500 " " after 30s. Code 411");
    reflexivity.
Defined.

(** A connect, a command, an upload, a close and a download in a row. *)
Lemma session_leaves_no_command_open_witness :
  open_commands Demo.obliging
    (wire (invoke_all true Connection_transport_schemes Demo.info
                      (Demo.shell 8143) Demo.codec Demo.obliging
                      [do_connect;
                       do_exec_command demo_tools "ipconfig /all";
                       do_put_file "hello.ps1" "C:\tmp\hello";
                       do_close;
                       do_fetch_file 3 "C:\remote.txt" "fetched/remote.txt"]
                      (new_session (disk (Demo.fresh "hello.ps1" "#!powershell")))))
  = [].
Proof.
  apply (session_leaves_no_command_open
           true Connection_transport_schemes Demo.info (Demo.shell 8143)
           Demo.codec Demo.obliging).
  intros h p sh c a. discriminate.
Defined.

(** The upload of a script of 35 bytes in chunks of 13. *)
Lemma upload_sends_slices_in_order_witness :
  let content := "#!powershell" ++ Py.nl ++ "Write-Host hello world" in
  let w := Demo.fresh "hello.ps1" content in
  exists new,
    wire (snd (put_file true Connection_transport_schemes Demo.info
                        (Demo.shell 8143) Demo.codec Demo.obliging
                        "hello.ps1" "C:\tmp\hello" w))
    = (wire w ++ new)%list
    /\ commands_run new
       = map (chunk_command (Demo.shell 8143) Demo.codec "C:\tmp\hello.ps1" 35)
             [(0, "#!powershell" ++ Py.nl); (13, "Write-Host he");
              (26, "llo world")].
Proof.
  cbv zeta.
  destruct (upload_sends_slices_in_order
              true Connection_transport_schemes Demo.info (Demo.shell 8143)
              Demo.codec Demo.obliging "hello.ps1" "C:\tmp\hello"
              ("#!powershell" ++ Py.nl ++ "Write-Host hello world") 13
              (Demo.fresh "hello.ps1"
                          ("#!powershell" ++ Py.nl ++ "Write-Host hello world")))
    as (_ & _ & _ & new & k & Hwire & _ & Hall).
  - reflexivity.
  - vm_compute. reflexivity.
  - reflexivity.
  - exists new. split; [exact Hwire|].
    rewrite Hall; [|vm_compute; reflexivity].
    vm_compute. reflexivity.
Defined.

(** The same script, uploaded to the path the first upload settled on. *)
Lemma upload_to_extended_path_witness :
  let content := "#!powershell" ++ Py.nl ++ "Write-Host hello world" in
  let w := Demo.fresh "hello.ps1" content in
  exists new k,
    wire (snd (put_file true Connection_transport_schemes Demo.info
                        (Demo.shell 8143) Demo.codec Demo.obliging
                        "hello.ps1" ("C:\tmp\hello" ++ ".ps1") w))
    = (wire w ++ new)%list
    /\ commands_run new
       = firstn k
           (map (chunk_command (Demo.shell 8143) Demo.codec "C:\tmp\hello.ps1" 35)
                [(0, "#!powershell" ++ Py.nl); (13, "Write-Host he");
                 (26, "llo world")]).
Proof.
  cbv zeta.
  destruct (upload_to_extended_path
              true Connection_transport_schemes Demo.info (Demo.shell 8143)
              Demo.codec Demo.obliging "hello.ps1" "C:\tmp\hello"
              ("#!powershell" ++ Py.nl ++ "Write-Host hello world") 13
              (Demo.fresh "hello.ps1"
                          ("#!powershell" ++ Py.nl ++ "Write-Host hello world")))
    as (new & k & Hwire & Hk).
  - reflexivity.
  - vm_compute. reflexivity.
  - exists new, k. split; [exact Hwire|]. rewrite Hk. vm_compute. reflexivity.
Defined.

(** Command lines of 8190 and of 9000 characters. *)
Lemma upload_with_long_command_line_witness :
  let w := Demo.fresh "notes.txt" "abc" in
  put_file true Connection_transport_schemes Demo.info (Demo.shell 8190)
           Demo.codec Demo.obliging "notes.txt" "C:\notes.txt" w
  = (Raise (ValueError "xrange() arg 3 must not be zero"), w)
  /\ put_file true Connection_transport_schemes Demo.info (Demo.shell 9000)
              Demo.codec Demo.obliging "notes.txt" "C:\notes.txt" w
     = (Ok tt, w).
Proof.
  cbv zeta. split.
  - apply (proj1 (upload_with_long_command_line
                    true Connection_transport_schemes Demo.info
                    (Demo.shell 8190) Demo.codec Demo.obliging
                    "notes.txt" "C:\notes.txt" "abc"
                    (Demo.fresh "notes.txt" "abc") eq_refl)).
    vm_compute. split; discriminate.
  - apply (proj2 (upload_with_long_command_line
                    true Connection_transport_schemes Demo.info
                    (Demo.shell 9000) Demo.codec Demo.obliging
                    "notes.txt" "C:\notes.txt" "abc"
                    (Demo.fresh "notes.txt" "abc") eq_refl)).
    vm_compute. split; discriminate.
Defined.

(** The download of a remote directory. *)
Lemma fetch_remote_directory_witness :
  exists w',
    fetch_file_loop true Connection_transport_schemes Demo.info
                    (Demo.shell 722) Demo.codec (Demo.printing "[DIR]")
                    3 "C:\Users" "fetched/Users" 0 false (Demo.fresh "a" "")
    = (Ok (Some tt), w')
    /\ disk w' "fetched/Users" = Some Dir.
Proof.
  destruct (fetch_remote_directory
              true Connection_transport_schemes Demo.info (Demo.shell 722)
              Demo.codec (Demo.printing "[DIR]")
              "C:\Users" "fetched/Users" 0 false (Demo.fresh "a" "")
              (snd (_winrm_exec true Connection_transport_schemes Demo.info
                                (Demo.printing "[DIR]") "PowerShell"
                                ["-EncodedCommand";
                                 fetch_script "C:\Users" 0 fetch_buffer_size]
                                (Demo.fresh "a" "")))
              "PowerShell"
              ["-EncodedCommand"; fetch_script "C:\Users" 0 fetch_buffer_size]
              {| std_out := "[DIR]" ++ Py.nl; std_err := ""; status_code := 0 |})
    as (Hloop & _ & Hmade & _).
  - reflexivity.
  - vm_compute. reflexivity.
  - reflexivity.
  - vm_compute. reflexivity.
  - eexists. split; [apply Hloop|]. apply Hmade. reflexivity.
Defined.

(** The download of a remote path that does not exist. *)
Lemma fetch_remote_failure_witness :
  fst (fetch_file_loop true Connection_transport_schemes Demo.info
                       (Demo.shell 722) Demo.codec demo_failing
                       3 "C:\remote.txt" "fetched/remote.txt" 0 false
                       (Demo.fresh "a" ""))
  = Raise (AnsibleError "failed to transfer file to fetched/remote.txt").
Proof.
  destruct (fetch_remote_failure
              true Connection_transport_schemes Demo.info (Demo.shell 722)
              Demo.codec demo_failing
              "C:\remote.txt" "fetched/remote.txt" 0 false (Demo.fresh "a" "")
              (snd (_winrm_exec true Connection_transport_schemes Demo.info
                                demo_failing "PowerShell"
                                ["-EncodedCommand";
                                 fetch_script "C:\remote.txt" 0 fetch_buffer_size]
                                (Demo.fresh "a" "")))
              "PowerShell"
              ["-EncodedCommand"; fetch_script "C:\remote.txt" 0 fetch_buffer_size]
              {| std_out := ""; std_err := "C:\remote.txt does not exist";
                 status_code := 1 |})
    as [Hloop _].
  - reflexivity.
  - vm_compute. reflexivity.
  - discriminate.
  - now rewrite Hloop.
Defined.

(** The same failure, seen from [fetch_file], for a local path written
    with a backslash. *)
Lemma fetch_file_raises_one_error_witness :
  fst (fetch_file true Connection_transport_schemes Demo.info
                  (Demo.shell 722) Demo.codec demo_failing
                  3 "C:\remote.txt" "fetched\remote.txt" (Demo.fresh "a" ""))
  = Raise (AnsibleError "failed to transfer file to fetched/remote.txt")
  /\ AnsibleError "failed to transfer file to fetched/remote.txt"
     = AnsibleError ("failed to transfer file to "
                     ++ Py.replace_char (ascii_of_nat 92) "/" "fetched\remote.txt").
Proof.
  assert (Hraised :
            fst (fetch_file true Connection_transport_schemes Demo.info
                            (Demo.shell 722) Demo.codec demo_failing
                            3 "C:\remote.txt" "fetched\remote.txt"
                            (Demo.fresh "a" ""))
            = Raise (AnsibleError "failed to transfer file to fetched/remote.txt"))
    by (vm_compute; reflexivity).
  split; [exact Hraised|].
  exact (fetch_file_raises_one_error
           true Connection_transport_schemes Demo.info (Demo.shell 722)
           Demo.codec demo_failing 3 "C:\remote.txt" "fetched\remote.txt"
           (Demo.fresh "a" "") _ Hraised).
Defined.

(** A download onto a local directory. *)
Lemma fetch_onto_local_directory_witness :
  exists w1,
    fetch_file_loop true Connection_transport_schemes Demo.info
                    (Demo.shell 722) Demo.codec (Demo.printing "aGVsbG8=")
                    3 "C:\remote.txt" "fetched" 0 false
                    (demo_with_directory "fetched")
    = (Ok (Some tt), w1)
    /\ disk w1 "fetched" = Some Dir.
Proof.
  exists (snd (fetch_chunk true Connection_transport_schemes Demo.info
                           (Demo.shell 722) Demo.codec
                           (Demo.printing "aGVsbG8=") "C:\remote.txt" 0
                           (demo_with_directory "fetched"))).
  split; [|reflexivity].
  apply (fetch_onto_local_directory
           true Connection_transport_schemes Demo.info (Demo.shell 722)
           Demo.codec (Demo.printing "aGVsbG8=") "C:\remote.txt" "fetched" 0
           (demo_with_directory "fetched") _ "aGVsbG8=").
  - vm_compute. reflexivity.
  - reflexivity.
Defined.

(** A download in one pass. *)
Lemma download_reassembles_witness :
  exists w',
    fetch_file_loop true Connection_transport_schemes Demo.info
                    (Demo.shell 722) Demo.codec (Demo.printing "aGVsbG8=")
                    1 "C:\remote.txt" "fetched/remote.txt" 0 false
                    (demo_with_directory "fetched")
    = (Ok (Some tt), w')
    /\ disk w' "fetched/remote.txt" = Some (File "aGVsbG8=").
Proof.
  eexists.
  refine (let Hd := downloaded_last
                      true Connection_transport_schemes Demo.info
                      (Demo.shell 722) Demo.codec (Demo.printing "aGVsbG8=")
                      "C:\remote.txt" "fetched/remote.txt" 0 false
                      (demo_with_directory "fetched")
                      (snd (fetch_chunk true Connection_transport_schemes
                                        Demo.info (Demo.shell 722) Demo.codec
                                        (Demo.printing "aGVsbG8=")
                                        "C:\remote.txt" 0
                                        (demo_with_directory "fetched")))
                      "aGVsbG8=" _ _ in _).
  destruct (download_reassembles
              true Connection_transport_schemes Demo.info (Demo.shell 722)
              Demo.codec (Demo.printing "aGVsbG8=")
              "C:\remote.txt" "fetched/remote.txt" 0 false
              (demo_with_directory "fetched")
              ["aGVsbG8="] _ Hd "" (conj eq_refl eq_refl)) as [Hloop Hfile].
  split; [apply Hloop; cbn; lia|exact Hfile].
  Unshelve.
  - vm_compute. reflexivity.
  - reflexivity.
Defined.

(** A command on a remote end where fetching the output breaks. *)
Lemma exec_command_errors_witness :
  let w := Demo.fresh "a" "" in
  let run := exec_command true Connection_transport_schemes Demo.info
                          (Demo.shell 722) Demo.codec Demo.breaking
                          demo_tools "ipconfig /all" w in
  let e := AnsibleError "failed to exec cmd ipconfig /all" in
  fst run = Raise e
  /\ (((shlex_split demo_tools "ipconfig /all" = Raise e
        \/ e = IndexError \/ e = TypeError) /\ snd run = w)
      \/ e = AnsibleError ("failed to exec cmd " ++ "ipconfig /all")).
Proof.
  cbv zeta.
  assert (Hraised :
            fst (exec_command true Connection_transport_schemes Demo.info
                              (Demo.shell 722) Demo.codec Demo.breaking
                              demo_tools "ipconfig /all" (Demo.fresh "a" ""))
            = Raise (AnsibleError "failed to exec cmd ipconfig /all"))
    by (vm_compute; reflexivity).
  split; [exact Hraised|].
  exact (exec_command_errors
           true Connection_transport_schemes Demo.info (Demo.shell 722)
           Demo.codec Demo.breaking demo_tools "ipconfig /all"
           (Demo.fresh "a" "") _ Hraised).
Defined.

(** A command line that ends with [-EncodedCommand]. *)
Lemma exec_command_log_line_fails_witness :
  exec_command true Connection_transport_schemes Demo.info (Demo.shell 722)
               Demo.codec Demo.obliging demo_tools
               "PowerShell -NoProfile -EncodedCommand" (Demo.fresh "a" "")
  = (Raise IndexError, Demo.fresh "a" "").
Proof.
  apply (proj1 (exec_command_log_line_fails
                  true Connection_transport_schemes Demo.info (Demo.shell 722)
                  Demo.codec Demo.obliging demo_tools
                  "PowerShell -NoProfile -EncodedCommand" (Demo.fresh "a" ""))
               ["PowerShell"; "-NoProfile"]);
    reflexivity.
Defined.

(** A script path with an argument, on a remote end whose commands end
    with status 1: the script is run once, encoded, and the status comes
    back. *)
Lemma exec_command_runs_once_witness :
  let w := Demo.fresh "a" "" in
  let run := exec_command true Connection_transport_schemes Demo.info
                          (Demo.shell 722) Demo.codec demo_failing
                          demo_tools "C:\scripts\Setup.PS1 -Force" w in
  fst run = Ok (1, "", "", "C:\remote.txt does not exist")
  /\ exists new,
      wire (snd run) = (wire w ++ new)%list
      /\ commands_run new
         = [["PowerShell"; "-EncodedCommand"; "& C:\scripts\Setup.PS1-Force"]].
Proof.
  cbv zeta.
  assert (Hreturned :
            fst (exec_command true Connection_transport_schemes Demo.info
                              (Demo.shell 722) Demo.codec demo_failing
                              demo_tools "C:\scripts\Setup.PS1 -Force"
                              (Demo.fresh "a" ""))
            = Ok (1, "", "", "C:\remote.txt does not exist"))
    by (vm_compute; reflexivity).
  split; [exact Hreturned|].
  destruct (exec_command_runs_once
              true Connection_transport_schemes Demo.info (Demo.shell 722)
              Demo.codec demo_failing demo_tools "C:\scripts\Setup.PS1 -Force"
              ["C:\scripts\Setup.PS1"; "-Force"] (Demo.fresh "a" "")
              eq_refl (or_introl eq_refl)) as (_ & new & Hwire & _ & Hok).
  exists new. split; [exact Hwire|].
  destruct (Hok _ _ _ _ Hreturned) as [_ ->]. reflexivity.
Defined.

(** A target without a port, refused on every attempt. *)
Lemma negotiation_stays_on_https_witness :
  let w := Demo.fresh "a" "" in
  exists ps,
    wire (snd (_winrm_connect
                 true Connection_transport_schemes demo_default_port
                 (Demo.refusing "Bad HTTP response returned from server. Code 500")
                 w))
    = (wire w ++ map probe ps)%list
    /\ (List.length ps <= 2)%nat
    /\ Forall (fun p => endpoint p = "https://winhost:5986/wsman") ps.
Proof.
  cbv zeta.
  destruct (negotiation_stays_on_https
              true demo_default_port
              (Demo.refusing "Bad HTTP response returned from server. Code 500")
              (Demo.fresh "a" ""))
    as (ps & Hwire & Hlen & Hall).
  - intros H. vm_compute in H. discriminate H.
  - exists ps. split; [exact Hwire|]. split; [exact Hlen|].
    eapply Forall_impl; [|exact Hall]. intros p ->. reflexivity.
Defined.
